(** * EDDN Relay and Monitor: a shallow embedding of the message workers

    Source files embedded here:
    - [src/eddn/Relay.py]   : [Relay.generate_uploader_nonce],
      [Relay.scramble_uploader], the nested [relay_worker] and the receive
      loop of [Relay.run];
    - [src/eddn/Monitor.py] : the nested [monitor_worker] of [Monitor.run].

    Python objects are modelled as follows: [bytes] is a list of bytes,
    [str] is a [string] of ASCII text, a parsed JSON document is a value of
    [JSON] with [dict] as a finite map, a reading of [time.time()] is a
    binary64 [float], exceptions are an error result, and the mutable process
    state (statistics counters, nonce, duplicate cache, public socket,
    database) is threaded explicitly. *)

From Stdlib Require Import Floats.PrimFloat.
From Stdlib Require Import ZArith NArith String Ascii Strings.Byte List Lia DecimalString.
From stdpp Require Import gmap strings list fin_maps.

#[local] Open Scope N_scope.

(** ** Bytes *)

Abbreviation bytes := (list byte).

#[global] Instance byte_eq_decision : EqDecision byte := Byte.byte_eq_dec.

(** [s.encode('utf8')] on ASCII text: one byte per character. *)
Definition encode_utf8 (s : string) : bytes := list_byte_of_string s.

(** ** hashlib.sha1 (FIPS 180-4), on 32-bit words kept as [N] *)

Module SHA1.

Definition w32 (x : N) : N := x mod 2 ^ 32.

Definition add32 (x y : N) : N := w32 (x + y).

Definition rotl (n x : N) : N :=
  w32 (N.lor (N.shiftl x n) (N.shiftr x (32 - n))).

(** Big-endian encoding of [x] on [n] bytes. *)
Fixpoint be_bytes (n : nat) (x : N) : list N :=
  match n with
  | O => []
  | S k => (x / 256 ^ N.of_nat k) mod 256 :: be_bytes k x
  end.

(** Message padding: a 1 bit, zeros up to 56 mod 64, the bit length on 64 bits. *)
Definition pad (msg : list N) : list N :=
  let len := N.of_nat (length msg) in
  let k := (55 + 64 - len mod 64) mod 64 in
  msg ++ [128] ++ repeat 0 (N.to_nat k) ++ be_bytes 8 (8 * len).

Definition be_word (b0 b1 b2 b3 : N) : N :=
  ((b0 * 256 + b1) * 256 + b2) * 256 + b3.

Fixpoint words_of (fuel : nat) (l : list N) : list N :=
  match fuel, l with
  | S f, b0 :: b1 :: b2 :: b3 :: l' => be_word b0 b1 b2 b3 :: words_of f l'
  | _, _ => []
  end.

(** The message schedule, most recent word first: [acc] holds w[t-1], w[t-2], ... *)
Fixpoint expand (n : nat) (acc : list N) : list N :=
  match n with
  | O => acc
  | S k =>
      let w := rotl 1 (N.lxor (N.lxor (nth 2 acc 0) (nth 7 acc 0))
                              (N.lxor (nth 13 acc 0) (nth 15 acc 0))) in
      expand k (w :: acc)
  end.

Definition schedule (block : list N) : list N :=
  rev (expand 64 (rev block)).

Definition state : Type := N * N * N * N * N.

Definition f_k (t : nat) (b c d : N) : N * N :=
  if (t <? 20)%nat then (N.lor (N.land b c) (N.land (N.lxor b 4294967295) d), 1518500249)
  else if (t <? 40)%nat then (N.lxor (N.lxor b c) d, 1859775393)
  else if (t <? 60)%nat then
    (N.lor (N.lor (N.land b c) (N.land b d)) (N.land c d), 2400959708)
  else (N.lxor (N.lxor b c) d, 3395469782).

Definition round (t : nat) (w : N) (s : state) : state :=
  let '(a, b, c, d, e) := s in
  let '(f, k) := f_k t b c d in
  let temp := add32 (add32 (add32 (add32 (rotl 5 a) f) e) k) w in
  (temp, a, rotl 30 b, c, d).

Fixpoint rounds (t : nat) (ws : list N) (s : state) : state :=
  match ws with
  | [] => s
  | w :: ws' => rounds (S t) ws' (round t w s)
  end.

Definition compress_block (h : state) (block : list N) : state :=
  let '(h0, h1, h2, h3, h4) := h in
  let '(a, b, c, d, e) := rounds 0 (schedule block) h in
  (add32 h0 a, add32 h1 b, add32 h2 c, add32 h3 d, add32 h4 e).

Fixpoint blocks (fuel : nat) (h : state) (ws : list N) : state :=
  match fuel with
  | O => h
  | S f =>
      match ws with
      | [] => h
      | _ => blocks f (compress_block h (firstn 16 ws)) (skipn 16 ws)
      end
  end.

Definition init : state :=
  (1732584193, 4023233417, 2562383102, 271733878, 3285377520).

Definition digest_words (msg : bytes) : list N :=
  let p := pad (map Byte.to_N msg) in
  let ws := words_of (length p) p in
  let '(h0, h1, h2, h3, h4) := blocks (length ws) init ws in
  [h0; h1; h2; h3; h4].

Definition hex_digit (d : N) : ascii :=
  if d <? 10 then ascii_of_N (48 + d) else ascii_of_N (87 + d).

Fixpoint hex_word (n : nat) (w : N) : string :=
  match n with
  | O => EmptyString
  | S k => String (hex_digit ((w / 16 ^ N.of_nat k) mod 16)) (hex_word k w)
  end.

Fixpoint concat_hex (ws : list N) : string :=
  match ws with
  | [] => EmptyString
  | w :: ws' => (hex_word 8 w ++ concat_hex ws')%string
  end.

(** [hashlib.sha1(msg).hexdigest()] *)
Definition hexdigest (msg : bytes) : string := concat_hex (digest_words msg).

End SHA1.

(** ** Python text helpers *)

Definition squote : ascii := ascii_of_N 39.
Definition dquote : ascii := ascii_of_N 34.
Definition backslash : ascii := ascii_of_N 92.

Fixpoint mem_char (c : ascii) (s : string) : bool :=
  match s with
  | EmptyString => false
  | String d s' => Ascii.eqb c d || mem_char c s'
  end.

(** One character of [repr(str)] inside the quote [q]. *)
Definition repr_char (q c : ascii) : string :=
  let n := N_of_ascii c in
  if Ascii.eqb c backslash then String backslash (String backslash EmptyString)
  else if Ascii.eqb c q then String backslash (String q EmptyString)
  else if n =? 10 then String backslash "n"
  else if n =? 13 then String backslash "r"
  else if n =? 9 then String backslash "t"
  else if (n <? 32) || (126 <? n) then String backslash ("x" +:+ SHA1.hex_word 2 n)
  else String c EmptyString.

Fixpoint repr_body (q : ascii) (s : string) : string :=
  match s with
  | EmptyString => EmptyString
  | String c s' => repr_char q c +:+ repr_body q s'
  end.

(** [repr(s)] for a [str] of ASCII text: single quotes unless the text has a
    single quote and no double quote. *)
Definition repr_str (s : string) : string :=
  let q := if mem_char squote s && negb (mem_char dquote s) then dquote else squote in
  String q (repr_body q s +:+ String q EmptyString).

(** [repr] of [self.uploader_nonce], which is [None] until the first
    [generate_uploader_nonce]. *)
Definition repr_nonce (nonce : option string) : string :=
  match nonce with
  | None => "None"
  | Some s => repr_str s
  end.

(** Lower-case hexadecimal without leading zeros, as in [%x]. *)
Definition hex_of_N (n : N) : string :=
  SHA1.hex_word (Nat.max 1 (N.to_nat ((N.size n + 3) / 4))) n.

(** What an f-string field renders for the bound method [uploader.encode] of
    a [str] object living at address [addr]. *)
Definition str_encode_method_repr (addr : N) : string :=
  "<built-in method encode of str object at 0x" +:+ hex_of_N addr +:+ ">".

(** [uuid.uuid4()]: 16 random bytes with the version and variant bits forced;
    [r] is the integer value of the random bytes. *)
Definition uuid4_int (r : N) : N :=
  let i := r mod 2 ^ 128 in
  let i := N.ldiff i (N.shiftl 49152 48) in
  let i := N.lor i (N.shiftl 32768 48) in
  let i := N.ldiff i (N.shiftl 61440 64) in
  N.lor i (N.shiftl 4 76).

(** [str(u)] for a [UUID] with integer value [i]. *)
Definition uuid_str (i : N) : string :=
  let hex := SHA1.hex_word 32 i in
  substring 0 8 hex +:+ "-" +:+ substring 8 4 hex +:+ "-" +:+ substring 12 4 hex
  +:+ "-" +:+ substring 16 4 hex +:+ "-" +:+ substring 20 12 hex.

(** ** Parsed JSON documents and the Python operations the workers apply *)

(** What [simplejson.loads] returns: [None], [bool], [int], [float] (kept as
    its [repr], the workers never compute with it), [str], [list] and [dict]
    with [str] keys. *)
#[warnings="-register-all"]
Inductive JSON : Type :=
| JNull
| JBool (b : bool)
| JInt (n : Z)
| JFloat (repr : string)
| JStr (s : string)
| JArr (l : list JSON)
| JObj (m : gmap string JSON).

Inductive exn : Type :=
| KeyError | TypeError | AttributeError | NameError | ValueError | zlib_error
| JSONDecodeError.

Inductive result (A : Type) : Type :=
| Ok (a : A)
| Raise (e : exn).
Arguments Ok {A} a.
Arguments Raise {A} e.

Fixpoint is_substring (k s : string) : bool :=
  String.prefix k s ||
  match s with
  | EmptyString => false
  | String _ s' => is_substring k s'
  end.

Definition is_str (k : string) (v : JSON) : bool :=
  match v with
  | JStr s => String.eqb s k
  | _ => false
  end.

(** [o[k]] with a [str] key. *)
Definition getitem (o : JSON) (k : string) : result JSON :=
  match o with
  | JObj m => match m !! k with Some v => Ok v | None => Raise KeyError end
  | _ => Raise TypeError
  end.

(** [k in o] with a [str] on the left: key membership on a dict, element
    equality on a list, substring on a str, [TypeError] otherwise. *)
Definition contains (k : string) (o : JSON) : result bool :=
  match o with
  | JObj m => Ok (bool_decide (is_Some (m !! k)))
  | JArr l => Ok (existsb (is_str k) l)
  | JStr s => Ok (is_substring k s)
  | _ => Raise TypeError
  end.

(** [o[k] = v] *)
Definition setitem (o : JSON) (k : string) (v : JSON) : result JSON :=
  match o with
  | JObj m => Ok (JObj (<[k := v]> m))
  | _ => Raise TypeError
  end.

(** [del o[k]] *)
Definition delitem (o : JSON) (k : string) : result JSON :=
  match o with
  | JObj m => match m !! k with Some _ => Ok (JObj (delete k m)) | None => Raise KeyError end
  | _ => Raise TypeError
  end.

Definition of_option {A : Type} (e : exn) (o : option A) : result A :=
  match o with
  | Some a => Ok a
  | None => Raise e
  end.

(** Truth value of an [int] setting. *)
Definition truthy (n : Z) : bool := negb (n =? 0)%Z.

(** ** Stateful computations that may raise *)

Definition M (St A : Type) : Type := St -> St * result A.

Definition ret {St A : Type} (a : A) : M St A := fun s => (s, Ok a).

Definition lift {St A : Type} (r : result A) : M St A := fun s => (s, r).

Definition bind {St A B : Type} (m : M St A) (k : A -> M St B) : M St B :=
  fun s =>
    match m s with
    | (s', Ok a) => k a s'
    | (s', Raise e) => (s', Raise e)
    end.

Definition gets {St A : Type} (f : St -> A) : M St A := fun s => (s, Ok (f s)).

Definition modify {St : Type} (f : St -> St) : M St unit := fun s => (f s, Ok tt).

Notation "x <- m ;; k" := (bind m (fun x => k))
  (at level 100, m at next level, right associativity).
Notation "m ;;; k" := (bind m (fun _ => k))
  (at level 100, right associativity).

(** ** Collaborators that are not part of the embedded sources

    [zlib] and [simplejson] are third-party libraries; the module
    [eddn.core.DuplicateMessages] belongs to the repository but is not among
    the source files.  Their entry points are parameters of the workers:
    [None] stands for [zlib.error], for a JSON decoding error, respectively
    for the [ValueError] with which [simplejson.dumps] refuses a document
    (a float out of range, as no [allow_nan] is passed); the [bool] is
    [sort_keys]; [is_duplicated] may update the cache it is called on. *)
Record libs : Type := {
  zlib_decompress : bytes -> option bytes;
  zlib_compress : bytes -> bytes;
  simplejson_loads : bytes -> option JSON;
  simplejson_dumps : JSON -> bool -> option string;
  DuplicateMessages : Type;
  is_duplicated : DuplicateMessages -> JSON -> result bool * DuplicateMessages
}.

(** Modelled from the spec: [eddn.core.StatsCollector] is not among the
    source files.  Section 3: a stats counter is a named non-negative integer,
    monotonically increasing; section 4.C: [tally(name)].  A counter never
    tallied reads zero. *)
Definition count (stats : gmap string nat) (name : string) : nat :=
  default 0%nat (stats !! name).

Definition tally_counter (name : string) (stats : gmap string nat) : gmap string nat :=
  <[name := S (count stats name)]> stats.

(** Values the interpreter and the operating system hand to one run of a
    worker: the two readings of [time.time()] (in [scramble_uploader] and in
    [generate_uploader_nonce]), each a double, the random bytes behind
    [uuid.uuid4()], and the address of the [str] object holding the uploader
    ID. *)
Record inputs : Type := {
  time_scramble : float;
  time_generate : float;
  urandom16 : N;
  id_uploader : N
}.

Module Relay.
Section Relay.

Variable L : libs.

(** [Settings.RELAY_DUPLICATE_MAX_MINUTES] *)
Variable RELAY_DUPLICATE_MAX_MINUTES : Z.

(** The state the worker acts on: [stats_collector], the two attributes of
    the [Relay] object, the module global [duplicate_messages] (bound only
    when the setting was true at import time) and the frames handed to
    [sender.send], oldest first. *)
Record world : Type := {
  stats_collector : gmap string nat;
  uploader_nonce : option string;
  uploader_nonce_timestamp : float;
  duplicate_messages : option (DuplicateMessages L);
  sender : list bytes
}.

(** [12 * 60 * 60]: an [int], which the comparison of line 75 sets against a
    double; 43200 is a double, so the comparison is the one of doubles. *)
Definition REGENERATE_UPLOADER_NONCE_INTERVAL : float := 43200.

Definition tally (name : string) : M world unit :=
  modify (fun w =>
    {| stats_collector := tally_counter name (stats_collector w);
       uploader_nonce := uploader_nonce w;
       uploader_nonce_timestamp := uploader_nonce_timestamp w;
       duplicate_messages := duplicate_messages w;
       sender := sender w |}).

Definition send (message : bytes) : M world unit :=
  modify (fun w =>
    {| stats_collector := stats_collector w;
       uploader_nonce := uploader_nonce w;
       uploader_nonce_timestamp := uploader_nonce_timestamp w;
       duplicate_messages := duplicate_messages w;
       sender := sender w ++ [message] |}).

Definition generate_uploader_nonce (inp : inputs) : M world unit :=
  modify (fun w =>
    {| stats_collector := stats_collector w;
       uploader_nonce := Some (uuid_str (uuid4_int (urandom16 inp)));
       uploader_nonce_timestamp := time_generate inp;
       duplicate_messages := duplicate_messages w;
       sender := sender w |}).

(** [uploader.encode] inside the f-string: the attribute is looked up, not
    called; only a [str] has it. *)
Definition format_uploader_encode (inp : inputs) (uploader : JSON) : result string :=
  match uploader with
  | JStr _ => Ok (str_encode_method_repr (id_uploader inp))
  | _ => Raise AttributeError
  end.

(** Line 75 subtracts two doubles: the difference is rounded before it is
    compared with the interval. *)
Definition scramble_uploader (inp : inputs) (uploader : JSON) : M world string :=
  let now := time_scramble inp in
  ts <- gets uploader_nonce_timestamp ;;
  (if (REGENERATE_UPLOADER_NONCE_INTERVAL <? now - ts)%float
   then generate_uploader_nonce inp else ret tt) ;;;
  nonce <- gets uploader_nonce ;;
  field <- lift (format_uploader_encode inp uploader) ;;
  ret (SHA1.hexdigest (encode_utf8 (repr_nonce nonce +:+ "-" +:+ field))).

(** [duplicate_messages.is_duplicated(json)] on the module global. *)
Definition check_duplicated (json : JSON) : M world bool :=
  fun w =>
    match duplicate_messages w with
    | None => (w, Raise NameError)
    | Some c =>
        let '(r, c') := is_duplicated L c json in
        ({| stats_collector := stats_collector w;
            uploader_nonce := uploader_nonce w;
            uploader_nonce_timestamp := uploader_nonce_timestamp w;
            duplicate_messages := Some c';
            sender := sender w |}, r)
    end.

(** The header dict is shared with the envelope: a mutation made through
    [json['header']] is seen in [json]. *)
Definition with_header (json header : JSON) : JSON :=
  match json with
  | JObj m => JObj (<["header" := header]> m)
  | _ => json
  end.

Definition relay_worker (inp : inputs) (message : bytes) : M world unit :=
  message_text <- lift (of_option zlib_error (zlib_decompress L message)) ;;
  json <- lift (of_option JSONDecodeError (simplejson_loads L message_text)) ;;
  (* Handle duplicate message *)
  duplicate <- (if truthy RELAY_DUPLICATE_MAX_MINUTES
                then check_duplicated json else ret false) ;;
  if duplicate then tally "duplicate"
  else
    (* Mask the uploader *)
    header <- lift (getitem json "header") ;;
    has_id <- lift (contains "uploaderID" header) ;;
    json <- (if has_id then
               header <- lift (getitem json "header") ;;
               uploader <- lift (getitem header "uploaderID") ;;
               scrambled <- scramble_uploader inp uploader ;;
               header <- lift (getitem json "header") ;;
               header <- lift (setitem header "uploaderID" (JStr scrambled)) ;;
               ret (with_header json header)
             else ret json) ;;
    (* Remove IP to end consumer *)
    header <- lift (getitem json "header") ;;
    has_ip <- lift (contains "uploaderIP" header) ;;
    json <- (if has_ip then
               header <- lift (getitem json "header") ;;
               header <- lift (delitem header "uploaderIP") ;;
               ret (with_header json header)
             else ret json) ;;
    (* Convert message back to JSON *)
    message_json <- lift (of_option ValueError (simplejson_dumps L json true)) ;;
    (* Recompress message *)
    let message := zlib_compress L (encode_utf8 message_json) in
    (* Send message *)
    send message ;;;
    tally "outbound".

(** [Relay.__init__] followed by the first statement the loop can observe:
    a fresh nonce, empty counters, nothing sent.  The timestamp [0] of line
    59 is replaced by a reading of the clock before anything compares it. *)
Definition init (inp : inputs) (dm : option (DuplicateMessages L)) : world :=
  fst (generate_uploader_nonce inp
         {| stats_collector := ∅;
            uploader_nonce := None;
            uploader_nonce_timestamp := 0%float;
            duplicate_messages := dm;
            sender := [] |}).

(** The receive loop of [run]: every received frame is tallied as [inbound]
    and a greenlet is spawned for it; a spawned greenlet runs [relay_worker]
    at some later point, in any order. *)
Record loop : Type := {
  now : world;
  spawned : list bytes
}.

Inductive step : loop -> loop -> Prop :=
| step_recv (s : loop) (inbound_message : bytes) :
    step s {| now := fst (tally "inbound" (now s));
              spawned := spawned s ++ [inbound_message] |}
| step_worker (s : loop) (inp : inputs) (before after : list bytes) (message : bytes) :
    spawned s = before ++ message :: after ->
    step s {| now := fst (relay_worker inp message (now s));
              spawned := before ++ after |}.

Inductive reachable (inp : inputs) (dm : option (DuplicateMessages L)) : loop -> Prop :=
| reach_start : reachable inp dm {| now := init inp dm; spawned := [] |}
| reach_step (s s' : loop) : reachable inp dm s -> step s s' -> reachable inp dm s'.

End Relay.

Arguments stats_collector {L} w.
Arguments uploader_nonce {L} w.
Arguments uploader_nonce_timestamp {L} w.
Arguments duplicate_messages {L} w.
Arguments sender {L} w.
Arguments now {L} l.
Arguments spawned {L} l.

End Relay.

(** ** [bytes.split(sep)] for a non-empty separator

    Occurrences are found left to right and do not overlap: after a match
    the scan resumes behind the separator ([skip] counts the separator bytes
    still to be passed over). *)
Fixpoint split_from (sep : bytes) (skip : nat) (l : bytes) : list bytes :=
  match l with
  | [] => [[]]
  | b :: l' =>
      match skip with
      | S k => split_from sep k l'
      | O =>
          if bool_decide (sep `prefix_of` l)
          then [] :: split_from sep (length sep - 1) l'
          else match split_from sep 0 l' with
               | seg :: segs => (b :: seg) :: segs
               | [] => [[b]]
               end
      end
  end.

Definition bytes_split (sep l : bytes) : list bytes := split_from sep 0 l.

Module Monitor.
Section Monitor.

Variable L : libs.

(** [Settings.RELAY_DUPLICATE_MAX_MINUTES] *)
Variable RELAY_DUPLICATE_MAX_MINUTES : Z.

(** Modelled from the spec: the statistics database is an external
    collaborator.  Section 6: tables [schemas(name, hits, dateStats)] and
    [softwares(name, hits, dateStats)] with primary key [(name, dateStats)].
    A table maps its primary key to [hits]; dates are day numbers.  The
    value [hits] takes when a row is inserted without it is the column
    default, which the spec does not give: it is a parameter. *)
Variable default_hits : Z.

Abbreviation table := (gmap (string * Z) Z).

Record database : Type := {
  schemas : table;
  softwares : table;
  UTC_DATE : Z
}.

(** [UPDATE t SET hits = hits + 1 WHERE name = %s AND dateStats = UTC_DATE()] *)
Definition update_hits (name : string) (today : Z) (t : table) : table :=
  alter Z.succ (name, today) t.

(** [INSERT IGNORE INTO t (name, dateStats) VALUES (%s, UTC_DATE())] *)
Definition insert_ignore (name : string) (today : Z) (t : table) : table :=
  match t !! (name, today) with
  | Some _ => t
  | None => <[(name, today) := default_hits]> t
  end.

Record world : Type := {
  db : database;
  duplicate_messages : option (DuplicateMessages L)
}.

Definition on_schemas (f : Z -> table -> table) : M world unit :=
  modify (fun w =>
    {| db := {| schemas := f (UTC_DATE (db w)) (schemas (db w));
                softwares := softwares (db w);
                UTC_DATE := UTC_DATE (db w) |};
       duplicate_messages := duplicate_messages w |}).

Definition on_softwares (f : Z -> table -> table) : M world unit :=
  modify (fun w =>
    {| db := {| schemas := schemas (db w);
                softwares := f (UTC_DATE (db w)) (softwares (db w));
                UTC_DATE := UTC_DATE (db w) |};
       duplicate_messages := duplicate_messages w |}).

(** [duplicate_messages.is_duplicated(json)] on the module global. *)
Definition check_duplicated (json : JSON) : M world bool :=
  fun w =>
    match duplicate_messages w with
    | None => (w, Raise NameError)
    | Some c =>
        let '(r, c') := is_duplicated L c json in
        ({| db := db w; duplicate_messages := Some c' |}, r)
    end.

Definition SEPARATOR : bytes := encode_utf8 " |-| ".

(** Lines 193-200: separate topic from message. *)
Definition strip_topic (message : bytes) : bytes :=
  let message_split := bytes_split SEPARATOR message in
  if (1 <? length message_split)%nat
  then nth 1 message_split []
  else nth 0 message_split [].

(** [v.encode('utf8')]: only a [str] has the method. *)
Definition str_encode (v : JSON) : result bytes :=
  match v with
  | JStr s => Ok (encode_utf8 s)
  | _ => Raise AttributeError
  end.

(** [bytes + str]: Python 3 refuses to concatenate the two types. *)
Definition bytes_add_str (b : bytes) (s : string) : result bytes := Raise TypeError.

Definition bind_result {A B : Type} (r : result A) (k : A -> result B) : result B :=
  match r with
  | Ok a => k a
  | Raise e => Raise e
  end.

(** Lines 207-208, operands evaluated left to right. *)
Definition software_id_of (json : JSON) : result bytes :=
  bind_result (getitem json "header") (fun header =>
  bind_result (getitem header "softwareName") (fun name =>
  bind_result (str_encode name) (fun a =>
  bind_result (bytes_add_str a " | ") (fun ab =>
  bind_result (getitem json "header") (fun header =>
  bind_result (getitem header "softwareVersion") (fun version =>
  bind_result (str_encode version) (fun c =>
  Ok (ab ++ c)))))))).

(** Lines 210-254: the counting block, entered with [schema_id] and
    [software_id] bound.  Every pair of statements is committed before the
    next one starts, so the statements act on the database directly. *)
Definition count_message (schema_id software_id : string) (json : JSON) : M world unit :=
  duplicate <- (if truthy RELAY_DUPLICATE_MAX_MINUTES
                then check_duplicated json else ret false) ;;
  if duplicate then
    let schema_id := "DUPLICATE MESSAGE" in
    on_schemas (update_hits schema_id) ;;;
    on_schemas (insert_ignore schema_id)
  else
    (* Update software count *)
    on_softwares (update_hits software_id) ;;;
    on_softwares (insert_ignore software_id) ;;;
    (* Update schemas count *)
    on_schemas (update_hits schema_id) ;;;
    on_schemas (insert_ignore schema_id).

(** A query parameter bound to [name]: the envelope's [$schemaRef] is a
    string in the data model; any other JSON value is refused here. *)
Definition name_param (v : JSON) : result string :=
  match v with
  | JStr s => Ok s
  | _ => Raise TypeError
  end.

(** The connection opened on entry is taken to succeed, and closing it
    leaves the tables as they are. *)
Definition monitor_worker (message : bytes) : M world unit :=
  let message := strip_topic message in
  message_text <- lift (of_option zlib_error (zlib_decompress L message)) ;;
  json <- lift (of_option JSONDecodeError (simplejson_loads L message_text)) ;;
  schema_id <- lift (getitem json "$schemaRef") ;;
  software_id <- lift (software_id_of json) ;;
  schema_id <- lift (name_param schema_id) ;;
  count_message schema_id (string_of_list_byte software_id) json.

End Monitor.

Arguments db {L} w.
Arguments duplicate_messages {L} w.

End Monitor.

(** ** An executable instance of the collaborators

    Enough of each collaborator to run the workers on concrete frames:
    - zlib streams (RFC 1950) whose deflate data is made of stored blocks;
      every inflater reads them, and a header that fails the RFC 1950 check
      is refused as [zlib.decompress] refuses it;
    - JSON text without floating-point numbers and without [\u] escapes,
      written with simplejson's default separators and sorted keys; a
      document holding a float out of range is refused;
    - a duplicate cache, modelled from the spec (section 3, fingerprint and
      duplicate entry): it remembers the SHA-1 fingerprint of every envelope
      it has seen, with the transient header fields removed, and its window
      does not elapse. *)
Module Sample.

Definition adler32 (data : bytes) : N :=
  let '(a, b) :=
    fold_left (fun '(a, b) x =>
                 let a' := (a + Byte.to_N x) mod 65521 in
                 (a', (b + a') mod 65521))
              data (1, 0) in
  b * 65536 + a.

Definition byte_of_N (n : N) : byte :=
  match Byte.of_N (n mod 256) with
  | Some b => b
  | None => Byte.x00
  end.

Definition stored_block (final : bool) (data : bytes) : bytes :=
  let len := N.of_nat (length data) in
  let nlen := 65535 - len in
  [byte_of_N (if final then 1 else 0);
   byte_of_N len; byte_of_N (len / 256);
   byte_of_N nlen; byte_of_N (nlen / 256)] ++ data.

Fixpoint stored_blocks (fuel : nat) (data : bytes) : bytes :=
  match fuel with
  | O => stored_block true []
  | S f =>
      if N.of_nat (length data) <=? 65535 then stored_block true data
      else stored_block false (firstn (N.to_nat 65535) data)
           ++ stored_blocks f (skipn (N.to_nat 65535) data)
  end.

Definition compress (data : bytes) : bytes :=
  [Byte.x78; Byte.x01] ++ stored_blocks (length data) data
  ++ map byte_of_N (SHA1.be_bytes 4 (adler32 data)).

Fixpoint inflate_stored (fuel : nat) (l : bytes) : option (bytes * bytes) :=
  match fuel, l with
  | S f, hd :: l0 :: l1 :: n0 :: n1 :: rest =>
      let h := Byte.to_N hd in
      let len := Byte.to_N l0 + 256 * Byte.to_N l1 in
      let nlen := Byte.to_N n0 + 256 * Byte.to_N n1 in
      if negb ((h / 2) mod 4 =? 0) then None
      else if negb (len + nlen =? 65535) then None
      else if (length rest <? N.to_nat len)%nat then None
      else
        let data := firstn (N.to_nat len) rest in
        let rest' := skipn (N.to_nat len) rest in
        if h mod 2 =? 1 then Some (data, rest')
        else match inflate_stored f rest' with
             | Some (more, rest'') => Some (data ++ more, rest'')
             | None => None
             end
  | _, _ => None
  end.

Definition decompress (l : bytes) : option bytes :=
  match l with
  | cmf :: flg :: body =>
      let c := Byte.to_N cmf in
      let f := Byte.to_N flg in
      if negb (c mod 16 =? 8) || (7 <? c / 16) || negb ((c * 256 + f) mod 31 =? 0)
         || ((f / 32) mod 2 =? 1)
      then None
      else match inflate_stored (length body) body with
           | Some (data, a3 :: a2 :: a1 :: a0 :: _) =>
               if bool_decide (map Byte.to_N [a3; a2; a1; a0] = SHA1.be_bytes 4 (adler32 data))
               then Some data else None
           | _ => None
           end
  | _ => None
  end.

(** *** JSON text *)

Fixpoint insert_by_key (kv : string * JSON) (l : list (string * JSON)) : list (string * JSON) :=
  match l with
  | [] => [kv]
  | kv' :: l' =>
      if String.leb (fst kv) (fst kv') then kv :: l else kv' :: insert_by_key kv l'
  end.

Definition sort_by_key (l : list (string * JSON)) : list (string * JSON) :=
  fold_right insert_by_key [] l.

Definition escape_char (c : ascii) : string :=
  let n := N_of_ascii c in
  if Ascii.eqb c dquote then String backslash (String dquote EmptyString)
  else if Ascii.eqb c backslash then String backslash (String backslash EmptyString)
  else if n =? 10 then String backslash "n"
  else if n =? 13 then String backslash "r"
  else if n =? 9 then String backslash "t"
  else if (n <? 32) || (126 <? n) then String backslash ("u00" +:+ SHA1.hex_word 2 n)
  else String c EmptyString.

Fixpoint escape (s : string) : string :=
  match s with
  | EmptyString => EmptyString
  | String c s' => escape_char c +:+ escape s'
  end.

Definition quote (s : string) : string :=
  String dquote (escape s +:+ String dquote EmptyString).

Fixpoint join (sep : string) (l : list string) : string :=
  match l with
  | [] => EmptyString
  | [x] => x
  | x :: l' => x +:+ sep +:+ join sep l'
  end.

Fixpoint dumps_depth (fuel : nat) (j : JSON) : string :=
  match fuel with
  | O => EmptyString
  | S f =>
      match j with
      | JNull => "null"
      | JBool true => "true"
      | JBool false => "false"
      | JInt n => NilZero.string_of_int (Z.to_int n)
      | JFloat r => r
      | JStr s => quote s
      | JArr l => "[" +:+ join ", " (map (dumps_depth f) l) +:+ "]"
      | JObj m =>
          "{" +:+ join ", " (map (fun kv => quote (fst kv) +:+ ": " +:+ dumps_depth f (snd kv))
                                 (sort_by_key (map_to_list m))) +:+ "}"
      end
  end.

Definition dumps (j : JSON) (sort_keys : bool) : string := dumps_depth 100 j.

(** A float out of range: its [repr] is [inf], [-inf] or [nan]. *)
Definition out_of_range (r : string) : bool :=
  String.eqb r "inf" || String.eqb r "-inf" || String.eqb r "nan".

Fixpoint encodable_depth (fuel : nat) (j : JSON) : bool :=
  match fuel with
  | O => true
  | S f =>
      match j with
      | JFloat r => negb (out_of_range r)
      | JArr l => forallb (encodable_depth f) l
      | JObj m => forallb (fun kv => encodable_depth f (snd kv)) (map_to_list m)
      | _ => true
      end
  end.

(** [simplejson.dumps(j, sort_keys=...)]: the text, or the refusal of a
    document that holds a float out of range. *)
Definition strict_dumps (j : JSON) (sort_keys : bool) : option string :=
  if encodable_depth 100 j then Some (dumps j sort_keys) else None.

Definition is_ws (c : ascii) : bool :=
  let n := N_of_ascii c in (n =? 32) || (n =? 9) || (n =? 10) || (n =? 13).

Fixpoint skip_ws (s : string) : string :=
  match s with
  | String c s' => if is_ws c then skip_ws s' else s
  | EmptyString => s
  end.

(** The characters of a string literal after its opening quote. *)
Fixpoint read_string (s : string) : option (string * string) :=
  match s with
  | EmptyString => None
  | String c s' =>
      if Ascii.eqb c dquote then Some (EmptyString, s')
      else if Ascii.eqb c backslash then
        match s' with
        | String e s'' =>
            let n := N_of_ascii e in
            let plain :=
              if Ascii.eqb e dquote || Ascii.eqb e backslash || (n =? 47) then Some e
              else if n =? 110 then Some (ascii_of_N 10)
              else if n =? 114 then Some (ascii_of_N 13)
              else if n =? 116 then Some (ascii_of_N 9)
              else None in
            match plain, read_string s'' with
            | Some d, Some (t, rest) => Some (String d t, rest)
            | _, _ => None
            end
        | EmptyString => None
        end
      else match read_string s' with
           | Some (t, rest) => Some (String c t, rest)
           | None => None
           end
  end.

Definition is_digit (c : ascii) : bool :=
  let n := N_of_ascii c in (48 <=? n) && (n <=? 57).

Fixpoint read_digits (acc : Z) (s : string) : Z * string :=
  match s with
  | String c s' =>
      if is_digit c then read_digits (10 * acc + Z.of_N (N_of_ascii c - 48))%Z s'
      else (acc, s)
  | EmptyString => (acc, s)
  end.

(** An integer literal; a fraction or an exponent behind it is refused. *)
Definition read_int (s : string) : option (JSON * string) :=
  let '(neg, s1) :=
    match s with
    | String c s' => if (N_of_ascii c =? 45) then (true, s') else (false, s)
    | EmptyString => (false, s)
    end in
  match s1 with
  | String c _ =>
      if is_digit c then
        let '(n, rest) := read_digits 0 s1 in
        match rest with
        | String d _ =>
            if (N_of_ascii d =? 46) || (N_of_ascii d =? 101) || (N_of_ascii d =? 69)
            then None else Some (JInt (if neg then - n else n)%Z, rest)
        | EmptyString => Some (JInt (if neg then - n else n)%Z, rest)
        end
      else None
  | EmptyString => None
  end.

Inductive mode : Type :=
| Value
| Elements (acc : list JSON)
| Members (acc : gmap string JSON).

Definition after_prefix (p s : string) : option string :=
  if String.prefix p s then Some (substring (String.length p) (String.length s - String.length p) s)
  else None.

Fixpoint parse (fuel : nat) (md : mode) (s : string) : option (JSON * string) :=
  match fuel with
  | O => None
  | S f =>
      match md with
      | Value =>
          match skip_ws s with
          | String c rest =>
              let n := N_of_ascii c in
              if n =? 123 then
                match skip_ws rest with
                | String d r => if N_of_ascii d =? 125 then Some (JObj ∅, r)
                                else parse f (Members ∅) rest
                | EmptyString => None
                end
              else if n =? 91 then
                match skip_ws rest with
                | String d r => if N_of_ascii d =? 93 then Some (JArr [], r)
                                else parse f (Elements []) rest
                | EmptyString => None
                end
              else if Ascii.eqb c dquote then
                match read_string rest with
                | Some (t, r) => Some (JStr t, r)
                | None => None
                end
              else match after_prefix "true" (String c rest),
                         after_prefix "false" (String c rest),
                         after_prefix "null" (String c rest) with
                   | Some r, _, _ => Some (JBool true, r)
                   | _, Some r, _ => Some (JBool false, r)
                   | _, _, Some r => Some (JNull, r)
                   | _, _, _ => read_int (String c rest)
                   end
          | EmptyString => None
          end
      | Elements acc =>
          match parse f Value s with
          | Some (v, r) =>
              match skip_ws r with
              | String d r' =>
                  if N_of_ascii d =? 44 then parse f (Elements (acc ++ [v])) r'
                  else if N_of_ascii d =? 93 then Some (JArr (acc ++ [v]), r')
                  else None
              | EmptyString => None
              end
          | None => None
          end
      | Members acc =>
          match skip_ws s with
          | String q r0 =>
              if Ascii.eqb q dquote then
                match read_string r0 with
                | Some (k, r1) =>
                    match skip_ws r1 with
                    | String d r2 =>
                        if N_of_ascii d =? 58 then
                          match parse f Value r2 with
                          | Some (v, r3) =>
                              match skip_ws r3 with
                              | String e r4 =>
                                  if N_of_ascii e =? 44
                                  then parse f (Members (<[k := v]> acc)) r4
                                  else if N_of_ascii e =? 125
                                  then Some (JObj (<[k := v]> acc), r4)
                                  else None
                              | EmptyString => None
                              end
                          | None => None
                          end
                        else None
                    | EmptyString => None
                    end
                | None => None
                end
              else None
          | EmptyString => None
          end
      end
  end.

Definition loads (text : bytes) : option JSON :=
  let s := string_of_list_byte text in
  match parse (2 * String.length s + 2) Value s with
  | Some (j, rest) =>
      match skip_ws rest with
      | EmptyString => Some j
      | String _ _ => None
      end
  | None => None
  end.

(** *** Duplicate cache *)

Definition residual (json : JSON) : JSON :=
  match json with
  | JObj m =>
      match m !! "header" with
      | Some (JObj h) =>
          JObj (<["header" := JObj (delete "gatewayTimestamp" (delete "uploaderIP" h))]> m)
      | _ => json
      end
  | _ => json
  end.

Definition fingerprint (json : JSON) : string :=
  SHA1.hexdigest (encode_utf8 (dumps (residual json) true)).

Definition observe (seen : list string) (json : JSON) : result bool * list string :=
  let f := fingerprint json in
  if existsb (String.eqb f) seen then (Ok true, seen) else (Ok false, f :: seen).

Definition sample : libs :=
  {| zlib_decompress := decompress;
     zlib_compress := compress;
     simplejson_loads := loads;
     simplejson_dumps := strict_dumps;
     DuplicateMessages := list string;
     is_duplicated := observe |}.

(** The wire form of an envelope: zlib-deflated JSON text. *)
Definition wire (json : JSON) : bytes := compress (encode_utf8 (dumps json true)).

(** The envelope of the spec's happy-path scenario, as it leaves the Gateway. *)
Definition happy_header : gmap string JSON :=
  <["softwareName" := JStr "EDMC"]>
  (<["softwareVersion" := JStr "5.0.0"]>
  (<["uploaderID" := JStr "Cmdr-Jameson"]>
  (<["gatewayTimestamp" := JStr "2021-11-04T12:30:00.000Z"]>
  (<["uploaderIP" := JStr "203.0.113.7"]> ∅)))).

Definition happy_fields : gmap string JSON :=
  <["$schemaRef" := JStr "https://eddn.edcd.io/schemas/commodity/3"]>
  (<["header" := JObj happy_header]>
  (<["message" := JObj (<["systemName" := JStr "Sol"]>
                       (<["marketId" := JInt 128016640]> ∅))]> ∅)).

Definition happy_envelope : JSON := JObj happy_fields.

(** *** A run of the Relay *)

(** Process start, and two later moments inside the first nonce window. *)
Definition boot : inputs :=
  {| time_scramble := 1636029000%float;
     time_generate := 1636029000%float;
     urandom16 := 24197857161011715162171839636988778104;
     id_uploader := 140235343812208 |}.

Definition first_upload : inputs :=
  {| time_scramble := 1636029060%float;
     time_generate := 1636029060%float;
     urandom16 := 113427455640312821154458202477256070485;
     id_uploader := 140235343812208 |}.

Definition second_upload : inputs :=
  {| time_scramble := 1636029120%float;
     time_generate := 1636029120%float;
     urandom16 := 113427455640312821154458202477256070485;
     id_uploader := 140235343846000 |}.

(** The Relay right after [__init__], with an empty duplicate cache. *)
Definition start : Relay.world sample := Relay.init sample boot (Some []).

(** A second upload of the same commander: another market, same [uploaderID]. *)
Definition second_envelope : JSON :=
  JObj (<["$schemaRef" := JStr "https://eddn.edcd.io/schemas/commodity/3"]>
       (<["header" := JObj (<["softwareName" := JStr "EDMC"]>
                           (<["softwareVersion" := JStr "5.0.0"]>
                           (<["uploaderID" := JStr "Cmdr-Jameson"]>
                           (<["gatewayTimestamp" := JStr "2021-11-04T12:32:00.000Z"]>
                           (<["uploaderIP" := JStr "203.0.113.7"]> ∅)))))]>
       (<["message" := JObj (<["systemName" := JStr "Sol"]>
                            (<["marketId" := JInt 128016896]> ∅))]> ∅))).

(** The [uploaderID] a subscriber reads in a published frame. *)
Definition published_uploader (frame : bytes) : option JSON :=
  match decompress frame with
  | Some text =>
      match loads text with
      | Some (JObj m) =>
          match m !! "header" with
          | Some (JObj h) => h !! "uploaderID"
          | _ => None
          end
      | _ => None
      end
  | None => None
  end.

(** The Relay after it has handled the happy-path frame, with the duplicate
    window set to fifteen minutes, and the frame it published. *)
Definition after_first : Relay.world sample :=
  fst (Relay.relay_worker sample 15 first_upload (wire happy_envelope) start).

Definition first_frame : bytes := nth 0 (Relay.sender after_first) [].

(** The Relay after the second upload of the same commander. *)
Definition after_second : Relay.world sample :=
  fst (Relay.relay_worker sample 15 second_upload (wire second_envelope) after_first).

(** The happy-path frame in the topic-prefixed wire form. *)
Definition prefixed_frame : bytes :=
  encode_utf8 "https://eddn.edcd.io/schemas/commodity/3" ++ encode_utf8 " |-| "
  ++ wire happy_envelope.

(** The receive loop: at start, after the happy-path frame was received, and
    after its greenlet ran. *)
Definition loop_start : Relay.loop sample :=
  {| Relay.now := start; Relay.spawned := [] |}.

Definition loop_received : Relay.loop sample :=
  {| Relay.now := fst (Relay.tally sample "inbound" (Relay.now loop_start));
     Relay.spawned := Relay.spawned loop_start ++ [wire happy_envelope] |}.

Definition loop_handled : Relay.loop sample :=
  {| Relay.now := fst (Relay.relay_worker sample 15 first_upload (wire happy_envelope)
                         (Relay.now loop_received));
     Relay.spawned := [] ++ [] |}.

(** The Monitor on 2021-11-04 with empty tables, having already seen the
    happy-path envelope. *)
Definition monitor_seen : Monitor.world sample :=
  Monitor.Build_world sample
    {| Monitor.schemas := ∅; Monitor.softwares := ∅; Monitor.UTC_DATE := 18935 |}
    (Some [fingerprint happy_envelope]).

(** The Monitor on the same day with empty tables and an empty cache. *)
Definition monitor_start : Monitor.world sample :=
  Monitor.Build_world sample
    {| Monitor.schemas := ∅; Monitor.softwares := ∅; Monitor.UTC_DATE := 18935 |}
    (Some []).

End Sample.


(** ** Vocabulary of the properties *)

Definition is_hex_char (c : ascii) : bool :=
  let n := N_of_ascii c in
  ((48 <=? n) && (n <=? 57)) || ((97 <=? n) && (n <=? 102)).

Fixpoint all_hex (s : string) : bool :=
  match s with
  | EmptyString => true
  | String c s' => is_hex_char c && all_hex s'
  end.

(** Exactly forty characters, each of them one of [0-9a-f]. *)
Definition hex40 (s : string) : Prop :=
  String.length s = 40%nat /\ all_hex s = true.

(** [sep] occurs somewhere in [l]. *)
Definition occurs (sep l : bytes) : Prop := exists pre post, l = pre ++ sep ++ post.

(** No occurrence of [sep] in [l] starts before position [n]. *)
Definition first_at (sep l : bytes) (n : nat) : Prop :=
  forall k, (k < n)%nat -> ~ sep `prefix_of` drop k l.

(** Executable forms of [occurs] and [first_at]. *)
Definition occurs_at (sep l : bytes) (k : nat) : bool :=
  bool_decide (sep `prefix_of` drop k l).

Definition occursb (sep l : bytes) : bool :=
  existsb (occurs_at sep l) (seq 0 (S (length l))).

Definition first_atb (sep l : bytes) (n : nat) : bool :=
  forallb (fun k => negb (occurs_at sep l k)) (seq 0 n).

Module RelaySpec.
Import Relay.
Section RelaySpec.

Variable L : libs.
Variable RELAY_DUPLICATE_MAX_MINUTES : Z.

Abbreviation world := (world L).

(** Whether [scramble_uploader] finds the nonce older than the interval. *)
Definition stale (inp : inputs) (w : world) : bool :=
  (REGENERATE_UPLOADER_NONCE_INTERVAL
   <? time_scramble inp - uploader_nonce_timestamp w)%float.

(** The nonce [scramble_uploader] hashes with: regenerated when stale. *)
Definition nonce_in_use (inp : inputs) (w : world) : option string :=
  if stale inp w then Some (uuid_str (uuid4_int (urandom16 inp))) else uploader_nonce w.

(** The f-string of line 78 for a nonce and the text of its second field. *)
Definition formatted (nonce : option string) (field : string) : string :=
  repr_nonce nonce +:+ "-" +:+ field.

(** The text [scramble_uploader] hashes, and its digest. *)
Definition scrambled_text (inp : inputs) (w : world) : string :=
  repr_nonce (nonce_in_use inp w) +:+ "-" +:+ str_encode_method_repr (id_uploader inp).

Definition pseudonym (inp : inputs) (w : world) : string :=
  SHA1.hexdigest (encode_utf8 (scrambled_text inp w)).

(** The envelope with the header's [uploaderID], when there is one, replaced
    by [digest] and the header's [uploaderIP] removed. *)
Definition masked (digest : string) (json : JSON) : JSON :=
  match json with
  | JObj m =>
      match m !! "header" with
      | Some (JObj h) =>
          let h1 := if bool_decide (is_Some (h !! "uploaderID"))
                    then <["uploaderID" := JStr digest]> h else h in
          JObj (<["header" := JObj (delete "uploaderIP" h1)]> m)
      | _ => json
      end
  | _ => json
  end.

(** Headers the worker gets through: a dict whose [uploaderID], if any, is a
    [str]; or a list or str in which neither key is found by [in]. *)
Definition header_ok (h : JSON) : Prop :=
  match h with
  | JObj hm => hm !! "uploaderID" = None \/ exists u, hm !! "uploaderID" = Some (JStr u)
  | JArr _ | JStr _ => contains "uploaderID" h = Ok false /\ contains "uploaderIP" h = Ok false
  | _ => False
  end.

(** The duplicate check lets [json] through: it is switched off, or the cache
    answers that the envelope is new. *)
Definition not_duplicate (w : world) (json : JSON) : Prop :=
  truthy RELAY_DUPLICATE_MAX_MINUTES = false
  \/ exists c c', duplicate_messages w = Some c /\ is_duplicated L c json = (Ok false, c').

(** Lines 124-132: serialize, compress, send, tally. *)
Definition publish (json : JSON) : M world unit :=
  message_json <- lift (of_option ValueError (simplejson_dumps L json true)) ;;
  let message := zlib_compress L (encode_utf8 message_json) in
  send L message ;;;
  tally L "outbound".

(** [relay_worker] behind the duplicate check (lines 115-132). *)
Definition forward (inp : inputs) (json : JSON) : M world unit :=
  header <- lift (getitem json "header") ;;
  has_id <- lift (contains "uploaderID" header) ;;
  json <- (if has_id then
             header <- lift (getitem json "header") ;;
             uploader <- lift (getitem header "uploaderID") ;;
             scrambled <- scramble_uploader L inp uploader ;;
             header <- lift (getitem json "header") ;;
             header <- lift (setitem header "uploaderID" (JStr scrambled)) ;;
             ret (with_header json header)
           else ret json) ;;
  header <- lift (getitem json "header") ;;
  has_ip <- lift (contains "uploaderIP" header) ;;
  json <- (if has_ip then
             header <- lift (getitem json "header") ;;
             header <- lift (delitem header "uploaderIP") ;;
             ret (with_header json header)
           else ret json) ;;
  publish json.

(** The three ways one run of the worker can end. *)
Inductive outcome (inp : inputs) (message : bytes) (w w' : world) (r : result unit) : Prop :=
| raised (e : exn) :
    r = Raise e ->
    stats_collector w' = stats_collector w ->
    sender w' = sender w ->
    outcome inp message w w' r
| discarded (text : bytes) (json : JSON) (c c' : DuplicateMessages L) :
    r = Ok tt ->
    zlib_decompress L message = Some text ->
    simplejson_loads L text = Some json ->
    truthy RELAY_DUPLICATE_MAX_MINUTES = true ->
    duplicate_messages w = Some c ->
    is_duplicated L c json = (Ok true, c') ->
    stats_collector w' = tally_counter "duplicate" (stats_collector w) ->
    sender w' = sender w ->
    outcome inp message w w' r
| published (text : bytes) (json h : JSON) (message_json : string) :
    r = Ok tt ->
    zlib_decompress L message = Some text ->
    simplejson_loads L text = Some json ->
    not_duplicate w json ->
    getitem json "header" = Ok h ->
    header_ok h ->
    simplejson_dumps L (masked (pseudonym inp w) json) true = Some message_json ->
    stats_collector w' = tally_counter "outbound" (stats_collector w) ->
    sender w' = sender w ++ [zlib_compress L (encode_utf8 message_json)] ->
    outcome inp message w w' r.

End RelaySpec.
End RelaySpec.

Module MonitorSpec.
Import Monitor.

(** Adding one to the hits of row [(name, today)]: the [UPDATE] followed by
    the [INSERT IGNORE]. *)
Definition upsert (default_hits : Z) (name : string) (today : Z)
    (t : gmap (string * Z) Z) : gmap (string * Z) Z :=
  insert_ignore default_hits name today (update_hits name today t).

End MonitorSpec.

(** ** [sep.join(segments)] *)
Fixpoint bytes_join (sep : bytes) (segments : list bytes) : bytes :=
  match segments with
  | [] => []
  | [segment] => segment
  | segment :: rest => segment ++ sep ++ bytes_join sep rest
  end.

(** ** The Monitor's HTTP endpoints

    Each endpoint runs one query and folds the rows of the cursor into a
    [collections.OrderedDict] that it hands to [simplejson.dumps].  The rows
    the database yields are the input of the loops below; the value is the
    dictionary handed to the serializer. *)
Module Dashboard.

(** [collections.OrderedDict]: the items in insertion order.  Assigning to a
    key that is present replaces its value in place; a new key goes last. *)
Fixpoint od_get {K V : Type} `{EqDecision K} (k : K) (d : list (K * V)) : option V :=
  match d with
  | [] => None
  | (k', v) :: d' => if decide (k' = k) then Some v else od_get k d'
  end.

Fixpoint od_set {K V : Type} `{EqDecision K} (k : K) (v : V) (d : list (K * V))
    : list (K * V) :=
  match d with
  | [] => [(k, v)]
  | (k', v') :: d' => if decide (k' = k) then (k', v) :: d' else (k', v') :: od_set k v d'
  end.

Definition od_keys {K V : Type} (d : list (K * V)) : list K := map fst d.

(** [k in d.keys()] *)
Definition od_mem {K V : Type} `{EqDecision K} (k : K) (d : list (K * V)) : bool :=
  bool_decide (k ∈ od_keys d).

(** [str(n)] for an [int], and for the integral [Decimal] a [SUM] comes back as. *)
Definition py_str (n : Z) : string := NilZero.string_of_int (Z.to_int n).

(** A [datetime.date] as the connector returns it for a [DATE] column. *)
Record date : Type := { year : N; month : N; day : N }.

Definition two_digits (n : N) : string :=
  String (ascii_of_N (48 + (n / 10) mod 10)) (String (ascii_of_N (48 + n mod 10)) EmptyString).

(** [d.strftime('%Y-%m-%d')], for the four-digit years of a [DATE] column. *)
Definition strftime_Ymd (d : date) : string :=
  NilZero.string_of_uint (N.to_uint (year d)) +:+ "-" +:+ two_digits (month d)
  +:+ "-" +:+ two_digits (day d).

(** A row of [SELECT * FROM softwares] or [... schemas]: name, hits, dateStats. *)
Record row : Type := { name : string; hits : Z; dateStats : date }.

(** A row of the two [GROUP BY name] queries: name and [SUM(hits)]. *)
Record total_row : Type := { total_name : string; total : Z }.

(** Lines 100-105 of [get_softwares] and lines 161-166 of [get_schemas]: the
    two loops are the same statement for statement. *)
Definition by_date (results : list row) : list (string * list (string * string)) :=
  fold_left
    (fun softwares row =>
       let current_date := strftime_Ymd (dateStats row) in
       let softwares :=
         if negb (od_mem current_date softwares)
         then od_set current_date [] softwares else softwares in
       match od_get current_date softwares with
       | Some inner =>
           od_set current_date (od_set (name row) (py_str (hits row)) inner) softwares
       | None => softwares
       end)
    results [].

Definition get_softwares (results : list row) : list (string * list (string * string)) :=
  by_date results.

Definition get_schemas (results : list row) : list (string * list (string * string)) :=
  by_date results.

(** Lines 70-71 of [get_total_softwares]. *)
Definition get_total_softwares (results : list total_row) : list (bytes * string) :=
  fold_left
    (fun softwares row =>
       od_set (encode_utf8 (total_name row)) (py_str (total row)) softwares)
    results [].

(** Lines 131-132 of [get_total_schemas]: the total is kept as a number. *)
Definition get_total_schemas (results : list total_row) : list (string * Z) :=
  fold_left (fun schemas row => od_set (total_name row) (total row) schemas) results [].

(** The key and the item a row contributes. *)
Definition date_key (r : row) : string := strftime_Ymd (dateStats r).

Definition entry (r : row) : string * string := (name r, py_str (hits r)).

(** The keys of a sequence in the order of their first occurrence. *)
Fixpoint first_occurrences {K : Type} `{EqDecision K} (l : list K) : list K :=
  match l with
  | [] => []
  | x :: l' => x :: filter (fun y => y <> x) (first_occurrences l')
  end.

(** The dictionary a run of assignments [d[k] = v] builds from nothing. *)
Definition od_of {K V : Type} `{EqDecision K} (items : list (K * V)) : list (K * V) :=
  fold_left (fun d kv => od_set (fst kv) (snd kv) d) items [].

End Dashboard.

(** Rows as the queries of the endpoints can return them: hits descending
    within the two days of a range, and totals descending. *)
Module DashboardSample.
Import Dashboard.

Definition nov3 : date := {| year := 2021; month := 11; day := 3 |}.
Definition nov4 : date := {| year := 2021; month := 11; day := 4 |}.

Definition rows : list row :=
  [ {| name := "EDMC | 5.0.0"; hits := 412; dateStats := nov4 |};
    {| name := "EDMC | 5.0.0"; hits := 390; dateStats := nov3 |};
    {| name := "EDDiscovery | 15.0"; hits := 77; dateStats := nov3 |};
    {| name := "EDDiscovery | 15.0"; hits := 64; dateStats := nov4 |} ].

Definition totals : list total_row :=
  [ {| total_name := "EDMC | 5.0.0"; total := 802 |};
    {| total_name := "EDDiscovery | 15.0"; total := 141 |} ].

End DashboardSample.

(** Further frames and moments for runs of the workers. *)
Module SampleMore.
Import Sample.

(** An envelope that lost its header, and one whose [uploaderID] is a number. *)
Definition headless_envelope : JSON :=
  JObj (<["$schemaRef" := JStr "https://eddn.edcd.io/schemas/commodity/3"]>
       (<["message" := JObj (<["systemName" := JStr "Sol"]> ∅)]> ∅)).

Definition numeric_header : gmap string JSON :=
  <["softwareName" := JStr "EDMC"]>
  (<["softwareVersion" := JStr "5.0.0"]>
  (<["uploaderID" := JInt 4711]> ∅)).

Definition numeric_fields : gmap string JSON :=
  <["$schemaRef" := JStr "https://eddn.edcd.io/schemas/commodity/3"]>
  (<["header" := JObj numeric_header]>
  (<["message" := JObj (<["systemName" := JStr "Sol"]> ∅)]> ∅)).

Definition numeric_envelope : JSON := JObj numeric_fields.

(** An envelope of an uploader who sent no [uploaderID]. *)
Definition anonymous_header : gmap string JSON :=
  <["softwareName" := JStr "EDMC"]>
  (<["softwareVersion" := JStr "5.0.0"]>
  (<["uploaderIP" := JStr "203.0.113.7"]> ∅)).

Definition anonymous_fields : gmap string JSON :=
  <["$schemaRef" := JStr "https://eddn.edcd.io/schemas/commodity/3"]>
  (<["header" := JObj anonymous_header]>
  (<["message" := JObj (<["systemName" := JStr "Sol"]> ∅)]> ∅)).

Definition anonymous_envelope : JSON := JObj anonymous_fields.

(** Thirteen hours after process start. *)
Definition late_upload : inputs :=
  {| time_scramble := 1636075800%float;
     time_generate := 1636075801%float;
     urandom16 := 113427455640312821154458202477256070485;
     id_uploader := 140235343812208 |}.

(** Exactly twelve hours after process start, and one second later. *)
Definition at_twelve_hours : inputs :=
  {| time_scramble := 1636072200%float;
     time_generate := 1636072200%float;
     urandom16 := 113427455640312821154458202477256070485;
     id_uploader := 140235343812208 |}.

Definition past_twelve_hours : inputs :=
  {| time_scramble := 1636072201%float;
     time_generate := 1636072202%float;
     urandom16 := 113427455640312821154458202477256070485;
     id_uploader := 140235343812208 |}.

(** Two readings of a clock that runs from zero: the nonce was stamped at
    [2^-38 + 2^-60] seconds and is used at [43200 + 2^-37] seconds.  More
    than twelve hours lie between the two, and the double nearest to their
    difference is [43200]. *)
Definition stamped_early : Relay.world sample :=
  Relay.Build_world sample ∅ (Some "12345678-1234-4678-9234-567812345678")
    (0x1p-38 + 0x1p-60)%float (Some []) [].

Definition just_past_twelve_hours : inputs :=
  {| time_scramble := (43200 + 0x1p-37)%float;
     time_generate := (43200 + 0x1p-37)%float;
     urandom16 := 113427455640312821154458202477256070485;
     id_uploader := 140235343812208 |}.

(** A Relay whose setting asks for the duplicate check although the cache
    was never created. *)
Definition start_without_cache : Relay.world sample := Relay.init sample boot None.

End SampleMore.

(** ** More vocabulary for the Relay *)
Module RelayTerms.
Import Relay RelaySpec.
Section RelayTerms.

Variable L : libs.

(** The nonce and its timestamp are the same in both states. *)
Definition nonce_kept (s w' : world L) : Prop :=
  uploader_nonce w' = uploader_nonce s
  /\ uploader_nonce_timestamp w' = uploader_nonce_timestamp s.

(** The envelope has a dict header with an [uploaderID], the nonce of [s]
    was older than the interval, and [w'] holds the regenerated one. *)
Definition nonce_regenerated (inp : inputs) (json : JSON) (s w' : world L) : Prop :=
  exists hm u,
    getitem json "header" = Ok (JObj hm)
    /\ hm !! "uploaderID" = Some u
    /\ stale L inp s = true
    /\ uploader_nonce w' = Some (uuid_str (uuid4_int (urandom16 inp)))
    /\ uploader_nonce_timestamp w' = time_generate inp.

End RelayTerms.
End RelayTerms.

(** Frames for runs of the Monitor. *)
Module MonitorSample.

(** A frame whose payload happens to hold the separator. *)
Definition unlucky_frame : bytes := encode_utf8 "topic |-| AB |-| CD".

End MonitorSample.

(** * Properties *)

(** ** Sanity checks of the helpers *)

Example sha1_abc :
  SHA1.hexdigest (encode_utf8 "abc") = "a9993e364706816aba3e25717850c26c9cd0d89d"%string.
Proof. vm_compute. reflexivity. Qed.

Example sha1_empty :
  SHA1.hexdigest [] = "da39a3ee5e6b4b0d3255bfef95601890afd80709"%string.
Proof. vm_compute. reflexivity. Qed.

Example sha1_two_blocks :
  SHA1.hexdigest
    (encode_utf8 "abcdbcdecdefdefgefghfghighijhijkijkljklmklmnlmnomnopnopq")
  = "84983e441c3bd26ebaae4aa1f95129e5e54670f1"%string.
Proof. vm_compute. reflexivity. Qed.

Example uuid_str_example :
  uuid_str (uuid4_int 0) = "00000000-0000-4000-8000-000000000000".
Proof. vm_compute. reflexivity. Qed.

Example repr_str_example :
  repr_str "it's" = String dquote ("it's" +:+ String dquote EmptyString)
  /\ repr_str "00000000-0000-4000-8000-000000000000"
     = "'00000000-0000-4000-8000-000000000000'".
Proof. vm_compute. split; reflexivity. Qed.

Example str_encode_method_repr_example :
  str_encode_method_repr 140235343812208
  = "<built-in method encode of str object at 0x7f8b15da5670>".
Proof. vm_compute. reflexivity. Qed.

Example bytes_split_example :
  bytes_split (encode_utf8 " |-| ") (encode_utf8 "a |-| b |-| ")
  = [encode_utf8 "a"; encode_utf8 "b"; []].
Proof. vm_compute. reflexivity. Qed.

(** ** The digest is forty hexadecimal characters *)

Lemma hex_digit_is_hex (d : N) : d < 16 -> is_hex_char (SHA1.hex_digit d) = true.
Proof.
  intros Hd.
  assert (Hcases : d = 0 \/ d = 1 \/ d = 2 \/ d = 3 \/ d = 4 \/ d = 5 \/ d = 6 \/ d = 7
                   \/ d = 8 \/ d = 9 \/ d = 10 \/ d = 11 \/ d = 12 \/ d = 13 \/ d = 14
                   \/ d = 15) by lia.
  repeat (destruct Hcases as [-> | Hcases]; [reflexivity |]).
  subst d. reflexivity.
Qed.

Lemma hex_word_length (n : nat) (w : N) : String.length (SHA1.hex_word n w) = n.
Proof. induction n as [| n IH]; simpl; [reflexivity | now rewrite IH]. Qed.

Lemma hex_word_all_hex (n : nat) (w : N) : all_hex (SHA1.hex_word n w) = true.
Proof.
  induction n as [| n IH]; simpl; [reflexivity |].
  rewrite IH, andb_true_r. apply hex_digit_is_hex.
  apply N.mod_lt. discriminate.
Qed.

Lemma string_app_length (s t : string) :
  String.length (s +:+ t) = (String.length s + String.length t)%nat.
Proof. induction s as [| c s IH]; simpl; [reflexivity | now rewrite IH]. Qed.

Lemma all_hex_app (s t : string) : all_hex (s +:+ t) = all_hex s && all_hex t.
Proof.
  induction s as [| c s IH]; simpl; [reflexivity |].
  now rewrite IH, andb_assoc.
Qed.

Lemma concat_hex_length (ws : list N) :
  String.length (SHA1.concat_hex ws) = (8 * length ws)%nat.
Proof.
  induction ws as [| w ws IH]; [reflexivity |].
  cbn [SHA1.concat_hex length]. rewrite string_app_length, hex_word_length, IH. lia.
Qed.

Lemma concat_hex_all_hex (ws : list N) : all_hex (SHA1.concat_hex ws) = true.
Proof.
  induction ws as [| w ws IH]; [reflexivity |].
  cbn [SHA1.concat_hex]. now rewrite all_hex_app, hex_word_all_hex, IH.
Qed.

Lemma digest_words_length (msg : bytes) : length (SHA1.digest_words msg) = 5%nat.
Proof.
  unfold SHA1.digest_words.
  destruct (SHA1.blocks _ _ _) as [[[[h0 h1] h2] h3] h4]. reflexivity.
Qed.

Lemma hexdigest_hex40 (msg : bytes) : hex40 (SHA1.hexdigest msg).
Proof.
  unfold hex40, SHA1.hexdigest. split.
  - now rewrite concat_hex_length, digest_words_length.
  - apply concat_hex_all_hex.
Qed.

(** ** One run of [relay_worker] *)

Module RelayFacts.
Import Relay RelaySpec.

Ltac run :=
  repeat first
    [ progress unfold bind, lift, ret, gets, modify, send, tally
    | progress cbn [getitem contains setitem delitem with_header of_option fst snd
                    stats_collector sender duplicate_messages uploader_nonce
                    uploader_nonce_timestamp]
    | rewrite lookup_insert_eq
    | rewrite lookup_insert_ne by done
    | rewrite insert_insert_eq
    | match goal with H : _ !! _ = _ |- _ => rewrite H end
    | match goal with H : is_substring _ _ = _ |- _ => rewrite H end
    | match goal with H : existsb _ _ = _ |- _ => rewrite H end
    | rewrite bool_decide_eq_true_2 by eauto
    | rewrite bool_decide_eq_false_2 by (intros [? ?]; discriminate) ].

Ltac raised_now := intros [= <- <-]; left; eexists; repeat split; reflexivity.

Section RelayFacts.

Variable L : libs.
Variable RELAY_DUPLICATE_MAX_MINUTES : Z.

Abbreviation world := (world L).

(* The uploader's text never reaches the hash: only its type matters. *)
Lemma scramble_uploader_str (inp : inputs) (u : string) (w : world) :
  exists w',
    scramble_uploader L inp (JStr u) w = (w', Ok (pseudonym L inp w))
    /\ stats_collector w' = stats_collector w
    /\ sender w' = sender w
    /\ duplicate_messages w' = duplicate_messages w
    /\ uploader_nonce w' = nonce_in_use L inp w.
Proof.
  unfold scramble_uploader, pseudonym, scrambled_text, nonce_in_use, stale.
  unfold bind, gets, lift, ret. cbn.
  destruct (PrimFloat.ltb _ _); cbn; eexists; repeat split.
Qed.

(* Two uploader IDs handled in the same state and at the same address get
   the same digest. *)
Lemma scramble_uploader_ignores_text (inp : inputs) (u1 u2 : string) (w : world) :
  scramble_uploader L inp (JStr u1) w = scramble_uploader L inp (JStr u2) w.
Proof. reflexivity. Qed.

Lemma scramble_uploader_frame (inp : inputs) (v : JSON) (w w' : world) (r : result string) :
  scramble_uploader L inp v w = (w', r) ->
  stats_collector w' = stats_collector w
  /\ sender w' = sender w
  /\ duplicate_messages w' = duplicate_messages w
  /\ match r with
     | Ok d => d = pseudonym L inp w /\ exists u, v = JStr u
     | Raise _ => True
     end.
Proof.
  unfold scramble_uploader, pseudonym, scrambled_text, nonce_in_use, stale.
  unfold bind, gets, lift, ret. cbn.
  destruct (PrimFloat.ltb _ _); cbn; destruct v; cbn; intros [= <- <-]; cbn;
    repeat split; eauto.
Qed.

Lemma masked_plain (d : string) (m hm : gmap string JSON) :
  m !! "header" = Some (JObj hm) ->
  hm !! "uploaderID" = None ->
  hm !! "uploaderIP" = None ->
  masked d (JObj m) = JObj m.
Proof.
  intros Hm Hid Hip. unfold masked. rewrite Hm.
  rewrite bool_decide_eq_false_2 by (rewrite Hid; intros [? ?]; discriminate).
  rewrite delete_id by done. now rewrite insert_id.
Qed.

(* Lines 124-132 either stop at [simplejson.dumps] or send one frame. *)
Lemma publish_refused (json : JSON) (s : world) :
  simplejson_dumps L json true = None -> publish L json s = (s, Raise ValueError).
Proof. intros Hd. unfold publish, bind, lift. now rewrite Hd. Qed.

Lemma publish_accepted (json : JSON) (message_json : string) (s : world) :
  simplejson_dumps L json true = Some message_json ->
  exists w',
    publish L json s = (w', Ok tt)
    /\ stats_collector w' = tally_counter "outbound" (stats_collector s)
    /\ sender w' = sender s ++ [zlib_compress L (encode_utf8 message_json)]
    /\ duplicate_messages w' = duplicate_messages s
    /\ uploader_nonce w' = uploader_nonce s
    /\ uploader_nonce_timestamp w' = uploader_nonce_timestamp s.
Proof.
  intros Hd. unfold publish, bind, lift. rewrite Hd. cbn [of_option].
  unfold send, tally, modify. eexists. repeat split.
Qed.

Lemma publish_outcome (json : JSON) (s w' : world) (r : result unit) :
  publish L json s = (w', r) ->
  duplicate_messages w' = duplicate_messages s
  /\ uploader_nonce w' = uploader_nonce s
  /\ uploader_nonce_timestamp w' = uploader_nonce_timestamp s
  /\ ((r = Raise ValueError
       /\ simplejson_dumps L json true = None
       /\ stats_collector w' = stats_collector s
       /\ sender w' = sender s)
      \/ exists message_json,
           r = Ok tt
           /\ simplejson_dumps L json true = Some message_json
           /\ stats_collector w' = tally_counter "outbound" (stats_collector s)
           /\ sender w' = sender s ++ [zlib_compress L (encode_utf8 message_json)]).
Proof.
  destruct (simplejson_dumps L json true) as [message_json |] eqn:Hd.
  - destruct (publish_accepted json message_json s Hd)
      as (w1 & -> & Hst & Hse & Hdm & Hn & Ht).
    intros [= <- <-]. repeat split; try assumption. right. now exists message_json.
  - rewrite (publish_refused json s Hd). intros [= <- <-]. repeat split. now left.
Qed.

(* An envelope whose header the worker can mask reaches lines 124-132 with
   the masked envelope. *)
Lemma forward_masks (inp : inputs) (json h : JSON) (s : world) :
  getitem json "header" = Ok h ->
  header_ok h ->
  exists s1,
    forward L inp json s = publish L (masked (pseudonym L inp s) json) s1
    /\ stats_collector s1 = stats_collector s
    /\ sender s1 = sender s
    /\ duplicate_messages s1 = duplicate_messages s.
Proof.
  intros Hh Hok. unfold forward.
  destruct json as [| | | | | | m]; try discriminate.
  cbn [getitem] in Hh. destruct (m !! "header") as [h0 |] eqn:Hm; [| discriminate].
  injection Hh as ->.
  destruct h as [| | | | s0 | l | hm]; try contradiction.
  - destruct Hok as [Hid Hip]. cbn [contains] in Hid, Hip.
    injection Hid as Hid. injection Hip as Hip.
    run. exists s. unfold masked. run. repeat split; reflexivity.
  - destruct Hok as [Hid Hip]. cbn [contains] in Hid, Hip.
    injection Hid as Hid. injection Hip as Hip.
    run. exists s. unfold masked. run. repeat split; reflexivity.
  - destruct Hok as [Hid | [u Hid]].
    + destruct (hm !! "uploaderIP") as [ip |] eqn:Hip.
      * run. exists s. unfold masked. run. repeat split; reflexivity.
      * run. exists s. rewrite (masked_plain _ _ hm) by assumption.
        repeat split; reflexivity.
    + run.
      destruct (scramble_uploader_str inp u s) as (s1 & -> & Hst & Hse & Hdm & _).
      destruct (hm !! "uploaderIP") as [ip |] eqn:Hip.
      * run. exists s1. unfold masked. run. repeat split; first [reflexivity | assumption].
      * run. exists s1. unfold masked. run.
        rewrite (delete_id (<["uploaderID" := _]> hm)) by (now rewrite lookup_insert_ne).
        repeat split; first [reflexivity | assumption].
Qed.

Lemma forward_outcome (inp : inputs) (json : JSON) (s w' : world) (r : result unit) :
  forward L inp json s = (w', r) ->
  (exists e, r = Raise e /\ stats_collector w' = stats_collector s /\ sender w' = sender s)
  \/ (exists h message_json,
        r = Ok tt /\ getitem json "header" = Ok h /\ header_ok h
        /\ simplejson_dumps L (masked (pseudonym L inp s) json) true = Some message_json
        /\ stats_collector w' = tally_counter "outbound" (stats_collector s)
        /\ sender w' = sender s ++ [zlib_compress L (encode_utf8 message_json)]).
Proof.
  assert (Hmasked : forall h : JSON,
             getitem json "header" = Ok h -> header_ok h ->
             forward L inp json s = (w', r) ->
             (exists e, r = Raise e /\ stats_collector w' = stats_collector s
                        /\ sender w' = sender s)
             \/ (exists h0 message_json,
                   r = Ok tt /\ getitem json "header" = Ok h0 /\ header_ok h0
                   /\ simplejson_dumps L (masked (pseudonym L inp s) json) true
                      = Some message_json
                   /\ stats_collector w' = tally_counter "outbound" (stats_collector s)
                   /\ sender w' = sender s ++ [zlib_compress L (encode_utf8 message_json)])).
  { intros h Hh Hok.
    destruct (forward_masks inp json h s Hh Hok) as (s1 & -> & Hst & Hse & _).
    intros Hp. apply publish_outcome in Hp.
    destruct Hp as (_ & _ & _ & [(-> & _ & Hst' & Hse') | (t & -> & Hd & Hst' & Hse')]).
    - left. eexists. split; [reflexivity |]. split; congruence.
    - right. exists h, t. repeat split; try assumption; congruence. }
  destruct json as [| | | | | | m]; try (unfold forward; raised_now).
  destruct (m !! "header") as [h |] eqn:Hm; [| unfold forward; run; raised_now].
  assert (Hh : getitem (JObj m) "header" = Ok h) by (cbn; now rewrite Hm).
  destruct h as [| | | | s0 | l | hm]; try (unfold forward; run; raised_now).
  - (* a str header *)
    destruct (is_substring "uploaderID" s0) eqn:Hid; [unfold forward; run; raised_now |].
    destruct (is_substring "uploaderIP" s0) eqn:Hip; [unfold forward; run; raised_now |].
    apply (Hmasked (JStr s0) Hh). cbn. now rewrite Hid, Hip.
  - (* a list header *)
    destruct (existsb (is_str "uploaderID") l) eqn:Hid; [unfold forward; run; raised_now |].
    destruct (existsb (is_str "uploaderIP") l) eqn:Hip; [unfold forward; run; raised_now |].
    apply (Hmasked (JArr l) Hh). cbn. now rewrite Hid, Hip.
  - (* a dict header *)
    destruct (hm !! "uploaderID") as [u |] eqn:Hid;
      [| apply (Hmasked (JObj hm) Hh); now left].
    destruct u as [| | | | u | |];
      try (unfold forward; run; unfold scramble_uploader; run;
           cbn [format_uploader_encode];
           destruct (PrimFloat.ltb _ _); unfold generate_uploader_nonce; run; raised_now).
    apply (Hmasked (JObj hm) Hh). right. eauto.
Qed.

Lemma forward_ok (inp : inputs) (json h : JSON) (message_json : string) (s : world) :
  getitem json "header" = Ok h ->
  header_ok h ->
  simplejson_dumps L (masked (pseudonym L inp s) json) true = Some message_json ->
  exists w',
    forward L inp json s = (w', Ok tt)
    /\ stats_collector w' = tally_counter "outbound" (stats_collector s)
    /\ sender w' = sender s ++ [zlib_compress L (encode_utf8 message_json)]
    /\ duplicate_messages w' = duplicate_messages s.
Proof.
  intros Hh Hok Hd.
  destruct (forward_masks inp json h s Hh Hok) as (s1 & -> & Hst & Hse & Hdm).
  destruct (publish_accepted _ message_json s1 Hd) as (w' & -> & Hst' & Hse' & Hdm' & _).
  exists w'. repeat split; congruence.
Qed.

(* The same envelope when [simplejson.dumps] refuses it. *)
Lemma forward_refused (inp : inputs) (json h : JSON) (s : world) :
  getitem json "header" = Ok h ->
  header_ok h ->
  simplejson_dumps L (masked (pseudonym L inp s) json) true = None ->
  exists w',
    forward L inp json s = (w', Raise ValueError)
    /\ stats_collector w' = stats_collector s
    /\ sender w' = sender s
    /\ duplicate_messages w' = duplicate_messages s.
Proof.
  intros Hh Hok Hd.
  destruct (forward_masks inp json h s Hh Hok) as (s1 & -> & Hst & Hse & Hdm).
  rewrite (publish_refused _ s1 Hd). exists s1. repeat split; assumption.
Qed.

Lemma relay_worker_unfold (inp : inputs) (message : bytes) (w : world) :
  relay_worker L RELAY_DUPLICATE_MAX_MINUTES inp message w
  = match zlib_decompress L message with
    | None => (w, Raise zlib_error)
    | Some text =>
        match simplejson_loads L text with
        | None => (w, Raise JSONDecodeError)
        | Some json =>
            if truthy RELAY_DUPLICATE_MAX_MINUTES then
              match check_duplicated L json w with
              | (s, Ok true) => tally L "duplicate" s
              | (s, Ok false) => forward L inp json s
              | (s, Raise e) => (s, Raise e)
              end
            else forward L inp json w
        end
    end.
Proof.
  unfold relay_worker, forward.
  unfold bind at 1, lift at 1.
  destruct (zlib_decompress L message) as [text |]; [| reflexivity]. cbn [of_option].
  unfold bind at 1, lift at 1.
  destruct (simplejson_loads L text) as [json |]; [| reflexivity]. cbn [of_option].
  unfold bind at 1.
  destruct (truthy RELAY_DUPLICATE_MAX_MINUTES); [| reflexivity].
  destruct (check_duplicated L json w) as [s [[|] | e]]; reflexivity.
Qed.

Lemma check_duplicated_frame (json : JSON) (w s : world) (r : result bool) :
  check_duplicated L json w = (s, r) ->
  stats_collector s = stats_collector w
  /\ sender s = sender w
  /\ uploader_nonce s = uploader_nonce w
  /\ uploader_nonce_timestamp s = uploader_nonce_timestamp w
  /\ match r with
     | Ok b => exists c c', duplicate_messages w = Some c
                            /\ is_duplicated L c json = (Ok b, c')
                            /\ duplicate_messages s = Some c'
     | Raise _ => True
     end.
Proof.
  unfold check_duplicated.
  destruct (duplicate_messages w) as [c |] eqn:Hc.
  - destruct (is_duplicated L c json) as [r0 c'] eqn:Hd.
    intros [= <- <-]. cbn. repeat split. destruct r0; eauto.
  - intros [= <- <-]. repeat split.
Qed.

Lemma pseudonym_ext (inp : inputs) (s w : world) :
  uploader_nonce s = uploader_nonce w ->
  uploader_nonce_timestamp s = uploader_nonce_timestamp w ->
  pseudonym L inp s = pseudonym L inp w.
Proof.
  intros Hn Ht. unfold pseudonym, scrambled_text, nonce_in_use, stale.
  now rewrite Hn, Ht.
Qed.

Lemma relay_worker_outcome (inp : inputs) (message : bytes) (w w' : world) (r : result unit) :
  relay_worker L RELAY_DUPLICATE_MAX_MINUTES inp message w = (w', r) ->
  outcome L RELAY_DUPLICATE_MAX_MINUTES inp message w w' r.
Proof.
  rewrite relay_worker_unfold.
  destruct (zlib_decompress L message) as [text |] eqn:Hz;
    [| intros [= <- <-]; eapply raised; eauto].
  destruct (simplejson_loads L text) as [json |] eqn:Hj;
    [| intros [= <- <-]; eapply raised; eauto].
  destruct (truthy RELAY_DUPLICATE_MAX_MINUTES) eqn:Hmax.
  - destruct (check_duplicated L json w) as [s rd] eqn:Hc.
    apply check_duplicated_frame in Hc. destruct Hc as (Hst & Hse & Hn & Ht & Hd).
    destruct rd as [[|] | e].
    + destruct Hd as (c & c' & Hw & Hdup & _).
      unfold tally, modify. intros [= <- <-]. cbn.
      eapply discarded; eauto; cbn; congruence.
    + destruct Hd as (c & c' & Hw & Hdup & _).
      intros Hf. apply forward_outcome in Hf.
      destruct Hf as [(e & -> & Hst' & Hse')
                     | (h & t & -> & Hh & Hok & Hdumps & Hst' & Hse')].
      * eapply raised; eauto; congruence.
      * rewrite (pseudonym_ext inp s w Hn Ht) in Hdumps.
        eapply published; eauto.
        -- right. eauto.
        -- congruence.
        -- congruence.
    + intros [= <- <-]. eapply raised; eauto.
  - intros Hf. apply forward_outcome in Hf.
    destruct Hf as [(e & -> & Hst' & Hse')
                   | (h & t & -> & Hh & Hok & Hdumps & Hst' & Hse')].
    + eapply raised; eauto.
    + eapply published; eauto. now left.
Qed.

Lemma relay_worker_forwards (inp : inputs) (message text : bytes) (json h : JSON)
    (message_json : string) (w : world) :
  zlib_decompress L message = Some text ->
  simplejson_loads L text = Some json ->
  not_duplicate L RELAY_DUPLICATE_MAX_MINUTES w json ->
  getitem json "header" = Ok h ->
  header_ok h ->
  simplejson_dumps L (masked (pseudonym L inp w) json) true = Some message_json ->
  exists w',
    relay_worker L RELAY_DUPLICATE_MAX_MINUTES inp message w = (w', Ok tt)
    /\ stats_collector w' = tally_counter "outbound" (stats_collector w)
    /\ sender w' = sender w ++ [zlib_compress L (encode_utf8 message_json)].
Proof.
  intros Hz Hj Hnd Hh Hok Hdumps. rewrite relay_worker_unfold, Hz, Hj.
  destruct (truthy RELAY_DUPLICATE_MAX_MINUTES) eqn:Hmax.
  - destruct Hnd as [Hoff | (c & c' & Hc & Hd)]; [congruence |].
    unfold check_duplicated. rewrite Hc, Hd.
    match goal with |- context [forward L inp json ?s] =>
      destruct (forward_ok inp json h message_json s Hh Hok Hdumps)
        as (w' & -> & Hst & Hse & _) end.
    exists w'. repeat split; assumption.
  - destruct (forward_ok inp json h message_json w Hh Hok Hdumps)
      as (w' & -> & Hst & Hse & _).
    exists w'. repeat split; assumption.
Qed.

(* When [simplejson.dumps] refuses the masked envelope the worker stops
   there: nothing is sent and no counter moves. *)
Lemma relay_worker_refused (inp : inputs) (message text : bytes) (json h : JSON) (w : world) :
  zlib_decompress L message = Some text ->
  simplejson_loads L text = Some json ->
  not_duplicate L RELAY_DUPLICATE_MAX_MINUTES w json ->
  getitem json "header" = Ok h ->
  header_ok h ->
  simplejson_dumps L (masked (pseudonym L inp w) json) true = None ->
  exists w',
    relay_worker L RELAY_DUPLICATE_MAX_MINUTES inp message w = (w', Raise ValueError)
    /\ stats_collector w' = stats_collector w
    /\ sender w' = sender w.
Proof.
  intros Hz Hj Hnd Hh Hok Hdumps. rewrite relay_worker_unfold, Hz, Hj.
  destruct (truthy RELAY_DUPLICATE_MAX_MINUTES) eqn:Hmax.
  - destruct Hnd as [Hoff | (c & c' & Hc & Hd)]; [congruence |].
    unfold check_duplicated. rewrite Hc, Hd.
    match goal with |- context [forward L inp json ?s] =>
      destruct (forward_refused inp json h s Hh Hok Hdumps)
        as (w' & -> & Hst & Hse & _) end.
    exists w'. repeat split; assumption.
  - destruct (forward_refused inp json h w Hh Hok Hdumps) as (w' & -> & Hst & Hse & _).
    exists w'. repeat split; assumption.
Qed.

Lemma masked_header (d : string) (json h : JSON) :
  getitem json "header" = Ok h ->
  header_ok h ->
  exists h',
    getitem (masked d json) "header" = Ok h'
    /\ contains "uploaderIP" h' = Ok false
    /\ contains "uploaderID" h' = contains "uploaderID" h
    /\ (contains "uploaderID" h' = Ok true -> getitem h' "uploaderID" = Ok (JStr d)).
Proof.
  intros Hh Hok.
  destruct json as [| | | | | | m]; try discriminate.
  cbn [getitem] in Hh. destruct (m !! "header") as [h0 |] eqn:Hm; [| discriminate].
  injection Hh as ->. unfold masked. rewrite Hm.
  destruct h as [| | | | s0 | l | hm]; try contradiction.
  - destruct Hok as [Hid Hip]. exists (JStr s0). cbn [getitem]. rewrite Hm.
    repeat split; try assumption. rewrite Hid. discriminate.
  - destruct Hok as [Hid Hip]. exists (JArr l). cbn [getitem]. rewrite Hm.
    repeat split; try assumption. rewrite Hid. discriminate.
  - eexists. cbn [getitem]. rewrite lookup_insert_eq. split; [reflexivity |].
    cbn [contains getitem]. rewrite lookup_delete_eq.
    rewrite lookup_delete_ne by done.
    split; [now rewrite bool_decide_eq_false_2 by (intros [? ?]; discriminate) |].
    destruct Hok as [Hid | [u Hid]].
    + rewrite Hid.
      rewrite (bool_decide_eq_false_2 (is_Some None)) by (intros [? ?]; discriminate).
      rewrite Hid.
      rewrite (bool_decide_eq_false_2 (is_Some None)) by (intros [? ?]; discriminate).
      split; [reflexivity | discriminate].
    + rewrite Hid.
      rewrite (bool_decide_eq_true_2 (is_Some (Some _))) by eauto.
      rewrite lookup_insert_eq.
      rewrite (bool_decide_eq_true_2 (is_Some (Some _))) by eauto.
      split; reflexivity.
Qed.

Lemma count_tally_eq (name : string) (stats : gmap string nat) :
  count (tally_counter name stats) name = S (count stats name).
Proof. unfold count, tally_counter. now rewrite lookup_insert_eq. Qed.

Lemma count_tally_ne (name other : string) (stats : gmap string nat) :
  name <> other -> count (tally_counter name stats) other = count stats other.
Proof. intros Hne. unfold count, tally_counter. now rewrite lookup_insert_ne. Qed.

(* One run moves at most one of the two counters, by one, and never [inbound]. *)
Lemma relay_worker_counts (inp : inputs) (message : bytes) (w w' : world) (r : result unit) :
  relay_worker L RELAY_DUPLICATE_MAX_MINUTES inp message w = (w', r) ->
  count (stats_collector w') "inbound" = count (stats_collector w) "inbound"
  /\ ((count (stats_collector w') "duplicate" = count (stats_collector w) "duplicate"
       /\ count (stats_collector w') "outbound" = count (stats_collector w) "outbound")
      \/ (count (stats_collector w') "duplicate" = S (count (stats_collector w) "duplicate")
          /\ count (stats_collector w') "outbound" = count (stats_collector w) "outbound")
      \/ (count (stats_collector w') "duplicate" = count (stats_collector w) "duplicate"
          /\ count (stats_collector w') "outbound" = S (count (stats_collector w) "outbound"))).
Proof.
  intros Hrun. apply relay_worker_outcome in Hrun.
  destruct Hrun as [e _ Hst _ | text json c c' _ _ _ _ _ _ Hst _
                   | text json h t _ _ _ _ _ _ _ Hst _];
    rewrite Hst.
  - split; [reflexivity |]. left. split; reflexivity.
  - rewrite count_tally_eq, !count_tally_ne by done.
    split; [reflexivity |]. right. left. split; reflexivity.
  - rewrite count_tally_eq, !count_tally_ne by done.
    split; [reflexivity |]. right. right. split; reflexivity.
Qed.

(* Frames received but not yet handled by their greenlet account for the slack. *)
Lemma reachable_counts (inp : inputs) (dm : option (DuplicateMessages L)) (s : loop L) :
  reachable L RELAY_DUPLICATE_MAX_MINUTES inp dm s ->
  (count (stats_collector (now s)) "outbound" + count (stats_collector (now s)) "duplicate"
   + length (spawned s) = count (stats_collector (now s)) "inbound"
   \/ count (stats_collector (now s)) "outbound" + count (stats_collector (now s)) "duplicate"
      + length (spawned s) < count (stats_collector (now s)) "inbound")%nat.
Proof.
  induction 1 as [| s s' Hreach IH Hstep].
  - left. reflexivity.
  - destruct Hstep as [s frame | s inp' before after frame Hsp]; cbn [now spawned].
    + unfold tally, modify. cbn [fst stats_collector].
      rewrite count_tally_eq, !count_tally_ne by done.
      rewrite length_app. cbn [length]. lia.
    + destruct (relay_worker L RELAY_DUPLICATE_MAX_MINUTES inp' frame (now s)) as [w' r] eqn:Hrun.
      apply relay_worker_counts in Hrun. cbn [fst].
      rewrite Hsp in IH. rewrite !length_app in *. cbn [length] in IH. lia.
Qed.

End RelayFacts.
End RelayFacts.

(** ** [bytes.split] and the topic prefix *)

Section Split.

Variable sep : bytes.
Hypothesis sep_nonempty : sep <> [].

Lemma split_from_skip (x l : bytes) :
  split_from sep (length x) (x ++ l) = split_from sep 0 l.
Proof.
  induction x as [| b x IH]; [reflexivity |].
  cbn [length app split_from]. exact IH.
Qed.

Lemma split_from_absent (l : bytes) :
  ~ occurs sep l -> split_from sep 0 l = [l].
Proof.
  induction l as [| b l IH]; intros Hno; [reflexivity |].
  cbn [split_from].
  rewrite bool_decide_eq_false_2.
  - rewrite IH; [reflexivity |].
    intros (pre & post & ->). apply Hno. now exists (b :: pre), post.
  - intros [post Hpost]. apply Hno. now exists [], post.
Qed.

Lemma split_from_match (l post : bytes) :
  l = sep ++ post -> split_from sep 0 l = [] :: split_from sep 0 post.
Proof.
  intros Hl. destruct l as [| b l'].
  - destruct sep; [contradiction | discriminate].
  - cbn [split_from]. rewrite bool_decide_eq_true_2 by (now exists post).
    f_equal. destruct sep as [| b' x] eqn:Hsep; [contradiction |].
    injection Hl as <- ->. rewrite <- Hsep.
    replace (length sep - 1)%nat with (length x) by (rewrite Hsep; cbn [length]; lia).
    apply split_from_skip.
Qed.

Lemma split_from_first (pre post : bytes) :
  first_at sep (pre ++ sep ++ post) (length pre) ->
  split_from sep 0 (pre ++ sep ++ post) = pre :: split_from sep 0 post.
Proof.
  induction pre as [| a pre IH]; intros Hfirst.
  - cbn [app]. now apply split_from_match.
  - cbn [app split_from].
    rewrite bool_decide_eq_false_2.
    + rewrite IH; [reflexivity |].
      intros k Hk. apply (Hfirst (S k)). cbn [length]. lia.
    + apply (Hfirst 0%nat). cbn [length]. lia.
Qed.

Lemma split_from_nonempty (skip : nat) (l : bytes) : split_from sep skip l <> [].
Proof.
  revert skip. induction l as [| b l IH]; intros skip; [discriminate |].
  cbn [split_from]. destruct skip as [| k]; [| apply IH].
  destruct (bool_decide _); [discriminate |].
  destruct (split_from sep 0 l); discriminate.
Qed.

Lemma first_occurrence (l : bytes) :
  occurs sep l ->
  exists pre post, l = pre ++ sep ++ post /\ first_at sep l (length pre).
Proof.
  induction l as [| b l IH]; intros Hocc.
  - destruct Hocc as (pre & post & Hl). symmetry in Hl.
    apply app_eq_nil in Hl. destruct Hl as [_ Hl].
    apply app_eq_nil in Hl. destruct Hl as [Hsep _]. contradiction.
  - destruct (decide (sep `prefix_of` b :: l)) as [[post Hpost] | Hnot].
    + exists [], post. split; [exact Hpost |]. intros k Hk. cbn in Hk. lia.
    + destruct Hocc as (pre & post & Hl). destruct pre as [| a pre].
      * exfalso. apply Hnot. now exists post.
      * injection Hl as <- Hl.
        destruct IH as (p & q & Hpq & Hfirst); [now exists pre, post |].
        exists (b :: p), q. split; [cbn; now rewrite <- Hpq |].
        intros [| k] Hk; [exact Hnot |].
        cbn [drop]. apply Hfirst. cbn in Hk. lia.
Qed.

End Split.

(** ** One run of [monitor_worker] *)

Module MonitorFacts.
Import Monitor MonitorSpec.

Section MonitorFacts.

Variable L : libs.
Variable RELAY_DUPLICATE_MAX_MINUTES : Z.
Variable default_hits : Z.

Abbreviation world := (world L).

Lemma upsert_existing (name : string) (today hits : Z) (t : gmap (string * Z) Z) :
  t !! (name, today) = Some hits ->
  upsert default_hits name today t = <[(name, today) := Z.succ hits]> t.
Proof.
  intros Hrow. unfold upsert, insert_ignore, update_hits.
  rewrite lookup_alter_eq, Hrow. cbn.
  apply map_eq. intros k. destruct (decide (k = (name, today))) as [-> | Hne].
  - now rewrite lookup_alter_eq, lookup_insert_eq, Hrow.
  - now rewrite lookup_alter_ne, lookup_insert_ne by done.
Qed.

Lemma upsert_new (name : string) (today : Z) (t : gmap (string * Z) Z) :
  t !! (name, today) = None ->
  upsert default_hits name today t = <[(name, today) := default_hits]> t.
Proof.
  intros Hrow. unfold upsert, insert_ignore, update_hits.
  rewrite lookup_alter_eq, Hrow. cbn. f_equal.
  apply map_eq. intros k. destruct (decide (k = (name, today))) as [-> | Hne].
  - now rewrite lookup_alter_eq, Hrow.
  - now rewrite lookup_alter_ne by done.
Qed.

Lemma upsert_other (name : string) (today : Z) (t : gmap (string * Z) Z) (k : string * Z) :
  k <> (name, today) -> upsert default_hits name today t !! k = t !! k.
Proof.
  intros Hne. destruct (t !! (name, today)) as [hits |] eqn:Hrow.
  - rewrite (upsert_existing _ _ hits) by assumption. now rewrite lookup_insert_ne.
  - rewrite upsert_new by assumption. now rewrite lookup_insert_ne.
Qed.

(* [bytes + str] stops the expression whatever the header holds. *)
Lemma software_id_of_raises (json : JSON) : exists e, software_id_of json = Raise e.
Proof.
  unfold software_id_of, bind_result.
  destruct (getitem json "header") as [header | e]; [| eauto].
  destruct (getitem header "softwareName") as [name | e]; [| eauto].
  destruct (str_encode name) as [a | e]; [| eauto].
  unfold bytes_add_str. eauto.
Qed.

Lemma monitor_worker_raises (message : bytes) (w : world) :
  exists e,
    monitor_worker L RELAY_DUPLICATE_MAX_MINUTES default_hits message w = (w, Raise e).
Proof.
  unfold monitor_worker, bind, lift.
  destruct (zlib_decompress L (strip_topic message)) as [text |]; cbn [of_option]; [| eauto].
  destruct (simplejson_loads L text) as [json |]; cbn [of_option]; [| eauto].
  destruct (getitem json "$schemaRef") as [schema_id | e]; [| eauto].
  destruct (software_id_of_raises json) as [e ->]. eauto.
Qed.

Lemma getitem_error (o : JSON) (k : string) (e : exn) :
  getitem o k = Raise e -> e = KeyError \/ e = TypeError.
Proof.
  destruct o as [| | | | | | m]; cbn [getitem]; try (intros [= <-]; now right).
  destruct (m !! k); [discriminate | intros [= <-]; now left].
Qed.

Lemma software_id_of_error (json : JSON) (e : exn) :
  software_id_of json = Raise e -> e = KeyError \/ e = TypeError \/ e = AttributeError.
Proof.
  unfold software_id_of, bind_result.
  destruct (getitem json "header") as [header | e0] eqn:Hh;
    [| intros [= <-]; apply getitem_error in Hh; tauto].
  destruct (getitem header "softwareName") as [name | e0] eqn:Hn;
    [| intros [= <-]; apply getitem_error in Hn; tauto].
  destruct name; cbn [str_encode bytes_add_str]; intros [= <-]; tauto.
Qed.

(* The bytes handed to the inflater are the stripped ones, and each later
   step works on what the step before it returned. *)
Lemma monitor_worker_inflates (message : bytes) (w : world) :
  zlib_decompress L (strip_topic message) = None ->
  monitor_worker L RELAY_DUPLICATE_MAX_MINUTES default_hits message w = (w, Raise zlib_error).
Proof. intros Hz. unfold monitor_worker, bind, lift. now rewrite Hz. Qed.

Lemma monitor_worker_parses (message text : bytes) (w : world) :
  zlib_decompress L (strip_topic message) = Some text ->
  simplejson_loads L text = None ->
  monitor_worker L RELAY_DUPLICATE_MAX_MINUTES default_hits message w
  = (w, Raise JSONDecodeError).
Proof.
  intros Hz Hj. unfold monitor_worker, bind, lift.
  rewrite Hz. cbn [of_option]. now rewrite Hj.
Qed.

Lemma monitor_worker_schema (message text : bytes) (json : JSON) (e : exn) (w : world) :
  zlib_decompress L (strip_topic message) = Some text ->
  simplejson_loads L text = Some json ->
  getitem json "$schemaRef" = Raise e ->
  monitor_worker L RELAY_DUPLICATE_MAX_MINUTES default_hits message w = (w, Raise e).
Proof.
  intros Hz Hj Hs. unfold monitor_worker, bind, lift.
  rewrite Hz. cbn [of_option]. rewrite Hj. cbn [of_option]. now rewrite Hs.
Qed.

Lemma monitor_worker_software (message text : bytes) (json schema_id : JSON) (e : exn)
    (w : world) :
  zlib_decompress L (strip_topic message) = Some text ->
  simplejson_loads L text = Some json ->
  getitem json "$schemaRef" = Ok schema_id ->
  software_id_of json = Raise e ->
  monitor_worker L RELAY_DUPLICATE_MAX_MINUTES default_hits message w = (w, Raise e).
Proof.
  intros Hz Hj Hs Hid. unfold monitor_worker, bind, lift.
  rewrite Hz. cbn [of_option]. rewrite Hj. cbn [of_option]. now rewrite Hs, Hid.
Qed.

Lemma monitor_worker_type_error (message text : bytes) (json schema_id header : JSON)
    (software_name : string) (w : world) :
  zlib_decompress L (strip_topic message) = Some text ->
  simplejson_loads L text = Some json ->
  getitem json "$schemaRef" = Ok schema_id ->
  getitem json "header" = Ok header ->
  getitem header "softwareName" = Ok (JStr software_name) ->
  monitor_worker L RELAY_DUPLICATE_MAX_MINUTES default_hits message w = (w, Raise TypeError).
Proof.
  intros Hz Hj Hs Hh Hn. apply (monitor_worker_software message text json schema_id); trivial.
  unfold software_id_of, bind_result. now rewrite Hh, Hn.
Qed.

(* Once the stripped bytes inflate, whatever stops the worker is not zlib. *)
Lemma monitor_worker_past_zlib (message text : bytes) (w : world) :
  zlib_decompress L (strip_topic message) = Some text ->
  snd (monitor_worker L RELAY_DUPLICATE_MAX_MINUTES default_hits message w)
  <> Raise zlib_error.
Proof.
  intros Hz.
  destruct (simplejson_loads L text) as [json |] eqn:Hj;
    [| now rewrite (monitor_worker_parses message text w Hz Hj)].
  destruct (getitem json "$schemaRef") as [schema_id | e] eqn:Hs.
  - destruct (software_id_of_raises json) as [e He].
    rewrite (monitor_worker_software message text json schema_id e w Hz Hj Hs He).
    apply software_id_of_error in He. cbn [snd]. intros [= ->].
    destruct He as [He | [He | He]]; discriminate.
  - rewrite (monitor_worker_schema message text json e w Hz Hj Hs).
    apply getitem_error in Hs. cbn [snd]. intros [= ->].
    destruct Hs; discriminate.
Qed.

Lemma count_message_off (schema_id software_id : string) (json : JSON) (w : world) :
  truthy RELAY_DUPLICATE_MAX_MINUTES = false ->
  count_message L RELAY_DUPLICATE_MAX_MINUTES default_hits schema_id software_id json w
  = ({| db := {| schemas := upsert default_hits schema_id (UTC_DATE (db w)) (schemas (db w));
                 softwares := upsert default_hits software_id (UTC_DATE (db w))
                                (softwares (db w));
                 UTC_DATE := UTC_DATE (db w) |};
        duplicate_messages := duplicate_messages w |}, Ok tt).
Proof. intros Hoff. unfold count_message. rewrite Hoff. reflexivity. Qed.

Lemma count_message_on (schema_id software_id : string) (json : JSON) (w : world)
    (c c' : DuplicateMessages L) (duplicate : bool) :
  truthy RELAY_DUPLICATE_MAX_MINUTES = true ->
  duplicate_messages w = Some c ->
  is_duplicated L c json = (Ok duplicate, c') ->
  count_message L RELAY_DUPLICATE_MAX_MINUTES default_hits schema_id software_id json w
  = (if duplicate
     then {| db := {| schemas := upsert default_hits "DUPLICATE MESSAGE" (UTC_DATE (db w))
                                   (schemas (db w));
                      softwares := softwares (db w);
                      UTC_DATE := UTC_DATE (db w) |};
             duplicate_messages := Some c' |}
     else {| db := {| schemas := upsert default_hits schema_id (UTC_DATE (db w))
                                   (schemas (db w));
                      softwares := upsert default_hits software_id (UTC_DATE (db w))
                                     (softwares (db w));
                      UTC_DATE := UTC_DATE (db w) |};
             duplicate_messages := Some c' |}, Ok tt).
Proof.
  intros Hon Hc Hd. unfold count_message. rewrite Hon.
  unfold bind at 1, check_duplicated. rewrite Hc, Hd.
  destruct duplicate; reflexivity.
Qed.

End MonitorFacts.
End MonitorFacts.

(** * The claims *)

Import Relay RelaySpec.

(** C1, as amended.  For every frame that inflates and parses to an envelope
    whose header is a dict with a [str] under [uploaderID], and that the
    duplicate check lets through, the envelope the Relay serializes has
    [header.uploaderID] replaced by the SHA-1 hex digest of the UTF-8 bytes
    of a text made of: [repr] of the nonce in use (regenerated first when
    line 75 finds it older than twelve hours), the separator [-], and the
    text of the f-string's second field.  That envelope is published unless
    [simplejson.dumps] refuses it.  Which text the second field renders is
    left open here. *)
Theorem relay_uploader_digest (L : libs) (RELAY_DUPLICATE_MAX_MINUTES : Z) (inp : inputs)
    (message text : bytes) (m hm : gmap string JSON) (u : string) (w : world L) :
  zlib_decompress L message = Some text ->
  simplejson_loads L text = Some (JObj m) ->
  m !! "header" = Some (JObj hm) ->
  hm !! "uploaderID" = Some (JStr u) ->
  not_duplicate L RELAY_DUPLICATE_MAX_MINUTES w (JObj m) ->
  exists (json' header' : JSON) (field : string) (w' : world L),
    getitem json' "header" = Ok header'
    /\ getitem header' "uploaderID"
       = Ok (JStr (SHA1.hexdigest
                     (encode_utf8 (formatted (nonce_in_use L inp w) field))))
    /\ match simplejson_dumps L json' true with
       | Some message_json =>
           relay_worker L RELAY_DUPLICATE_MAX_MINUTES inp message w = (w', Ok tt)
           /\ sender w' = sender w ++ [zlib_compress L (encode_utf8 message_json)]
       | None =>
           relay_worker L RELAY_DUPLICATE_MAX_MINUTES inp message w = (w', Raise ValueError)
           /\ sender w' = sender w
       end.
Proof.
  intros Hz Hj Hm Hid Hnd.
  assert (Hh : getitem (JObj m) "header" = Ok (JObj hm)) by (cbn; now rewrite Hm).
  assert (Hok : header_ok (JObj hm)) by (right; eauto).
  destruct (RelayFacts.masked_header (pseudonym L inp w) (JObj m) (JObj hm) Hh Hok)
    as (header' & Hh' & _ & Hsame & Hval).
  assert (Hdigest : getitem header' "uploaderID" = Ok (JStr (pseudonym L inp w))).
  { apply Hval. rewrite Hsame. cbn. now rewrite bool_decide_eq_true_2 by eauto. }
  destruct (simplejson_dumps L (masked (pseudonym L inp w) (JObj m)) true)
    as [message_json |] eqn:Hdumps.
  - destruct (RelayFacts.relay_worker_forwards L RELAY_DUPLICATE_MAX_MINUTES inp message text
                (JObj m) (JObj hm) message_json w Hz Hj Hnd Hh Hok Hdumps)
      as (w' & Hrun & _ & Hsent).
    exists (masked (pseudonym L inp w) (JObj m)), header',
      (str_encode_method_repr (id_uploader inp)), w'.
    rewrite Hdumps. split; [exact Hh' |]. split; [exact Hdigest |]. now split.
  - destruct (RelayFacts.relay_worker_refused L RELAY_DUPLICATE_MAX_MINUTES inp message text
                (JObj m) (JObj hm) w Hz Hj Hnd Hh Hok Hdumps)
      as (w' & Hrun & _ & Hsent).
    exists (masked (pseudonym L inp w) (JObj m)), header',
      (str_encode_method_repr (id_uploader inp)), w'.
    rewrite Hdumps. split; [exact Hh' |]. split; [exact Hdigest |]. now split.
Qed.

Lemma relay_uploader_digest_witness :
  zlib_decompress Sample.sample (Sample.wire Sample.happy_envelope)
  = Some (encode_utf8 (Sample.dumps Sample.happy_envelope true))
  /\ Sample.happy_fields !! "header" = Some (JObj Sample.happy_header)
  /\ Sample.happy_header !! "uploaderID" = Some (JStr "Cmdr-Jameson")
  /\ exists (json' header' : JSON) (field : string) (w' : world Sample.sample),
       getitem json' "header" = Ok header'
       /\ getitem header' "uploaderID"
          = Ok (JStr (SHA1.hexdigest
                        (encode_utf8
                           (formatted (nonce_in_use Sample.sample Sample.first_upload
                                         Sample.start) field))))
       /\ match simplejson_dumps Sample.sample json' true with
          | Some message_json =>
              relay_worker Sample.sample 15 Sample.first_upload
                (Sample.wire Sample.happy_envelope) Sample.start = (w', Ok tt)
              /\ sender w' = sender Sample.start
                   ++ [zlib_compress Sample.sample (encode_utf8 message_json)]
          | None =>
              relay_worker Sample.sample 15 Sample.first_upload
                (Sample.wire Sample.happy_envelope) Sample.start = (w', Raise ValueError)
              /\ sender w' = sender Sample.start
          end.
Proof.
  split; [vm_compute; reflexivity |].
  split; [vm_compute; reflexivity |].
  split; [vm_compute; reflexivity |].
  apply (relay_uploader_digest Sample.sample 15 Sample.first_upload
           (Sample.wire Sample.happy_envelope)
           (encode_utf8 (Sample.dumps Sample.happy_envelope true))
           Sample.happy_fields Sample.happy_header "Cmdr-Jameson" Sample.start).
  - vm_compute; reflexivity.
  - vm_compute; reflexivity.
  - vm_compute; reflexivity.
  - vm_compute; reflexivity.
  - right. exists [], [Sample.fingerprint Sample.happy_envelope].
    split; vm_compute; reflexivity.
Defined.

(** C1 as stated fails: for the happy-path upload of [Cmdr-Jameson] the
    published [uploaderID] is not the SHA-1 of nonce, [:] and uploader ID.
    The format of line 78 alone excludes it: with the nonce in quotes and
    [-] as separator, the uploader ID itself as second field gives yet
    another digest. *)
Lemma relay_uploader_digest_counterexample :
  let w' := fst (relay_worker Sample.sample 15 Sample.first_upload
                   (Sample.wire Sample.happy_envelope) Sample.start) in
  uploader_nonce Sample.start = Some "12345678-1234-4678-9234-567812345678"
  /\ map Sample.published_uploader (sender w')
     = [Some (JStr "15c87000e1715303e41c1b3bc3c42e75faada9dc")]
  /\ SHA1.hexdigest (encode_utf8 ("12345678-1234-4678-9234-567812345678" +:+ ":"
                                  +:+ "Cmdr-Jameson"))
     = "6d923a60208958cde73623eb03f0de34ba1594ee"
  /\ "15c87000e1715303e41c1b3bc3c42e75faada9dc"
     <> SHA1.hexdigest (encode_utf8 ("12345678-1234-4678-9234-567812345678" +:+ ":"
                                     +:+ "Cmdr-Jameson"))
  /\ SHA1.hexdigest
       (encode_utf8 (formatted (Some "12345678-1234-4678-9234-567812345678") "Cmdr-Jameson"))
     = "2a5ca899622a5a6ec395c1466151bedd73c758d4"
  /\ SHA1.hexdigest
       (encode_utf8 (formatted (Some "12345678-1234-4678-9234-567812345678") "Cmdr-Jameson"))
     <> SHA1.hexdigest (encode_utf8 ("12345678-1234-4678-9234-567812345678" +:+ ":"
                                     +:+ "Cmdr-Jameson")).
Proof.
  cbv zeta.
  split; [vm_compute; reflexivity |].
  split; [vm_compute; reflexivity |].
  split; [vm_compute; reflexivity |].
  split; [vm_compute; discriminate |].
  split; [vm_compute; reflexivity |].
  vm_compute. discriminate.
Qed.

(** C2.  Every frame the Relay publishes carries an envelope whose header
    has no [uploaderIP]; its header has an [uploaderID] exactly when the
    header of the received envelope had one, and then the value is a string
    of exactly forty hexadecimal characters. *)
Theorem relay_published_header (L : libs) (RELAY_DUPLICATE_MAX_MINUTES : Z) (inp : inputs)
    (message out : bytes) (w w' : world L) (r : result unit) :
  relay_worker L RELAY_DUPLICATE_MAX_MINUTES inp message w = (w', r) ->
  sender w' = sender w ++ [out] ->
  exists text json json' header header' message_json,
    zlib_decompress L message = Some text
    /\ simplejson_loads L text = Some json
    /\ simplejson_dumps L json' true = Some message_json
    /\ out = zlib_compress L (encode_utf8 message_json)
    /\ getitem json "header" = Ok header
    /\ getitem json' "header" = Ok header'
    /\ contains "uploaderIP" header' = Ok false
    /\ contains "uploaderID" header' = contains "uploaderID" header
    /\ (contains "uploaderID" header' = Ok true ->
        exists d, getitem header' "uploaderID" = Ok (JStr d) /\ hex40 d).
Proof.
  intros Hrun Hsent. apply RelayFacts.relay_worker_outcome in Hrun.
  destruct Hrun as [e _ _ Hse | text json c c' _ _ _ _ _ _ _ Hse
                   | text json h t _ Hz Hj _ Hh Hok Hdumps _ Hse].
  - rewrite Hse in Hsent. apply (f_equal length) in Hsent.
    rewrite length_app in Hsent. cbn in Hsent. lia.
  - rewrite Hse in Hsent. apply (f_equal length) in Hsent.
    rewrite length_app in Hsent. cbn in Hsent. lia.
  - rewrite Hse in Hsent. apply app_inv_head in Hsent. injection Hsent as <-.
    destruct (RelayFacts.masked_header (pseudonym L inp w) json h Hh Hok)
      as (h' & Hh' & Hip & Hid & Hval).
    exists text, json, (masked (pseudonym L inp w) json), h, h', t.
    repeat split; try assumption.
    intros Hin. exists (pseudonym L inp w). split; [now apply Hval |].
    apply hexdigest_hex40.
Qed.

Lemma relay_published_header_witness :
  relay_worker Sample.sample 15 Sample.first_upload (Sample.wire Sample.happy_envelope)
    Sample.start = (Sample.after_first, Ok tt)
  /\ sender Sample.after_first = sender Sample.start ++ [Sample.first_frame]
  /\ exists text json json' header header' message_json,
       zlib_decompress Sample.sample (Sample.wire Sample.happy_envelope) = Some text
       /\ simplejson_loads Sample.sample text = Some json
       /\ simplejson_dumps Sample.sample json' true = Some message_json
       /\ Sample.first_frame = zlib_compress Sample.sample (encode_utf8 message_json)
       /\ getitem json "header" = Ok header
       /\ getitem json' "header" = Ok header'
       /\ contains "uploaderIP" header' = Ok false
       /\ contains "uploaderID" header' = contains "uploaderID" header
       /\ (contains "uploaderID" header' = Ok true ->
           exists d, getitem header' "uploaderID" = Ok (JStr d) /\ hex40 d).
Proof.
  assert (Hrun : relay_worker Sample.sample 15 Sample.first_upload
                   (Sample.wire Sample.happy_envelope) Sample.start
                 = (Sample.after_first, Ok tt)).
  { unfold Sample.after_first.
    assert (Hsnd : snd (relay_worker Sample.sample 15 Sample.first_upload
                          (Sample.wire Sample.happy_envelope) Sample.start) = Ok tt)
      by (vm_compute; reflexivity).
    rewrite <- Hsnd. apply surjective_pairing. }
  assert (Hsent : sender Sample.after_first = sender Sample.start ++ [Sample.first_frame])
    by (vm_compute; reflexivity).
  split; [exact Hrun |].
  split; [exact Hsent |].
  exact (relay_published_header Sample.sample 15 Sample.first_upload
           (Sample.wire Sample.happy_envelope) Sample.first_frame
           Sample.start Sample.after_first (Ok tt) Hrun Hsent).
Defined.

(** C3 at its failing input.  Two uploads of [Cmdr-Jameson] reach the Relay
    one minute apart, inside the same nonce window (the nonce is not
    regenerated); the two [uploaderID] strings are objects at different
    addresses, and the two published pseudonyms differ. *)
Theorem same_window_pseudonyms_differ :
  uploader_nonce Sample.after_first = uploader_nonce Sample.start
  /\ uploader_nonce Sample.after_second = uploader_nonce Sample.start
  /\ Sample.happy_header !! "uploaderID" = Some (JStr "Cmdr-Jameson")
  /\ Sample.published_uploader (Sample.wire Sample.second_envelope)
     = Some (JStr "Cmdr-Jameson")
  /\ map Sample.published_uploader (sender Sample.after_second)
     = [Some (JStr "15c87000e1715303e41c1b3bc3c42e75faada9dc");
        Some (JStr "12827748db8d525b4764c86d4980e46b0edd07f4")].
Proof.
  split; [vm_compute; reflexivity |].
  split; [vm_compute; reflexivity |].
  split; [vm_compute; reflexivity |].
  split; vm_compute; reflexivity.
Qed.

(** C4.  When the duplicate check is on and the cache reports the parsed
    envelope as a duplicate, the worker returns after tallying [duplicate]:
    nothing is sent and [outbound] keeps its value. *)
Theorem relay_duplicate_discarded (L : libs) (RELAY_DUPLICATE_MAX_MINUTES : Z) (inp : inputs)
    (message text : bytes) (json : JSON) (c c' : DuplicateMessages L) (w : world L) :
  zlib_decompress L message = Some text ->
  simplejson_loads L text = Some json ->
  truthy RELAY_DUPLICATE_MAX_MINUTES = true ->
  duplicate_messages w = Some c ->
  is_duplicated L c json = (Ok true, c') ->
  exists w',
    relay_worker L RELAY_DUPLICATE_MAX_MINUTES inp message w = (w', Ok tt)
    /\ sender w' = sender w
    /\ count (stats_collector w') "duplicate" = S (count (stats_collector w) "duplicate")
    /\ count (stats_collector w') "outbound" = count (stats_collector w) "outbound"
    /\ count (stats_collector w') "inbound" = count (stats_collector w) "inbound".
Proof.
  intros Hz Hj Hon Hc Hd.
  rewrite RelayFacts.relay_worker_unfold, Hz, Hj, Hon.
  unfold check_duplicated. rewrite Hc, Hd.
  unfold tally, modify.
  eexists. split; [reflexivity |]. cbn [stats_collector sender].
  rewrite RelayFacts.count_tally_eq, !RelayFacts.count_tally_ne by done.
  repeat split.
Qed.

Lemma relay_duplicate_discarded_witness :
  zlib_decompress Sample.sample (Sample.wire Sample.happy_envelope)
  = Some (encode_utf8 (Sample.dumps Sample.happy_envelope true))
  /\ truthy 15 = true
  /\ duplicate_messages Sample.after_first = Some [Sample.fingerprint Sample.happy_envelope]
  /\ exists w',
       relay_worker Sample.sample 15 Sample.second_upload
         (Sample.wire Sample.happy_envelope) Sample.after_first = (w', Ok tt)
       /\ sender w' = sender Sample.after_first
       /\ count (stats_collector w') "duplicate"
          = S (count (stats_collector Sample.after_first) "duplicate")
       /\ count (stats_collector w') "outbound"
          = count (stats_collector Sample.after_first) "outbound"
       /\ count (stats_collector w') "inbound"
          = count (stats_collector Sample.after_first) "inbound".
Proof.
  split; [vm_compute; reflexivity |].
  split; [reflexivity |].
  split; [vm_compute; reflexivity |].
  apply (relay_duplicate_discarded Sample.sample 15 Sample.second_upload
           (Sample.wire Sample.happy_envelope)
           (encode_utf8 (Sample.dumps Sample.happy_envelope true))
           Sample.happy_envelope
           [Sample.fingerprint Sample.happy_envelope]
           [Sample.fingerprint Sample.happy_envelope]
           Sample.after_first).
  - vm_compute; reflexivity.
  - vm_compute; reflexivity.
  - reflexivity.
  - vm_compute; reflexivity.
  - vm_compute; reflexivity.
Defined.

(** C5, as amended.  For every frame that the duplicate check lets through
    and whose envelope has a header the worker can mask (a dict whose
    [uploaderID], if any, is a [str]; or a list or str in which neither key
    is found), the Relay serializes the masked envelope with
    [sort_keys=True].  When [simplejson.dumps] accepts it, the Relay
    zlib-compresses the UTF-8 text and hands exactly these compressed bytes
    to the public socket, then tallies [outbound]: the frame carries no
    topic prefix.  When [simplejson.dumps] refuses it, the worker raises
    [ValueError]: nothing is sent and [outbound] keeps its value. *)
Theorem relay_publishes_compressed_sorted_json (L : libs) (RELAY_DUPLICATE_MAX_MINUTES : Z)
    (inp : inputs) (message text : bytes) (json header : JSON) (w : world L) :
  zlib_decompress L message = Some text ->
  simplejson_loads L text = Some json ->
  not_duplicate L RELAY_DUPLICATE_MAX_MINUTES w json ->
  getitem json "header" = Ok header ->
  header_ok header ->
  exists w',
    match simplejson_dumps L (masked (pseudonym L inp w) json) true with
    | Some message_json =>
        relay_worker L RELAY_DUPLICATE_MAX_MINUTES inp message w = (w', Ok tt)
        /\ sender w' = sender w ++ [zlib_compress L (encode_utf8 message_json)]
        /\ count (stats_collector w') "outbound" = S (count (stats_collector w) "outbound")
    | None =>
        relay_worker L RELAY_DUPLICATE_MAX_MINUTES inp message w = (w', Raise ValueError)
        /\ sender w' = sender w
        /\ count (stats_collector w') "outbound" = count (stats_collector w) "outbound"
    end.
Proof.
  intros Hz Hj Hnd Hh Hok.
  destruct (simplejson_dumps L (masked (pseudonym L inp w) json) true)
    as [message_json |] eqn:Hdumps.
  - destruct (RelayFacts.relay_worker_forwards L RELAY_DUPLICATE_MAX_MINUTES inp message text
                json header message_json w Hz Hj Hnd Hh Hok Hdumps)
      as (w' & Hrun & Hst & Hsent).
    exists w'. split; [assumption |]. split; [assumption |].
    rewrite Hst. apply RelayFacts.count_tally_eq.
  - destruct (RelayFacts.relay_worker_refused L RELAY_DUPLICATE_MAX_MINUTES inp message text
                json header w Hz Hj Hnd Hh Hok Hdumps)
      as (w' & Hrun & Hst & Hsent).
    exists w'. split; [assumption |]. split; [assumption |]. now rewrite Hst.
Qed.

Lemma relay_publishes_compressed_sorted_json_witness :
  zlib_decompress Sample.sample (Sample.wire Sample.happy_envelope)
  = Some (encode_utf8 (Sample.dumps Sample.happy_envelope true))
  /\ simplejson_loads Sample.sample (encode_utf8 (Sample.dumps Sample.happy_envelope true))
     = Some Sample.happy_envelope
  /\ getitem Sample.happy_envelope "header" = Ok (JObj Sample.happy_header)
  /\ simplejson_dumps Sample.sample
       (masked (pseudonym Sample.sample Sample.first_upload Sample.start)
          Sample.happy_envelope) true
     = Some (Sample.dumps
               (masked (pseudonym Sample.sample Sample.first_upload Sample.start)
                  Sample.happy_envelope) true)
  /\ exists w',
       relay_worker Sample.sample 15 Sample.first_upload
         (Sample.wire Sample.happy_envelope) Sample.start = (w', Ok tt)
       /\ sender w' = sender Sample.start
            ++ [zlib_compress Sample.sample
                  (encode_utf8
                     (Sample.dumps
                        (masked (pseudonym Sample.sample Sample.first_upload Sample.start)
                           Sample.happy_envelope) true))]
       /\ count (stats_collector w') "outbound"
          = S (count (stats_collector Sample.start) "outbound").
Proof.
  assert (Hdumps : simplejson_dumps Sample.sample
                     (masked (pseudonym Sample.sample Sample.first_upload Sample.start)
                        Sample.happy_envelope) true
                   = Some (Sample.dumps
                             (masked (pseudonym Sample.sample Sample.first_upload
                                        Sample.start)
                                Sample.happy_envelope) true))
    by (vm_compute; reflexivity).
  split; [vm_compute; reflexivity |].
  split; [vm_compute; reflexivity |].
  split; [vm_compute; reflexivity |].
  split; [exact Hdumps |].
  destruct (relay_publishes_compressed_sorted_json Sample.sample 15 Sample.first_upload
              (Sample.wire Sample.happy_envelope)
              (encode_utf8 (Sample.dumps Sample.happy_envelope true))
              Sample.happy_envelope (JObj Sample.happy_header) Sample.start)
    as [w' Hw'].
  - vm_compute; reflexivity.
  - vm_compute; reflexivity.
  - right. exists [], [Sample.fingerprint Sample.happy_envelope].
    split; vm_compute; reflexivity.
  - vm_compute; reflexivity.
  - right. exists "Cmdr-Jameson". vm_compute; reflexivity.
  - rewrite Hdumps in Hw'. exists w'. exact Hw'.
Defined.

(** C5 as stated fails: the frame published for the happy-path envelope does
    not start with the envelope's schema ID and the separator; the
    separator does not occur in it at all. *)
Lemma relay_frame_has_no_topic_prefix :
  Sample.happy_fields !! "$schemaRef"
  = Some (JStr "https://eddn.edcd.io/schemas/commodity/3")
  /\ sender Sample.after_first = [Sample.first_frame]
  /\ ~ encode_utf8 "https://eddn.edcd.io/schemas/commodity/3 |-| "
       `prefix_of` Sample.first_frame
  /\ bytes_split (encode_utf8 " |-| ") Sample.first_frame = [Sample.first_frame].
Proof.
  split; [vm_compute; reflexivity |].
  split; [vm_compute; reflexivity |].
  split; [| vm_compute; reflexivity].
  intros Hprefix.
  assert (Hb : bool_decide (encode_utf8 "https://eddn.edcd.io/schemas/commodity/3 |-| "
                            `prefix_of` Sample.first_frame) = true)
    by (apply bool_decide_eq_true_2; exact Hprefix).
  vm_compute in Hb. discriminate.
Qed.

(** C9.  In every state the receive loop can reach,
    [inbound >= outbound + duplicate], and the frames whose greenlet has not
    run yet are already counted in [inbound]; receiving a frame adds one to
    [inbound] and to nothing else before the worker is spawned; one run of
    the worker leaves [inbound] alone and adds one to at most one of
    [duplicate] and [outbound]. *)
Theorem relay_stats_invariant (L : libs) (RELAY_DUPLICATE_MAX_MINUTES : Z)
    (inp0 : inputs) (dm : option (DuplicateMessages L)) (s : loop L) :
  reachable L RELAY_DUPLICATE_MAX_MINUTES inp0 dm s ->
  (count (stats_collector (now s)) "outbound" + count (stats_collector (now s)) "duplicate"
   <= count (stats_collector (now s)) "inbound")%nat
  /\ (count (stats_collector (now s)) "outbound"
      + count (stats_collector (now s)) "duplicate" + length (spawned s)
      <= count (stats_collector (now s)) "inbound")%nat
  /\ (let received := fst (tally L "inbound" (now s)) in
      count (stats_collector received) "inbound" = S (count (stats_collector (now s)) "inbound")
      /\ count (stats_collector received) "outbound" = count (stats_collector (now s)) "outbound"
      /\ count (stats_collector received) "duplicate"
         = count (stats_collector (now s)) "duplicate")
  /\ (forall (inp : inputs) (message : bytes),
        let w' := fst (relay_worker L RELAY_DUPLICATE_MAX_MINUTES inp message (now s)) in
        count (stats_collector w') "inbound" = count (stats_collector (now s)) "inbound"
        /\ (count (stats_collector (now s)) "duplicate" <= count (stats_collector w') "duplicate")%nat
        /\ (count (stats_collector (now s)) "outbound" <= count (stats_collector w') "outbound")%nat
        /\ (count (stats_collector w') "duplicate" + count (stats_collector w') "outbound"
            <= S (count (stats_collector (now s)) "duplicate"
                  + count (stats_collector (now s)) "outbound"))%nat).
Proof.
  intros Hreach. split; [| split; [| split]].
  - apply RelayFacts.reachable_counts in Hreach. lia.
  - apply RelayFacts.reachable_counts in Hreach. lia.
  - unfold tally, modify. cbn [fst stats_collector].
    rewrite RelayFacts.count_tally_eq, !RelayFacts.count_tally_ne by done.
    repeat split.
  - intros inp message.
    destruct (relay_worker L RELAY_DUPLICATE_MAX_MINUTES inp message (now s)) as [w' r] eqn:Hrun.
    apply RelayFacts.relay_worker_counts in Hrun. cbn [fst]. lia.
Qed.

Lemma relay_stats_invariant_witness :
  reachable Sample.sample 15 Sample.boot (Some []) Sample.loop_handled
  /\ (count (stats_collector (now Sample.loop_handled)) "outbound"
      + count (stats_collector (now Sample.loop_handled)) "duplicate"
      <= count (stats_collector (now Sample.loop_handled)) "inbound")%nat.
Proof.
  assert (Hreach : reachable Sample.sample 15 Sample.boot (Some []) Sample.loop_handled).
  { apply (reach_step _ _ _ _ Sample.loop_received).
    - apply (reach_step _ _ _ _ Sample.loop_start).
      + apply reach_start.
      + apply step_recv.
    - apply (step_worker _ _ Sample.loop_received Sample.first_upload [] []).
      reflexivity. }
  split; [exact Hreach |].
  exact (proj1 (relay_stats_invariant Sample.sample 15 Sample.boot (Some [])
                  Sample.loop_handled Hreach)).
Defined.

(** C10.  The worker inflates the frame as received.  For a frame of the
    form topic, separator, payload that zlib refuses as a whole, the worker
    raises [zlib.error] and changes nothing: after the loop has tallied
    [inbound] for the frame, nothing is sent and neither [duplicate] nor
    [outbound] moves. *)
Theorem relay_topic_prefixed_frame_is_dropped (L : libs) (RELAY_DUPLICATE_MAX_MINUTES : Z)
    (inp : inputs) (topic payload : bytes) (w : world L) :
  zlib_decompress L (topic ++ encode_utf8 " |-| " ++ payload) = None ->
  let received := fst (tally L "inbound" w) in
  let w' := fst (relay_worker L RELAY_DUPLICATE_MAX_MINUTES inp
                   (topic ++ encode_utf8 " |-| " ++ payload) received) in
  snd (relay_worker L RELAY_DUPLICATE_MAX_MINUTES inp
         (topic ++ encode_utf8 " |-| " ++ payload) received) = Raise zlib_error
  /\ sender w' = sender w
  /\ count (stats_collector w') "inbound" = S (count (stats_collector w) "inbound")
  /\ count (stats_collector w') "duplicate" = count (stats_collector w) "duplicate"
  /\ count (stats_collector w') "outbound" = count (stats_collector w) "outbound".
Proof.
  intros Hz received w'. subst w'.
  rewrite RelayFacts.relay_worker_unfold, Hz. cbn [fst snd].
  subst received. unfold tally, modify. cbn [fst stats_collector sender].
  rewrite RelayFacts.count_tally_eq, !RelayFacts.count_tally_ne by done.
  repeat split.
Qed.

Lemma relay_topic_prefixed_frame_is_dropped_witness :
  Sample.prefixed_frame
  = encode_utf8 "https://eddn.edcd.io/schemas/commodity/3" ++ encode_utf8 " |-| "
    ++ Sample.wire Sample.happy_envelope
  /\ zlib_decompress Sample.sample Sample.prefixed_frame = None
  /\ zlib_decompress Sample.sample (Sample.wire Sample.happy_envelope)
     = Some (encode_utf8 (Sample.dumps Sample.happy_envelope true))
  /\ let received := fst (tally Sample.sample "inbound" Sample.start) in
     let w' := fst (relay_worker Sample.sample 15 Sample.first_upload
                      Sample.prefixed_frame received) in
     snd (relay_worker Sample.sample 15 Sample.first_upload
            Sample.prefixed_frame received) = Raise zlib_error
     /\ sender w' = sender Sample.start
     /\ count (stats_collector w') "inbound"
        = S (count (stats_collector Sample.start) "inbound")
     /\ count (stats_collector w') "duplicate"
        = count (stats_collector Sample.start) "duplicate"
     /\ count (stats_collector w') "outbound"
        = count (stats_collector Sample.start) "outbound".
Proof.
  split; [reflexivity |].
  split; [vm_compute; reflexivity |].
  split; [vm_compute; reflexivity |].
  apply (relay_topic_prefixed_frame_is_dropped Sample.sample 15 Sample.first_upload
           (encode_utf8 "https://eddn.edcd.io/schemas/commodity/3")
           (Sample.wire Sample.happy_envelope) Sample.start).
  vm_compute; reflexivity.
Defined.

Lemma occursb_complete (sep l : bytes) : occurs sep l -> occursb sep l = true.
Proof.
  intros (pre & post & ->). unfold occursb. apply existsb_exists.
  exists (length pre). split.
  - apply in_seq. rewrite !length_app. lia.
  - unfold occurs_at. apply bool_decide_eq_true_2.
    rewrite drop_app_length. now exists post.
Qed.

Lemma first_atb_sound (sep l : bytes) (n : nat) : first_atb sep l n = true -> first_at sep l n.
Proof.
  unfold first_atb, first_at. rewrite forallb_forall. intros Hall k Hk Hprefix.
  assert (Hin : In k (seq 0 n)) by (apply in_seq; lia).
  apply Hall in Hin. unfold occurs_at in Hin.
  rewrite bool_decide_eq_true_2 in Hin by assumption. discriminate.
Qed.

Lemma SEPARATOR_nonempty : Monitor.SEPARATOR <> [].
Proof. discriminate. Qed.

Import Monitor MonitorSpec.

(** C8.  The bytes the Monitor inflates are the frame without its topic
    prefix.  They are the whole frame when the separator does not occur in
    it.  When it occurs, they are the segment behind the first separator:
    the rest of the frame if the separator does not occur again, and
    otherwise the bytes up to its next occurrence; every frame in which the
    separator occurs splits at a first occurrence.  It is these bytes that
    [zlib.decompress] gets: the worker ends in [zlib.error] exactly when
    they do not inflate, and what they inflate to is what is parsed and then
    searched for [$schemaRef]. *)
Theorem monitor_strip_topic (L : libs) (RELAY_DUPLICATE_MAX_MINUTES default_hits : Z)
    (message : bytes) (w : Monitor.world L) :
  (~ occurs SEPARATOR message -> strip_topic message = message)
  /\ (forall topic rest : bytes,
        message = topic ++ SEPARATOR ++ rest ->
        first_at SEPARATOR message (length topic) ->
        (~ occurs SEPARATOR rest -> strip_topic message = rest)
        /\ (forall segment more : bytes,
              rest = segment ++ SEPARATOR ++ more ->
              first_at SEPARATOR rest (length segment) ->
              strip_topic message = segment))
  /\ (occurs SEPARATOR message ->
      exists topic rest : bytes,
        message = topic ++ SEPARATOR ++ rest
        /\ first_at SEPARATOR message (length topic))
  /\ (snd (monitor_worker L RELAY_DUPLICATE_MAX_MINUTES default_hits message w)
      = Raise zlib_error
      <-> zlib_decompress L (strip_topic message) = None)
  /\ (forall text : bytes,
        zlib_decompress L (strip_topic message) = Some text ->
        simplejson_loads L text = None ->
        monitor_worker L RELAY_DUPLICATE_MAX_MINUTES default_hits message w
        = (w, Raise JSONDecodeError))
  /\ (forall (text : bytes) (json : JSON) (e : exn),
        zlib_decompress L (strip_topic message) = Some text ->
        simplejson_loads L text = Some json ->
        getitem json "$schemaRef" = Raise e ->
        monitor_worker L RELAY_DUPLICATE_MAX_MINUTES default_hits message w
        = (w, Raise e)).
Proof.
  split; [| split; [| split; [| split; [| split]]]].
  - intros Habsent. unfold strip_topic, bytes_split.
    now rewrite (split_from_absent SEPARATOR message Habsent).
  - intros topic rest -> Hfirst.
    assert (Hsplit : bytes_split SEPARATOR (topic ++ SEPARATOR ++ rest)
                     = topic :: split_from SEPARATOR 0 rest)
      by (apply split_from_first; [apply SEPARATOR_nonempty | exact Hfirst]).
    split.
    + intros Habsent. unfold strip_topic. rewrite Hsplit.
      now rewrite (split_from_absent SEPARATOR rest Habsent).
    + intros segment more -> Hnext. unfold strip_topic. rewrite Hsplit.
      rewrite (split_from_first SEPARATOR SEPARATOR_nonempty segment more Hnext).
      reflexivity.
  - apply first_occurrence. apply SEPARATOR_nonempty.
  - split.
    + intros Hraised.
      destruct (zlib_decompress L (strip_topic message)) as [text |] eqn:Hz;
        [| reflexivity].
      now destruct (MonitorFacts.monitor_worker_past_zlib L RELAY_DUPLICATE_MAX_MINUTES
                      default_hits message text w Hz).
    + intros Hz. now rewrite MonitorFacts.monitor_worker_inflates.
  - intros text. apply MonitorFacts.monitor_worker_parses.
  - intros text json e. apply MonitorFacts.monitor_worker_schema.
Qed.

Lemma monitor_strip_topic_witness :
  ~ occurs SEPARATOR (Sample.wire Sample.happy_envelope)
  /\ first_at SEPARATOR Sample.prefixed_frame
       (length (encode_utf8 "https://eddn.edcd.io/schemas/commodity/3"))
  /\ strip_topic (Sample.wire Sample.happy_envelope) = Sample.wire Sample.happy_envelope
  /\ strip_topic Sample.prefixed_frame = Sample.wire Sample.happy_envelope
  /\ zlib_decompress Sample.sample Sample.prefixed_frame = None
  /\ zlib_decompress Sample.sample (strip_topic Sample.prefixed_frame)
     = Some (encode_utf8 (Sample.dumps Sample.happy_envelope true))
  /\ snd (monitor_worker Sample.sample 15 1 Sample.prefixed_frame Sample.monitor_start)
     <> Raise zlib_error
  /\ zlib_decompress Sample.sample (strip_topic MonitorSample.unlucky_frame) = None
  /\ snd (monitor_worker Sample.sample 15 1 MonitorSample.unlucky_frame
            Sample.monitor_start)
     = Raise zlib_error.
Proof.
  assert (Habsent : ~ occurs SEPARATOR (Sample.wire Sample.happy_envelope)).
  { intros Hocc. apply occursb_complete in Hocc. vm_compute in Hocc. discriminate. }
  assert (Hfirst : first_at SEPARATOR Sample.prefixed_frame
                     (length (encode_utf8 "https://eddn.edcd.io/schemas/commodity/3")))
    by (apply first_atb_sound; vm_compute; reflexivity).
  assert (Hz : zlib_decompress Sample.sample (strip_topic Sample.prefixed_frame)
               = Some (encode_utf8 (Sample.dumps Sample.happy_envelope true)))
    by (vm_compute; reflexivity).
  split; [exact Habsent |].
  split; [exact Hfirst |].
  split; [exact (proj1 (monitor_strip_topic Sample.sample 15 1
                          (Sample.wire Sample.happy_envelope) Sample.monitor_start)
                   Habsent) |].
  split; [exact (proj1 (proj1 (proj2 (monitor_strip_topic Sample.sample 15 1
                                        Sample.prefixed_frame Sample.monitor_start))
                          (encode_utf8 "https://eddn.edcd.io/schemas/commodity/3")
                          (Sample.wire Sample.happy_envelope) eq_refl Hfirst) Habsent) |].
  split; [vm_compute; reflexivity |].
  split; [exact Hz |].
  split.
  - intros Hraised.
    apply (proj1 (proj1 (proj2 (proj2 (proj2 (monitor_strip_topic Sample.sample 15 1
                                                Sample.prefixed_frame
                                                Sample.monitor_start)))))) in Hraised.
    rewrite Hz in Hraised. discriminate.
  - assert (Hrefused : zlib_decompress Sample.sample
                         (strip_topic MonitorSample.unlucky_frame) = None)
      by (vm_compute; reflexivity).
    split; [exact Hrefused |].
    exact (proj2 (proj1 (proj2 (proj2 (proj2 (monitor_strip_topic Sample.sample 15 1
                                                MonitorSample.unlucky_frame
                                                Sample.monitor_start)))))
             Hrefused).
Defined.

(** C7 at its failing input.  The happy-path frame reaches a Monitor with
    empty tables.  The envelope carries [softwareName] and [softwareVersion]
    and is new to the duplicate cache, so the claim asks for the
    [softwares] row of [EDMC | 5.0.0]; the worker ends in the [TypeError] of
    lines 207-208 and leaves the tables and the cache as they were.  The
    same frame seen before ends the same way. *)
Theorem monitor_happy_frame_counts_nothing :
  zlib_decompress Sample.sample (strip_topic (Sample.wire Sample.happy_envelope))
  = Some (encode_utf8 (Sample.dumps Sample.happy_envelope true))
  /\ simplejson_loads Sample.sample (encode_utf8 (Sample.dumps Sample.happy_envelope true))
     = Some Sample.happy_envelope
  /\ Sample.happy_header !! "softwareName" = Some (JStr "EDMC")
  /\ Sample.happy_header !! "softwareVersion" = Some (JStr "5.0.0")
  /\ is_duplicated Sample.sample [] Sample.happy_envelope
     = (Ok false, [Sample.fingerprint Sample.happy_envelope])
  /\ monitor_worker Sample.sample 15 1 (Sample.wire Sample.happy_envelope)
       Sample.monitor_start
     = (Sample.monitor_start, Raise TypeError)
  /\ softwares (db (fst (monitor_worker Sample.sample 15 1
                           (Sample.wire Sample.happy_envelope) Sample.monitor_start)))
       !! ("EDMC | 5.0.0", 18935%Z) = None
  /\ monitor_worker Sample.sample 15 1 (Sample.wire Sample.happy_envelope)
       Sample.monitor_seen
     = (Sample.monitor_seen, Raise TypeError).
Proof.
  assert (Hz : zlib_decompress Sample.sample
                 (strip_topic (Sample.wire Sample.happy_envelope))
               = Some (encode_utf8 (Sample.dumps Sample.happy_envelope true)))
    by (vm_compute; reflexivity).
  assert (Hj : simplejson_loads Sample.sample
                 (encode_utf8 (Sample.dumps Sample.happy_envelope true))
               = Some Sample.happy_envelope)
    by (vm_compute; reflexivity).
  assert (Hs : getitem Sample.happy_envelope "$schemaRef"
               = Ok (JStr "https://eddn.edcd.io/schemas/commodity/3"))
    by (vm_compute; reflexivity).
  assert (Hh : getitem Sample.happy_envelope "header" = Ok (JObj Sample.happy_header))
    by (vm_compute; reflexivity).
  assert (Hn : getitem (JObj Sample.happy_header) "softwareName" = Ok (JStr "EDMC"))
    by (vm_compute; reflexivity).
  assert (Hrun : forall w : Monitor.world Sample.sample,
             monitor_worker Sample.sample 15 1 (Sample.wire Sample.happy_envelope) w
             = (w, Raise TypeError)).
  { intros w.
    exact (MonitorFacts.monitor_worker_type_error Sample.sample 15 1
             (Sample.wire Sample.happy_envelope)
             (encode_utf8 (Sample.dumps Sample.happy_envelope true))
             Sample.happy_envelope (JStr "https://eddn.edcd.io/schemas/commodity/3")
             (JObj Sample.happy_header) "EDMC" w Hz Hj Hs Hh Hn). }
  split; [exact Hz |]. split; [exact Hj |].
  split; [vm_compute; reflexivity |].
  split; [vm_compute; reflexivity |].
  split; [vm_compute; reflexivity |].
  split; [apply Hrun |].
  split; [rewrite Hrun; reflexivity |].
  apply Hrun.
Qed.

(** C6, as amended.  With [RELAY_DUPLICATE_MAX_MINUTES] at zero the
    duplicate check is skipped.  The Relay never tallies [duplicate],
    whatever the frame, and republishes every frame that inflates and parses
    to an envelope whose header it can mask and that [simplejson.dumps]
    accepts once masked.  The Monitor's worker leaves the [schemas] row named
    [DUPLICATE MESSAGE] and the duplicate cache as they were, whatever the
    frame; and the counting block of lines 210-254 on its own, whatever IDs
    it is entered with, does not ask the cache and counts under the schema
    ID it was given. *)
Theorem duplicate_window_zero_disables_suppression (L : libs) (default_hits : Z) :
  (forall (inp : inputs) (message : bytes) (w : Relay.world L),
     let w' := fst (Relay.relay_worker L 0 inp message w) in
     count (Relay.stats_collector w') "duplicate" = count (Relay.stats_collector w) "duplicate")
  /\ (forall (inp : inputs) (message text : bytes) (json header : JSON)
             (message_json : string) (w : Relay.world L),
        zlib_decompress L message = Some text ->
        simplejson_loads L text = Some json ->
        getitem json "header" = Ok header ->
        header_ok header ->
        simplejson_dumps L (masked (pseudonym L inp w) json) true = Some message_json ->
        exists w',
          Relay.relay_worker L 0 inp message w = (w', Ok tt)
          /\ Relay.sender w' = Relay.sender w ++ [zlib_compress L (encode_utf8 message_json)]
          /\ count (Relay.stats_collector w') "outbound"
             = S (count (Relay.stats_collector w) "outbound")
          /\ count (Relay.stats_collector w') "duplicate"
             = count (Relay.stats_collector w) "duplicate")
  /\ (forall (message : bytes) (w : Monitor.world L),
        let w' := fst (monitor_worker L 0 default_hits message w) in
        duplicate_messages w' = duplicate_messages w
        /\ forall day : Z,
             schemas (db w') !! ("DUPLICATE MESSAGE", day)
             = schemas (db w) !! ("DUPLICATE MESSAGE", day))
  /\ (forall (schema_id software_id : string) (json : JSON) (w : Monitor.world L),
        let w' := fst (count_message L 0 default_hits schema_id software_id json w) in
        snd (count_message L 0 default_hits schema_id software_id json w) = Ok tt
        /\ schemas (db w') = upsert default_hits schema_id (UTC_DATE (db w)) (schemas (db w))
        /\ softwares (db w')
           = upsert default_hits software_id (UTC_DATE (db w)) (softwares (db w))
        /\ duplicate_messages w' = duplicate_messages w
        /\ (schema_id <> "DUPLICATE MESSAGE" ->
            forall day : Z,
              schemas (db w') !! ("DUPLICATE MESSAGE", day)
              = schemas (db w) !! ("DUPLICATE MESSAGE", day))).
Proof.
  split; [| split; [| split]].
  - intros inp message w.
    destruct (Relay.relay_worker L 0 inp message w) as [w' r] eqn:Hrun. cbn [fst].
    apply RelayFacts.relay_worker_outcome in Hrun.
    destruct Hrun as [e _ Hst _ | text json c c' _ _ _ Hon _ _ _ _
                     | text json h t _ _ _ _ _ _ _ Hst _].
    + now rewrite Hst.
    + discriminate.
    + rewrite Hst. now apply RelayFacts.count_tally_ne.
  - intros inp message text json header message_json w Hz Hj Hh Hok Hdumps.
    destruct (RelayFacts.relay_worker_forwards L 0 inp message text json header
                message_json w Hz Hj (or_introl eq_refl) Hh Hok Hdumps)
      as (w' & Hrun & Hst & Hsent).
    exists w'. split; [assumption |]. split; [assumption |].
    rewrite Hst. split; [apply RelayFacts.count_tally_eq |].
    now apply RelayFacts.count_tally_ne.
  - intros message w.
    destruct (MonitorFacts.monitor_worker_raises L 0 default_hits message w) as [e ->].
    cbn [fst]. split; reflexivity.
  - intros schema_id software_id json w.
    rewrite (MonitorFacts.count_message_off L 0 default_hits schema_id software_id json w eq_refl).
    cbn [fst snd db schemas softwares duplicate_messages].
    repeat split.
    intros Hname day. apply MonitorFacts.upsert_other. congruence.
Qed.

Lemma duplicate_window_zero_disables_suppression_witness :
  zlib_decompress Sample.sample (Sample.wire Sample.happy_envelope)
  = Some (encode_utf8 (Sample.dumps Sample.happy_envelope true))
  /\ simplejson_loads Sample.sample (encode_utf8 (Sample.dumps Sample.happy_envelope true))
     = Some Sample.happy_envelope
  /\ getitem Sample.happy_envelope "header" = Ok (JObj Sample.happy_header)
  /\ header_ok (JObj Sample.happy_header)
  /\ is_duplicated Sample.sample [Sample.fingerprint Sample.happy_envelope]
       Sample.happy_envelope
     = (Ok true, [Sample.fingerprint Sample.happy_envelope])
  /\ Relay.duplicate_messages Sample.after_first
     = Some [Sample.fingerprint Sample.happy_envelope]
  /\ exists w',
       Relay.relay_worker Sample.sample 0 Sample.second_upload
         (Sample.wire Sample.happy_envelope) Sample.after_first = (w', Ok tt)
       /\ Relay.sender w' = Relay.sender Sample.after_first
            ++ [zlib_compress Sample.sample
                  (encode_utf8
                     (Sample.dumps
                        (masked (pseudonym Sample.sample Sample.second_upload
                                   Sample.after_first)
                           Sample.happy_envelope) true))]
       /\ count (Relay.stats_collector w') "outbound"
          = S (count (Relay.stats_collector Sample.after_first) "outbound")
       /\ count (Relay.stats_collector w') "duplicate"
          = count (Relay.stats_collector Sample.after_first) "duplicate".
Proof.
  assert (Hz : zlib_decompress Sample.sample (Sample.wire Sample.happy_envelope)
               = Some (encode_utf8 (Sample.dumps Sample.happy_envelope true)))
    by (vm_compute; reflexivity).
  assert (Hj : simplejson_loads Sample.sample
                 (encode_utf8 (Sample.dumps Sample.happy_envelope true))
               = Some Sample.happy_envelope)
    by (vm_compute; reflexivity).
  assert (Hh : getitem Sample.happy_envelope "header" = Ok (JObj Sample.happy_header))
    by (vm_compute; reflexivity).
  assert (Hok : header_ok (JObj Sample.happy_header))
    by (right; exists "Cmdr-Jameson"; vm_compute; reflexivity).
  assert (Hdumps : simplejson_dumps Sample.sample
                     (masked (pseudonym Sample.sample Sample.second_upload
                                Sample.after_first)
                        Sample.happy_envelope) true
                   = Some (Sample.dumps
                             (masked (pseudonym Sample.sample Sample.second_upload
                                        Sample.after_first)
                                Sample.happy_envelope) true))
    by (vm_compute; reflexivity).
  split; [exact Hz |]. split; [exact Hj |]. split; [exact Hh |]. split; [exact Hok |].
  split; [vm_compute; reflexivity |].
  split; [vm_compute; reflexivity |].
  exact (proj1 (proj2 (duplicate_window_zero_disables_suppression Sample.sample 1))
           Sample.second_upload (Sample.wire Sample.happy_envelope)
           (encode_utf8 (Sample.dumps Sample.happy_envelope true))
           Sample.happy_envelope (JObj Sample.happy_header) _ Sample.after_first
           Hz Hj Hh Hok Hdumps).
Defined.

(** C6 as stated fails: with the window at zero, the frame of an envelope
    without header inflates and parses, and the Relay does not republish it:
    the worker ends in [KeyError] and nothing is sent. *)
Lemma relay_headless_frame_is_not_republished :
  let run := relay_worker Sample.sample 0 Sample.first_upload
               (Sample.wire SampleMore.headless_envelope) Sample.start in
  truthy 0 = false
  /\ zlib_decompress Sample.sample (Sample.wire SampleMore.headless_envelope)
     = Some (encode_utf8 (Sample.dumps SampleMore.headless_envelope true))
  /\ simplejson_loads Sample.sample
       (encode_utf8 (Sample.dumps SampleMore.headless_envelope true))
     = Some SampleMore.headless_envelope
  /\ snd run = Raise KeyError
  /\ Relay.sender (fst run) = []
  /\ count (Relay.stats_collector (fst run)) "outbound" = 0%nat.
Proof.
  cbv zeta.
  split; [reflexivity |].
  split; [vm_compute; reflexivity |].
  split; [vm_compute; reflexivity |].
  split; [vm_compute; reflexivity |].
  split; vm_compute; reflexivity.
Qed.

(** * Further properties of the code *)

(** ** Ordered dictionaries *)

Module DashboardFacts.
Import Dashboard.

Section OrderedDict.

Context {K V : Type} `{EqDecision K}.

Lemma od_get_set_eq (k : K) (v : V) (d : list (K * V)) : od_get k (od_set k v d) = Some v.
Proof.
  induction d as [| [k' v'] d IH]; cbn.
  - now rewrite decide_True.
  - destruct (decide (k' = k)) as [-> | Hne]; cbn.
    + now rewrite decide_True.
    + now rewrite decide_False.
Qed.

Lemma od_get_set_ne (k k0 : K) (v : V) (d : list (K * V)) :
  k0 <> k -> od_get k0 (od_set k v d) = od_get k0 d.
Proof.
  intros Hne. induction d as [| [k' v'] d IH]; cbn.
  - now rewrite decide_False by congruence.
  - destruct (decide (k' = k)) as [-> | Hk]; cbn.
    + now rewrite !decide_False by congruence.
    + destruct (decide (k' = k0)); [reflexivity | exact IH].
Qed.

Lemma od_get_None (k : K) (d : list (K * V)) : od_get k d = None <-> k ∉ od_keys d.
Proof.
  induction d as [| [k' v'] d IH]; cbn.
  - split; [intros _; apply not_elem_of_nil | reflexivity].
  - rewrite not_elem_of_cons. destruct (decide (k' = k)) as [-> | Hne].
    + split; [discriminate | intros [Hk _]; contradiction].
    + rewrite IH. split; [intros Hd; split; [congruence | exact Hd] | now intros [_ Hd]].
Qed.

Lemma od_keys_set (k : K) (v : V) (d : list (K * V)) :
  od_keys (od_set k v d) = if decide (k ∈ od_keys d) then od_keys d else od_keys d ++ [k].
Proof.
  induction d as [| [k' v'] d IH]; cbn.
  - rewrite decide_False by apply not_elem_of_nil. reflexivity.
  - destruct (decide (k' = k)) as [-> | Hne]; cbn.
    + rewrite decide_True by apply list_elem_of_here. reflexivity.
    + unfold od_keys in IH. rewrite IH.
      destruct (decide (k ∈ map fst d)) as [Hin | Hout].
      * rewrite decide_True by (now apply list_elem_of_further). reflexivity.
      * rewrite decide_False; [reflexivity |].
        rewrite not_elem_of_cons. split; [congruence | exact Hout].
Qed.

Lemma od_set_fresh (k : K) (v : V) (d : list (K * V)) :
  k ∉ od_keys d -> od_set k v d = d ++ [(k, v)].
Proof.
  induction d as [| [k' v'] d IH]; cbn; intros Hout; [reflexivity |].
  rewrite not_elem_of_cons in Hout. destruct Hout as [Hne Hout].
  rewrite decide_False by congruence. now rewrite IH.
Qed.

Lemma od_of_snoc (items : list (K * V)) (k : K) (v : V) :
  od_of (items ++ [(k, v)]) = od_set k v (od_of items).
Proof. unfold od_of. now rewrite fold_left_app. Qed.

Lemma od_keys_of_subset (items : list (K * V)) (k : K) :
  k ∈ od_keys (od_of items) -> k ∈ map fst items.
Proof.
  induction items as [| [k' v'] items IH] using rev_ind; [easy |].
  rewrite od_of_snoc, od_keys_set, map_app. cbn.
  destruct (decide (k' ∈ od_keys (od_of items))); rewrite ?elem_of_app.
  - intros Hin. left. now apply IH.
  - intros [Hin | Hin]; [left; now apply IH | now right].
Qed.

(* Assignments to pairwise distinct keys leave the items as they came. *)
Lemma od_of_NoDup (items : list (K * V)) : NoDup (map fst items) -> od_of items = items.
Proof.
  induction items as [| [k v] items IH] using rev_ind; [reflexivity |].
  rewrite map_app. cbn. intros Hnd.
  apply NoDup_app in Hnd. destruct Hnd as (Hnd & Hfresh & _).
  rewrite od_of_snoc, IH by assumption.
  apply od_set_fresh. intros Hin. apply (Hfresh k); [exact Hin | apply list_elem_of_here].
Qed.

Lemma first_occurrences_elem (l : list K) (x : K) : x ∈ first_occurrences l <-> x ∈ l.
Proof.
  induction l as [| a l IH]; cbn; [reflexivity |].
  rewrite !elem_of_cons, list_elem_of_filter, IH.
  destruct (decide (x = a)) as [-> | Hne]; [tauto |]. tauto.
Qed.

Lemma first_occurrences_snoc (l : list K) (x : K) :
  first_occurrences (l ++ [x])
  = if decide (x ∈ l) then first_occurrences l else first_occurrences l ++ [x].
Proof.
  induction l as [| a l IH]; cbn.
  - rewrite decide_False by apply not_elem_of_nil. reflexivity.
  - rewrite IH. destruct (decide (x = a)) as [-> | Hne].
    + rewrite (decide_True (P := a ∈ a :: l)) by apply list_elem_of_here.
      destruct (decide (a ∈ l)); [reflexivity |].
      rewrite filter_app. cbn. rewrite decide_False by (intros Hc; now apply Hc).
      now rewrite app_nil_r.
    + destruct (decide (x ∈ l)) as [Hin | Hout].
      * rewrite decide_True by (now apply list_elem_of_further). reflexivity.
      * rewrite decide_False by (rewrite not_elem_of_cons; now split).
        rewrite filter_app. cbn. rewrite decide_True by assumption. reflexivity.
Qed.

Lemma first_occurrences_NoDup (l : list K) : NoDup (first_occurrences l).
Proof.
  induction l as [| a l IH]; cbn; [constructor |].
  constructor.
  - rewrite list_elem_of_filter. intros [Hc _]. now apply Hc.
  - now apply NoDup_filter.
Qed.

Lemma od_keys_of (items : list (K * V)) :
  od_keys (od_of items) = first_occurrences (map fst items).
Proof.
  induction items as [| [k v] items IH] using rev_ind; [reflexivity |].
  rewrite od_of_snoc, od_keys_set, map_app. cbn [map fst].
  rewrite first_occurrences_snoc, IH.
  destruct (decide (k ∈ first_occurrences (map fst items))) as [Hin | Hout];
    rewrite first_occurrences_elem in *.
  - now rewrite decide_True.
  - now rewrite decide_False.
Qed.

End OrderedDict.

(** ** The loops of the endpoints *)

Lemma by_date_snoc (results : list row) (r : row) :
  by_date (results ++ [r])
  = let softwares := by_date results in
    let softwares :=
      if negb (od_mem (date_key r) softwares)
      then od_set (date_key r) [] softwares else softwares in
    match od_get (date_key r) softwares with
    | Some inner => od_set (date_key r) (od_set (name r) (py_str (hits r)) inner) softwares
    | None => softwares
    end.
Proof. unfold by_date. now rewrite fold_left_app. Qed.

Lemma by_date_keys (results : list row) :
  od_keys (by_date results) = first_occurrences (map date_key results).
Proof.
  induction results as [| r results IH] using rev_ind; [reflexivity |].
  rewrite by_date_snoc, map_app. cbn [map]. rewrite first_occurrences_snoc.
  cbv zeta. unfold od_mem.
  destruct (decide (date_key r ∈ od_keys (by_date results))) as [Hin | Hout].
  - rewrite bool_decide_eq_true_2 by assumption. cbn [negb].
    destruct (od_get (date_key r) (by_date results)) as [inner |] eqn:Hget.
    + rewrite od_keys_set, decide_True by assumption.
      rewrite IH in *. rewrite first_occurrences_elem in Hin. now rewrite decide_True.
    + apply od_get_None in Hget. contradiction.
  - rewrite bool_decide_eq_false_2 by assumption. cbn [negb].
    rewrite od_get_set_eq, od_keys_set.
    rewrite decide_True.
    + rewrite od_keys_set, decide_False by assumption.
      rewrite IH in *. rewrite first_occurrences_elem in Hout. now rewrite decide_False.
    + rewrite od_keys_set, decide_False by assumption.
      apply elem_of_app. right. apply list_elem_of_here.
Qed.

Lemma filter_date_absent (results : list row) (d : string) :
  d ∉ map date_key results -> filter (fun r => date_key r = d) results = [].
Proof.
  induction results as [| r results IH]; cbn [map]; intros Hout; [reflexivity |].
  rewrite not_elem_of_cons in Hout. destruct Hout as [Hne Hout].
  rewrite filter_cons_False by congruence. now apply IH.
Qed.

Lemma by_date_get (results : list row) (d : string) :
  od_get d (by_date results)
  = if decide (d ∈ map date_key results)
    then Some (od_of (map entry (filter (fun r => date_key r = d) results)))
    else None.
Proof.
  induction results as [| r results IH] using rev_ind.
  - cbn. rewrite decide_False by apply not_elem_of_nil. reflexivity.
  - rewrite by_date_snoc, map_app, filter_app. cbn [map]. cbv zeta.
    assert (Hmem : od_mem (date_key r) (by_date results)
                   = bool_decide (date_key r ∈ map date_key results)).
    { unfold od_mem. rewrite by_date_keys. apply bool_decide_ext.
      apply first_occurrences_elem. }
    rewrite Hmem.
    destruct (decide (d = date_key r)) as [-> | Hne].
    + rewrite (decide_True (P := date_key r ∈ map date_key results ++ [date_key r]))
        by (apply elem_of_app; right; apply list_elem_of_here).
      rewrite (filter_cons_True (fun r0 => date_key r0 = date_key r)) by reflexivity.
      rewrite filter_nil, map_app. cbn [map]. unfold entry at 2. rewrite od_of_snoc.
      destruct (decide (date_key r ∈ map date_key results)) as [Hin | Hout].
      * rewrite bool_decide_eq_true_2 by assumption. cbn [negb].
        rewrite IH. apply od_get_set_eq.
      * rewrite bool_decide_eq_false_2 by assumption. cbn [negb].
        rewrite od_get_set_eq, od_get_set_eq.
        now rewrite (filter_date_absent results (date_key r) Hout).
    + rewrite (filter_cons_False (fun r0 => date_key r0 = d)) by congruence.
      rewrite filter_nil, app_nil_r.
      assert (Hsame : od_get d
                (match od_get (date_key r)
                         (if negb (bool_decide (date_key r ∈ map date_key results))
                          then od_set (date_key r) [] (by_date results)
                          else by_date results) with
                 | Some inner =>
                     od_set (date_key r) (od_set (name r) (py_str (hits r)) inner)
                       (if negb (bool_decide (date_key r ∈ map date_key results))
                        then od_set (date_key r) [] (by_date results)
                        else by_date results)
                 | None =>
                     if negb (bool_decide (date_key r ∈ map date_key results))
                     then od_set (date_key r) [] (by_date results)
                     else by_date results
                 end) = od_get d (by_date results)).
      { destruct (negb _); destruct (od_get (date_key r) _);
          rewrite ?od_get_set_ne by congruence; reflexivity. }
      rewrite Hsame, IH.
      destruct (decide (d ∈ map date_key results)) as [Hin | Hout].
      * rewrite decide_True by (apply elem_of_app; now left). reflexivity.
      * rewrite decide_False; [reflexivity |].
        rewrite not_elem_of_app. split; [assumption |].
        rewrite list_elem_of_singleton. congruence.
Qed.

Lemma names_of_a_date_NoDup (results : list row) (d : string) :
  NoDup (map (fun r => (date_key r, name r)) results) ->
  NoDup (map fst (map entry (filter (fun r => date_key r = d) results))).
Proof.
  induction results as [| r results IH]; cbn [map]; intros Hnd; [constructor |].
  apply NoDup_cons in Hnd. destruct Hnd as [Hfresh Hnd].
  destruct (decide (date_key r = d)) as [Hd | Hd].
  - rewrite filter_cons_True by assumption. cbn [map fst entry].
    constructor; [| now apply IH].
    intros Hin. apply Hfresh.
    rewrite list_elem_of_fmap in Hin. destruct Hin as ([n h] & Hn & Hin).
    rewrite list_elem_of_fmap in Hin. destruct Hin as (r' & Hr' & Hin).
    rewrite list_elem_of_filter in Hin. destruct Hin as [Hd' Hin].
    rewrite list_elem_of_fmap. exists r'. split; [| assumption].
    unfold entry in Hr'. injection Hr' as -> ->. cbn in Hn. congruence.
  - rewrite filter_cons_False by assumption. now apply IH.
Qed.

Lemma fold_od_set_map {A K0 V0 : Type} `{EqDecision K0} (f : A -> K0 * V0) (l : list A)
    (d : list (K0 * V0)) :
  fold_left (fun d a => od_set (fst (f a)) (snd (f a)) d) l d
  = fold_left (fun d kv => od_set (fst kv) (snd kv) d) (map f l) d.
Proof. revert d. induction l as [| a l IH]; intros d; cbn; [reflexivity | apply IH]. Qed.

End DashboardFacts.

(** X1.  When no two rows of the cursor share date and name (the primary key
    of the tables), [get_softwares] and [get_schemas] return under each date
    that occurs exactly the rows of that date, in cursor order, as name and
    [str(hits)]; a date that does not occur is not a key. *)
Theorem dashboard_groups_rows_by_date (results : list Dashboard.row) (d : string) :
  NoDup (map (fun r => (Dashboard.date_key r, Dashboard.name r)) results) ->
  let expected :=
    if decide (d ∈ map Dashboard.date_key results)
    then Some (map Dashboard.entry
                 (filter (fun r => Dashboard.date_key r = d) results))
    else None in
  Dashboard.od_get d (Dashboard.get_softwares results) = expected
  /\ Dashboard.od_get d (Dashboard.get_schemas results) = expected.
Proof.
  intros Hkey expected. subst expected.
  unfold Dashboard.get_softwares, Dashboard.get_schemas.
  rewrite DashboardFacts.by_date_get.
  destruct (decide (d ∈ map Dashboard.date_key results)); [| split; reflexivity].
  rewrite DashboardFacts.od_of_NoDup
    by (now apply DashboardFacts.names_of_a_date_NoDup).
  split; reflexivity.
Qed.

Lemma dashboard_groups_rows_by_date_witness :
  NoDup (map (fun r => (Dashboard.date_key r, Dashboard.name r)) DashboardSample.rows)
  /\ Dashboard.od_get "2021-11-03" (Dashboard.get_softwares DashboardSample.rows)
     = Some [("EDMC | 5.0.0", "390"); ("EDDiscovery | 15.0", "77")]
  /\ Dashboard.od_get "2021-11-05" (Dashboard.get_schemas DashboardSample.rows) = None.
Proof.
  assert (Hkey : NoDup (map (fun r => (Dashboard.date_key r, Dashboard.name r))
                          DashboardSample.rows)).
  { apply (bool_decide_eq_true_1 _). vm_compute. reflexivity. }
  split; [exact Hkey |].
  split.
  - exact (proj1 (dashboard_groups_rows_by_date DashboardSample.rows "2021-11-03" Hkey)).
  - exact (proj2 (dashboard_groups_rows_by_date DashboardSample.rows "2021-11-05" Hkey)).
Defined.

(** X2.  The dates [get_softwares] and [get_schemas] return are the dates of
    the rows in the order of their first occurrence in the cursor, each
    once, and no date comes with an empty dictionary. *)
Theorem dashboard_dates_in_cursor_order (results : list Dashboard.row) :
  Dashboard.od_keys (Dashboard.get_softwares results)
  = Dashboard.first_occurrences (map Dashboard.date_key results)
  /\ Dashboard.od_keys (Dashboard.get_schemas results)
     = Dashboard.first_occurrences (map Dashboard.date_key results)
  /\ NoDup (Dashboard.od_keys (Dashboard.get_softwares results))
  /\ (forall (d : string) (inner : list (string * string)),
        Dashboard.od_get d (Dashboard.get_softwares results) = Some inner -> inner <> []).
Proof.
  unfold Dashboard.get_softwares, Dashboard.get_schemas.
  rewrite DashboardFacts.by_date_keys.
  split; [reflexivity |]. split; [reflexivity |].
  split; [apply DashboardFacts.first_occurrences_NoDup |].
  intros d inner. rewrite DashboardFacts.by_date_get.
  destruct (decide (d ∈ map Dashboard.date_key results)) as [Hin | Hout]; [| discriminate].
  intros [= <-].
  rewrite list_elem_of_fmap in Hin. destruct Hin as (r & Hd & Hin).
  assert (Hrow : r ∈ filter (fun r0 => Dashboard.date_key r0 = d) results)
    by (rewrite list_elem_of_filter; split; [now symmetry | assumption]).
  destruct (filter (fun r0 => Dashboard.date_key r0 = d) results) as [| r0 l] using rev_ind.
  - now apply not_elem_of_nil in Hrow.
  - rewrite map_app. cbn [map]. unfold Dashboard.entry at 2.
    rewrite DashboardFacts.od_of_snoc.
    destruct (Dashboard.od_of (map Dashboard.entry l)) as [| [k v] rest]; cbn;
      [discriminate |].
    destruct (decide (k = Dashboard.name r0)); discriminate.
Qed.

Lemma dashboard_dates_in_cursor_order_witness :
  Dashboard.od_get "2021-11-04" (Dashboard.get_softwares DashboardSample.rows)
  = Some [("EDMC | 5.0.0", "412"); ("EDDiscovery | 15.0", "64")]
  /\ Dashboard.od_keys (Dashboard.get_softwares DashboardSample.rows)
     = ["2021-11-04"; "2021-11-03"]
  /\ [("EDMC | 5.0.0", "412"); ("EDDiscovery | 15.0", "64")] <> [].
Proof.
  assert (Hget : Dashboard.od_get "2021-11-04" (Dashboard.get_softwares DashboardSample.rows)
                 = Some [("EDMC | 5.0.0", "412"); ("EDDiscovery | 15.0", "64")])
    by (vm_compute; reflexivity).
  split; [exact Hget |].
  split; [vm_compute; reflexivity |].
  exact (proj2 (proj2 (proj2 (dashboard_dates_in_cursor_order DashboardSample.rows)))
           "2021-11-04" _ Hget).
Defined.

(** X3.  The rows of the two [GROUP BY name] queries carry pairwise distinct
    names; [get_total_softwares] and [get_total_schemas] then return one
    item per row, in cursor order: the UTF-8 bytes of the name with
    [str] of the total, respectively the name with the total itself. *)
Theorem dashboard_totals_in_cursor_order (results : list Dashboard.total_row) :
  NoDup (map Dashboard.total_name results) ->
  Dashboard.get_total_softwares results
  = map (fun r => (encode_utf8 (Dashboard.total_name r), Dashboard.py_str (Dashboard.total r)))
      results
  /\ Dashboard.get_total_schemas results
     = map (fun r => (Dashboard.total_name r, Dashboard.total r)) results.
Proof.
  intros Hnames. unfold Dashboard.get_total_softwares, Dashboard.get_total_schemas. split.
  - rewrite (DashboardFacts.fold_od_set_map
               (fun r => (encode_utf8 (Dashboard.total_name r),
                          Dashboard.py_str (Dashboard.total r)))).
    apply DashboardFacts.od_of_NoDup.
    rewrite map_map. cbn [fst].
    rewrite <- (map_map Dashboard.total_name encode_utf8).
    apply NoDup_fmap_2; [| exact Hnames].
    intros s1 s2 Heq. unfold encode_utf8 in Heq.
    rewrite <- (string_of_list_byte_of_string s1), <- (string_of_list_byte_of_string s2).
    now rewrite Heq.
  - rewrite (DashboardFacts.fold_od_set_map
               (fun r => (Dashboard.total_name r, Dashboard.total r))).
    apply DashboardFacts.od_of_NoDup.
    rewrite map_map. exact Hnames.
Qed.

Lemma dashboard_totals_in_cursor_order_witness :
  NoDup (map Dashboard.total_name DashboardSample.totals)
  /\ Dashboard.get_total_softwares DashboardSample.totals
     = [(encode_utf8 "EDMC | 5.0.0", "802"); (encode_utf8 "EDDiscovery | 15.0", "141")]
  /\ Dashboard.get_total_schemas DashboardSample.totals
     = [("EDMC | 5.0.0", 802%Z); ("EDDiscovery | 15.0", 141%Z)].
Proof.
  assert (Hnames : NoDup (map Dashboard.total_name DashboardSample.totals)).
  { apply (bool_decide_eq_true_1 _). vm_compute. reflexivity. }
  split; [exact Hnames |].
  exact (dashboard_totals_in_cursor_order DashboardSample.totals Hnames).
Defined.

(** ** More about one run of [relay_worker] *)

Module RelayMore.
Import Relay RelaySpec.

Section RelayMore.

Variable L : libs.
Variable RELAY_DUPLICATE_MAX_MINUTES : Z.

Abbreviation world := (world L).

(** The nonce timestamp [scramble_uploader] leaves behind. *)
Lemma scramble_uploader_state (inp : inputs) (v : JSON) (w w' : world) (r : result string) :
  scramble_uploader L inp v w = (w', r) ->
  stats_collector w' = stats_collector w
  /\ sender w' = sender w
  /\ duplicate_messages w' = duplicate_messages w
  /\ uploader_nonce w' = nonce_in_use L inp w
  /\ uploader_nonce_timestamp w'
     = (if stale L inp w then time_generate inp else uploader_nonce_timestamp w)
  /\ (r = Raise AttributeError \/ exists u, v = JStr u /\ r = Ok (pseudonym L inp w)).
Proof.
  unfold scramble_uploader, pseudonym, scrambled_text, nonce_in_use, stale.
  unfold bind, gets, lift, ret, generate_uploader_nonce, modify. cbn.
  destruct (PrimFloat.ltb _ _); cbn; destruct v; cbn; intros [= <- <-]; cbn;
    repeat split; eauto.
Qed.

Lemma masked_keeps_fields (d : string) (json : JSON) (k : string) :
  k <> "header" -> getitem (masked d json) k = getitem json k.
Proof.
  intros Hk. unfold masked.
  destruct json as [| | | | | | m]; try reflexivity.
  destruct (m !! "header") as [[| | | | | | h] |]; try reflexivity.
  cbn [getitem]. now rewrite lookup_insert_ne by congruence.
Qed.

Lemma masked_keeps_header_keys (d : string) (json header header' : JSON) (k : string) :
  getitem json "header" = Ok header ->
  getitem (masked d json) "header" = Ok header' ->
  k <> "uploaderID" -> k <> "uploaderIP" ->
  getitem header' k = getitem header k.
Proof.
  intros Hh Hh' Hid Hip. unfold masked in Hh'.
  destruct json as [| | | | | | m]; try discriminate.
  cbn [getitem] in Hh. destruct (m !! "header") as [h |] eqn:Hm; [| discriminate].
  injection Hh as ->.
  destruct header as [| | | | | | hm];
    try (cbn [getitem] in Hh'; rewrite Hm in Hh'; now injection Hh' as <-).
  cbn [getitem] in Hh'. rewrite lookup_insert_eq in Hh'. injection Hh' as <-.
  cbn [getitem]. rewrite lookup_delete_ne by congruence.
  destruct (bool_decide _); [now rewrite lookup_insert_ne by congruence | reflexivity].
Qed.

(* What [forward] can do to the nonce: nothing, or the one regeneration of
   [scramble_uploader]. *)
Lemma forward_nonce (inp : inputs) (json : JSON) (s w' : world) (r : result unit) :
  forward L inp json s = (w', r) ->
  duplicate_messages w' = duplicate_messages s
  /\ (RelayTerms.nonce_kept L s w' \/ RelayTerms.nonce_regenerated L inp json s w').
Proof.
  unfold forward.
  assert (Hquiet : forall s0 : world,
             uploader_nonce s0 = uploader_nonce s ->
             uploader_nonce_timestamp s0 = uploader_nonce_timestamp s ->
             duplicate_messages s0 = duplicate_messages s ->
             duplicate_messages s0 = duplicate_messages s
             /\ (RelayTerms.nonce_kept L s s0
                 \/ RelayTerms.nonce_regenerated L inp json s s0))
    by (intros s0 Hn Ht Hd; split; [exact Hd | left; split; assumption]).
  assert (Hpublish : forall (j : JSON) (s1 : world),
             publish L j s1 = (w', r) ->
             duplicate_messages w' = duplicate_messages s1
             /\ uploader_nonce w' = uploader_nonce s1
             /\ uploader_nonce_timestamp w' = uploader_nonce_timestamp s1)
    by (intros j s1 Hp; apply RelayFacts.publish_outcome in Hp; tauto).
  assert (Hend : forall j : JSON,
             publish L j s = (w', r) ->
             duplicate_messages w' = duplicate_messages s
             /\ (RelayTerms.nonce_kept L s w'
                 \/ RelayTerms.nonce_regenerated L inp json s w')).
  { intros j Hp. apply Hpublish in Hp. destruct Hp as (Hd & Hn & Ht).
    now apply Hquiet. }
  destruct json as [| | | | | | m];
    try (RelayFacts.run; intros [= <- <-]; now apply Hquiet).
  destruct (m !! "header") as [h |] eqn:Hm;
    [| RelayFacts.run; intros [= <- <-]; now apply Hquiet].
  destruct h as [| | | | s0 | l | hm];
    try (RelayFacts.run; intros [= <- <-]; now apply Hquiet).
  - destruct (is_substring "uploaderID" s0) eqn:Hid;
      [RelayFacts.run; intros [= <- <-]; now apply Hquiet |].
    destruct (is_substring "uploaderIP" s0) eqn:Hip;
      RelayFacts.run; first [intros [= <- <-]; now apply Hquiet | apply Hend].
  - destruct (existsb (is_str "uploaderID") l) eqn:Hid;
      [RelayFacts.run; intros [= <- <-]; now apply Hquiet |].
    destruct (existsb (is_str "uploaderIP") l) eqn:Hip;
      RelayFacts.run; first [intros [= <- <-]; now apply Hquiet | apply Hend].
  - clear Hquiet. destruct (hm !! "uploaderID") as [u |] eqn:Hid.
    + assert (Hmoved : forall s1 : world,
                uploader_nonce s1 = nonce_in_use L inp s ->
                uploader_nonce_timestamp s1
                = (if stale L inp s then time_generate inp else uploader_nonce_timestamp s) ->
                RelayTerms.nonce_kept L s s1
                \/ RelayTerms.nonce_regenerated L inp (JObj m) s s1).
      { intros s1 Hn Ht. unfold nonce_in_use in Hn. destruct (stale L inp s) eqn:Hstale.
        - right. exists hm, u. cbn [getitem]. rewrite Hm. repeat split; assumption.
        - left. split; assumption. }
      RelayFacts.run.
      destruct (scramble_uploader L inp u s) as [s1 rs] eqn:Hs.
      apply scramble_uploader_state in Hs.
      destruct Hs as (Hst & Hse & Hdm & Hn & Ht & Hr).
      destruct rs as [d | e];
        [| intros [= <- <-]; split; [assumption | now apply Hmoved]].
      destruct (hm !! "uploaderIP") as [ip |] eqn:Hip;
        RelayFacts.run; intros Hp; apply Hpublish in Hp;
        destruct Hp as (Hd' & Hn' & Ht');
        (split; [congruence | apply Hmoved; congruence]).
    + destruct (hm !! "uploaderIP") as [ip |] eqn:Hip;
        RelayFacts.run; apply Hend.
Qed.

Lemma relay_worker_nonce (inp : inputs) (message : bytes) (w w' : world) (r : result unit) :
  relay_worker L RELAY_DUPLICATE_MAX_MINUTES inp message w = (w', r) ->
  RelayTerms.nonce_kept L w w'
  \/ exists text json,
       zlib_decompress L message = Some text
       /\ simplejson_loads L text = Some json
       /\ not_duplicate L RELAY_DUPLICATE_MAX_MINUTES w json
       /\ RelayTerms.nonce_regenerated L inp json w w'.
Proof.
  rewrite RelayFacts.relay_worker_unfold.
  destruct (zlib_decompress L message) as [text |] eqn:Hz;
    [| intros [= <- <-]; left; split; reflexivity].
  destruct (simplejson_loads L text) as [json |] eqn:Hj;
    [| intros [= <- <-]; left; split; reflexivity].
  destruct (truthy RELAY_DUPLICATE_MAX_MINUTES) eqn:Hmax.
  - destruct (check_duplicated L json w) as [s rd] eqn:Hc.
    apply RelayFacts.check_duplicated_frame in Hc.
    destruct Hc as (Hst & Hse & Hn & Ht & Hd).
    destruct rd as [[|] | e].
    + unfold tally, modify. intros [= <- <-]. left. split; assumption.
    + destruct Hd as (c & c' & Hw & Hdup & _).
      intros Hf. apply forward_nonce in Hf. destruct Hf as [_ [[Hn' Ht'] | Hre]].
      * left. split; congruence.
      * right. exists text, json.
        split; [first [reflexivity | assumption] |].
        split; [first [reflexivity | assumption] |]. split; [right; eauto |].
        destruct Hre as (hm & u & Hh & Hu & Hstale & Hn' & Ht').
        exists hm, u. repeat split; try assumption.
        unfold stale in *. now rewrite <- Ht.
    + intros [= <- <-]. left. split; assumption.
  - intros Hf. apply forward_nonce in Hf. destruct Hf as [_ [Hkept | Hre]].
    + now left.
    + right. exists text, json.
      split; [first [reflexivity | assumption] |].
      split; [first [reflexivity | assumption] |]. split; [now left | assumption].
Qed.

Lemma reachable_sender (inp0 : inputs) (dm : option (DuplicateMessages L)) (s : loop L) :
  reachable L RELAY_DUPLICATE_MAX_MINUTES inp0 dm s ->
  length (sender (now s)) = count (stats_collector (now s)) "outbound".
Proof.
  induction 1 as [| s s' Hreach IH Hstep]; [reflexivity |].
  destruct Hstep as [s frame | s inp before after frame Hsp]; cbn [now spawned].
  - unfold tally, modify. cbn [fst stats_collector sender].
    now rewrite RelayFacts.count_tally_ne by done.
  - destruct (relay_worker L RELAY_DUPLICATE_MAX_MINUTES inp frame (now s)) as [w' r] eqn:Hrun.
    apply RelayFacts.relay_worker_outcome in Hrun. cbn [fst].
    destruct Hrun as [e _ Hst Hse | text json c c' _ _ _ _ _ _ Hst Hse
                     | text json h t _ _ _ _ _ _ _ Hst Hse]; rewrite Hst, Hse.
    + exact IH.
    + now rewrite RelayFacts.count_tally_ne by done.
    + rewrite RelayFacts.count_tally_eq, length_app. cbn [length]. lia.
Qed.

Lemma step_sender (s s' : loop L) :
  step L RELAY_DUPLICATE_MAX_MINUTES s s' ->
  sender (now s) `prefix_of` sender (now s').
Proof.
  intros [s0 frame | s0 inp before after frame Hsp]; cbn [now spawned].
  - unfold tally, modify. cbn [fst sender]. reflexivity.
  - destruct (relay_worker L RELAY_DUPLICATE_MAX_MINUTES inp frame (now s0)) as [w' r] eqn:Hrun.
    apply RelayFacts.relay_worker_outcome in Hrun. cbn [fst].
    destruct Hrun as [e _ _ Hse | text json c c' _ _ _ _ _ _ _ Hse
                     | text json h t _ _ _ _ _ _ _ _ Hse]; rewrite Hse;
      [reflexivity | reflexivity | now eexists].
Qed.

Lemma reachable_nonce (inp0 : inputs) (dm : option (DuplicateMessages L)) (s : loop L) :
  reachable L RELAY_DUPLICATE_MAX_MINUTES inp0 dm s ->
  exists random : N, uploader_nonce (now s) = Some (uuid_str (uuid4_int random)).
Proof.
  induction 1 as [| s s' Hreach IH Hstep]; [now exists (urandom16 inp0) |].
  destruct IH as [random IH].
  destruct Hstep as [s frame | s inp before after frame Hsp]; cbn [now spawned].
  - exists random. exact IH.
  - destruct (relay_worker L RELAY_DUPLICATE_MAX_MINUTES inp frame (now s)) as [w' r] eqn:Hrun.
    apply relay_worker_nonce in Hrun. cbn [fst].
    destruct Hrun as [[Hn _] | (text & json & _ & _ & _ & hm & u & _ & _ & _ & Hn & _)].
    + exists random. congruence.
    + now exists (urandom16 inp).
Qed.

End RelayMore.

(** X4.  A frame the Relay publishes carries the received envelope with its
    header masked and nothing else touched: every field of the envelope
    other than [header], and every field of the header other than
    [uploaderID] and [uploaderIP], reads as it did on arrival. *)
Theorem relay_passes_rest_through (L : libs) (RELAY_DUPLICATE_MAX_MINUTES : Z) (inp : inputs)
    (message out : bytes) (w w' : world L) (r : result unit) :
  relay_worker L RELAY_DUPLICATE_MAX_MINUTES inp message w = (w', r) ->
  sender w' = sender w ++ [out] ->
  exists text json json' header header' message_json,
    zlib_decompress L message = Some text
    /\ simplejson_loads L text = Some json
    /\ simplejson_dumps L json' true = Some message_json
    /\ out = zlib_compress L (encode_utf8 message_json)
    /\ getitem json "header" = Ok header
    /\ getitem json' "header" = Ok header'
    /\ (forall k, k <> "header" -> getitem json' k = getitem json k)
    /\ (forall k, k <> "uploaderID" -> k <> "uploaderIP" ->
                  getitem header' k = getitem header k).
Proof.
  intros Hrun Hsent. apply RelayFacts.relay_worker_outcome in Hrun.
  destruct Hrun as [e _ _ Hse | text json c c' _ _ _ _ _ _ _ Hse
                   | text json h t _ Hz Hj _ Hh Hok Hdumps _ Hse].
  - rewrite Hse in Hsent. apply (f_equal length) in Hsent.
    rewrite length_app in Hsent. cbn in Hsent. lia.
  - rewrite Hse in Hsent. apply (f_equal length) in Hsent.
    rewrite length_app in Hsent. cbn in Hsent. lia.
  - rewrite Hse in Hsent. apply app_inv_head in Hsent. injection Hsent as <-.
    destruct (RelayFacts.masked_header (pseudonym L inp w) json h Hh Hok)
      as (h' & Hh' & _).
    exists text, json, (masked (pseudonym L inp w) json), h, h', t.
    repeat split; try assumption.
    + intros k Hk. now apply masked_keeps_fields.
    + intros k Hid Hip.
      now apply (masked_keeps_header_keys (pseudonym L inp w) json h h' k).
Qed.

Lemma relay_passes_rest_through_witness :
  sender Sample.after_first = sender Sample.start ++ [Sample.first_frame]
  /\ exists text json json' header header' message_json,
       zlib_decompress Sample.sample (Sample.wire Sample.happy_envelope) = Some text
       /\ simplejson_loads Sample.sample text = Some json
       /\ simplejson_dumps Sample.sample json' true = Some message_json
       /\ Sample.first_frame = zlib_compress Sample.sample (encode_utf8 message_json)
       /\ getitem json "header" = Ok header
       /\ getitem json' "header" = Ok header'
       /\ (forall k, k <> "header" -> getitem json' k = getitem json k)
       /\ (forall k, k <> "uploaderID" -> k <> "uploaderIP" ->
                     getitem header' k = getitem header k).
Proof.
  assert (Hrun : relay_worker Sample.sample 15 Sample.first_upload
                   (Sample.wire Sample.happy_envelope) Sample.start
                 = (Sample.after_first, Ok tt)).
  { unfold Sample.after_first.
    assert (Hsnd : snd (relay_worker Sample.sample 15 Sample.first_upload
                          (Sample.wire Sample.happy_envelope) Sample.start) = Ok tt)
      by (vm_compute; reflexivity).
    rewrite <- Hsnd. apply surjective_pairing. }
  assert (Hsent : sender Sample.after_first = sender Sample.start ++ [Sample.first_frame])
    by (vm_compute; reflexivity).
  split; [exact Hsent |].
  exact (relay_passes_rest_through Sample.sample 15 Sample.first_upload
           (Sample.wire Sample.happy_envelope) Sample.first_frame
           Sample.start Sample.after_first (Ok tt) Hrun Hsent).
Defined.

(** X5.  An envelope that the duplicate check lets through but whose
    [json['header']] cannot be read (no such key, or the document is no
    object) makes the worker raise that very error: nothing is sent, no
    counter moves, and the nonce is left alone. *)
Theorem relay_drops_envelope_without_header (L : libs) (RELAY_DUPLICATE_MAX_MINUTES : Z)
    (inp : inputs) (message text : bytes) (json : JSON) (e : exn) (w : world L) :
  zlib_decompress L message = Some text ->
  simplejson_loads L text = Some json ->
  not_duplicate L RELAY_DUPLICATE_MAX_MINUTES w json ->
  getitem json "header" = Raise e ->
  let w' := fst (relay_worker L RELAY_DUPLICATE_MAX_MINUTES inp message w) in
  snd (relay_worker L RELAY_DUPLICATE_MAX_MINUTES inp message w) = Raise e
  /\ sender w' = sender w
  /\ stats_collector w' = stats_collector w
  /\ uploader_nonce w' = uploader_nonce w
  /\ uploader_nonce_timestamp w' = uploader_nonce_timestamp w.
Proof.
  intros Hz Hj Hnd Hh w'. subst w'.
  rewrite RelayFacts.relay_worker_unfold, Hz, Hj.
  assert (Hforward : forall s : world L, forward L inp json s = (s, Raise e))
    by (intros s; unfold forward, bind, lift; now rewrite Hh).
  destruct (truthy RELAY_DUPLICATE_MAX_MINUTES) eqn:Hmax.
  - destruct Hnd as [Hoff | (c & c' & Hc & Hd)]; [congruence |].
    unfold check_duplicated. rewrite Hc, Hd, Hforward. cbn. repeat split.
  - rewrite Hforward. cbn. repeat split.
Qed.

Lemma relay_drops_envelope_without_header_witness :
  zlib_decompress Sample.sample (Sample.wire SampleMore.headless_envelope)
  = Some (encode_utf8 (Sample.dumps SampleMore.headless_envelope true))
  /\ getitem SampleMore.headless_envelope "header" = Raise KeyError
  /\ let w' := fst (relay_worker Sample.sample 15 Sample.first_upload
                      (Sample.wire SampleMore.headless_envelope) Sample.start) in
     snd (relay_worker Sample.sample 15 Sample.first_upload
            (Sample.wire SampleMore.headless_envelope) Sample.start) = Raise KeyError
     /\ sender w' = sender Sample.start
     /\ stats_collector w' = stats_collector Sample.start
     /\ uploader_nonce w' = uploader_nonce Sample.start
     /\ uploader_nonce_timestamp w' = uploader_nonce_timestamp Sample.start.
Proof.
  split; [vm_compute; reflexivity |].
  split; [vm_compute; reflexivity |].
  apply (relay_drops_envelope_without_header Sample.sample 15 Sample.first_upload
           (Sample.wire SampleMore.headless_envelope)
           (encode_utf8 (Sample.dumps SampleMore.headless_envelope true))
           SampleMore.headless_envelope KeyError Sample.start).
  - vm_compute; reflexivity.
  - vm_compute; reflexivity.
  - right. exists [], [Sample.fingerprint SampleMore.headless_envelope].
    split; vm_compute; reflexivity.
  - vm_compute; reflexivity.
Defined.

(** X6.  An envelope whose header is a dict with an [uploaderID] that is not
    a string is dropped with [AttributeError]: nothing is sent and no counter
    moves.  The nonce check has run by then, so a nonce older than twelve
    hours is regenerated all the same. *)
Theorem relay_drops_non_string_uploader (L : libs) (RELAY_DUPLICATE_MAX_MINUTES : Z)
    (inp : inputs) (message text : bytes) (m hm : gmap string JSON) (u : JSON)
    (w : world L) :
  zlib_decompress L message = Some text ->
  simplejson_loads L text = Some (JObj m) ->
  not_duplicate L RELAY_DUPLICATE_MAX_MINUTES w (JObj m) ->
  m !! "header" = Some (JObj hm) ->
  hm !! "uploaderID" = Some u ->
  (forall s : string, u <> JStr s) ->
  let w' := fst (relay_worker L RELAY_DUPLICATE_MAX_MINUTES inp message w) in
  snd (relay_worker L RELAY_DUPLICATE_MAX_MINUTES inp message w) = Raise AttributeError
  /\ sender w' = sender w
  /\ stats_collector w' = stats_collector w
  /\ uploader_nonce w' = nonce_in_use L inp w
  /\ uploader_nonce_timestamp w'
     = (if stale L inp w then time_generate inp else uploader_nonce_timestamp w).
Proof.
  intros Hz Hj Hnd Hm Hid Hu w'. subst w'.
  rewrite RelayFacts.relay_worker_unfold, Hz, Hj.
  assert (Hforward : forall s : world L,
             uploader_nonce s = uploader_nonce w ->
             uploader_nonce_timestamp s = uploader_nonce_timestamp w ->
             sender s = sender w ->
             stats_collector s = stats_collector w ->
             snd (forward L inp (JObj m) s) = Raise AttributeError
             /\ sender (fst (forward L inp (JObj m) s)) = sender w
             /\ stats_collector (fst (forward L inp (JObj m) s)) = stats_collector w
             /\ uploader_nonce (fst (forward L inp (JObj m) s)) = nonce_in_use L inp w
             /\ uploader_nonce_timestamp (fst (forward L inp (JObj m) s))
                = (if stale L inp w then time_generate inp
                   else uploader_nonce_timestamp w)).
  { intros s Hn Ht Hse Hst. unfold forward. RelayFacts.run.
    destruct (scramble_uploader L inp u s) as [s1 rs] eqn:Hs.
    apply scramble_uploader_state in Hs.
    destruct Hs as (Hst1 & Hse1 & _ & Hn1 & Ht1 & Hr).
    destruct Hr as [-> | (s0 & -> & _)]; [| now destruct (Hu s0)].
    cbn [fst snd]. unfold nonce_in_use, stale in *. rewrite Hn, Ht in *.
    repeat split; congruence. }
  destruct (truthy RELAY_DUPLICATE_MAX_MINUTES) eqn:Hmax.
  - destruct Hnd as [Hoff | (c & c' & Hc & Hd)]; [congruence |].
    unfold check_duplicated. rewrite Hc, Hd. now apply Hforward.
  - now apply Hforward.
Qed.

Lemma relay_drops_non_string_uploader_witness :
  zlib_decompress Sample.sample (Sample.wire SampleMore.numeric_envelope)
  = Some (encode_utf8 (Sample.dumps SampleMore.numeric_envelope true))
  /\ SampleMore.numeric_header !! "uploaderID" = Some (JInt 4711)
  /\ stale Sample.sample SampleMore.late_upload Sample.start = true
  /\ let w' := fst (relay_worker Sample.sample 15 SampleMore.late_upload
                      (Sample.wire SampleMore.numeric_envelope) Sample.start) in
     snd (relay_worker Sample.sample 15 SampleMore.late_upload
            (Sample.wire SampleMore.numeric_envelope) Sample.start) = Raise AttributeError
     /\ sender w' = sender Sample.start
     /\ stats_collector w' = stats_collector Sample.start
     /\ uploader_nonce w' = nonce_in_use Sample.sample SampleMore.late_upload Sample.start
     /\ uploader_nonce_timestamp w'
        = (if stale Sample.sample SampleMore.late_upload Sample.start
           then time_generate SampleMore.late_upload
           else uploader_nonce_timestamp Sample.start).
Proof.
  split; [vm_compute; reflexivity |].
  split; [vm_compute; reflexivity |].
  split; [vm_compute; reflexivity |].
  apply (relay_drops_non_string_uploader Sample.sample 15 SampleMore.late_upload
           (Sample.wire SampleMore.numeric_envelope)
           (encode_utf8 (Sample.dumps SampleMore.numeric_envelope true))
           SampleMore.numeric_fields SampleMore.numeric_header (JInt 4711) Sample.start).
  - vm_compute; reflexivity.
  - vm_compute; reflexivity.
  - right. exists [], [Sample.fingerprint SampleMore.numeric_envelope].
    split; vm_compute; reflexivity.
  - vm_compute; reflexivity.
  - vm_compute; reflexivity.
  - discriminate.
Defined.

(** X7.  [scramble_uploader] regenerates the nonce exactly when the
    difference of the two clock readings, rounded to a double as line 75
    computes it, exceeds 43200: then the nonce is replaced and stamped with
    the time read in [generate_uploader_nonce]; otherwise nonce and stamp
    are kept.  A rounded difference of exactly 43200 keeps the nonce, also
    where the stamp lies more than twelve hours before the reading.  None of
    this depends on what the uploader is. *)
Theorem scramble_regenerates_when_older (L : libs) (inp : inputs) (uploader : JSON)
    (w : world L) :
  let w' := fst (scramble_uploader L inp uploader w) in
  ((REGENERATE_UPLOADER_NONCE_INTERVAL
    <? time_scramble inp - uploader_nonce_timestamp w)%float = true ->
   uploader_nonce w' = Some (uuid_str (uuid4_int (urandom16 inp)))
   /\ uploader_nonce_timestamp w' = time_generate inp)
  /\ ((REGENERATE_UPLOADER_NONCE_INTERVAL
       <? time_scramble inp - uploader_nonce_timestamp w)%float = false ->
      uploader_nonce w' = uploader_nonce w
      /\ uploader_nonce_timestamp w' = uploader_nonce_timestamp w).
Proof.
  intros w'. subst w'.
  destruct (scramble_uploader L inp uploader w) as [w' r] eqn:Hs.
  apply scramble_uploader_state in Hs. destruct Hs as (_ & _ & _ & Hn & Ht & _).
  cbn [fst]. rewrite Hn, Ht. unfold nonce_in_use, stale.
  split; intros ->; split; reflexivity.
Qed.

Lemma scramble_regenerates_when_older_witness :
  (REGENERATE_UPLOADER_NONCE_INTERVAL
   <? time_scramble SampleMore.at_twelve_hours
      - uploader_nonce_timestamp Sample.start)%float = false
  /\ (REGENERATE_UPLOADER_NONCE_INTERVAL
      <? time_scramble SampleMore.past_twelve_hours
         - uploader_nonce_timestamp Sample.start)%float = true
  /\ uploader_nonce (fst (scramble_uploader Sample.sample SampleMore.at_twelve_hours
                            (JStr "Cmdr-Jameson") Sample.start))
     = uploader_nonce Sample.start
  /\ uploader_nonce_timestamp
       (fst (scramble_uploader Sample.sample SampleMore.past_twelve_hours
               (JStr "Cmdr-Jameson") Sample.start))
     = time_generate SampleMore.past_twelve_hours
  /\ (uploader_nonce_timestamp SampleMore.stamped_early
      <? time_scramble SampleMore.just_past_twelve_hours
         - REGENERATE_UPLOADER_NONCE_INTERVAL)%float = true
  /\ (time_scramble SampleMore.just_past_twelve_hours
      - uploader_nonce_timestamp SampleMore.stamped_early)%float
     = REGENERATE_UPLOADER_NONCE_INTERVAL
  /\ uploader_nonce (fst (scramble_uploader Sample.sample SampleMore.just_past_twelve_hours
                            (JStr "Cmdr-Jameson") SampleMore.stamped_early))
     = uploader_nonce SampleMore.stamped_early.
Proof.
  assert (Hearly : (REGENERATE_UPLOADER_NONCE_INTERVAL
                    <? time_scramble SampleMore.at_twelve_hours
                       - uploader_nonce_timestamp Sample.start)%float = false)
    by (vm_compute; reflexivity).
  assert (Hlate : (REGENERATE_UPLOADER_NONCE_INTERVAL
                   <? time_scramble SampleMore.past_twelve_hours
                      - uploader_nonce_timestamp Sample.start)%float = true)
    by (vm_compute; reflexivity).
  assert (Hrounded : (REGENERATE_UPLOADER_NONCE_INTERVAL
                      <? time_scramble SampleMore.just_past_twelve_hours
                         - uploader_nonce_timestamp SampleMore.stamped_early)%float = false)
    by (vm_compute; reflexivity).
  split; [exact Hearly |]. split; [exact Hlate |].
  split; [exact (proj1 (proj2 (scramble_regenerates_when_older Sample.sample
                                 SampleMore.at_twelve_hours (JStr "Cmdr-Jameson")
                                 Sample.start) Hearly)) |].
  split; [exact (proj2 (proj1 (scramble_regenerates_when_older Sample.sample
                                 SampleMore.past_twelve_hours (JStr "Cmdr-Jameson")
                                 Sample.start) Hlate)) |].
  split; [vm_compute; reflexivity |].
  split; [vm_compute; reflexivity |].
  exact (proj1 (proj2 (scramble_regenerates_when_older Sample.sample
                         SampleMore.just_past_twelve_hours (JStr "Cmdr-Jameson")
                         SampleMore.stamped_early) Hrounded)).
Defined.

(** X8.  The rotation is lazy.  One run of the worker leaves the nonce and
    its timestamp as they were unless the frame parses, passes the duplicate
    check and has a dict header holding an [uploaderID] while the nonce is
    stale.  In particular an envelope without [uploaderID] never rotates
    the nonce, however old it is. *)
Theorem relay_nonce_changes_only_on_use (L : libs) (RELAY_DUPLICATE_MAX_MINUTES : Z)
    (inp : inputs) (message : bytes) (w w' : world L) (r : result unit) :
  relay_worker L RELAY_DUPLICATE_MAX_MINUTES inp message w = (w', r) ->
  (RelayTerms.nonce_kept L w w'
   \/ exists text json,
        zlib_decompress L message = Some text
        /\ simplejson_loads L text = Some json
        /\ not_duplicate L RELAY_DUPLICATE_MAX_MINUTES w json
        /\ RelayTerms.nonce_regenerated L inp json w w')
  /\ (forall (text : bytes) (json : JSON) (hm : gmap string JSON),
        zlib_decompress L message = Some text ->
        simplejson_loads L text = Some json ->
        getitem json "header" = Ok (JObj hm) ->
        hm !! "uploaderID" = None ->
        RelayTerms.nonce_kept L w w').
Proof.
  intros Hrun. apply relay_worker_nonce in Hrun. split; [exact Hrun |].
  intros text json hm Hz Hj Hh Hid.
  destruct Hrun as [Hkept | (text' & json' & Hz' & Hj' & _ & hm' & u & Hh' & Hid' & _)];
    [exact Hkept |].
  rewrite Hz in Hz'. injection Hz' as <-. rewrite Hj in Hj'. injection Hj' as <-.
  rewrite Hh in Hh'. injection Hh' as <-. congruence.
Qed.

Lemma relay_nonce_changes_only_on_use_witness :
  stale Sample.sample SampleMore.late_upload Sample.start = true
  /\ SampleMore.anonymous_header !! "uploaderID" = None
  /\ RelayTerms.nonce_kept Sample.sample Sample.start
       (fst (relay_worker Sample.sample 15 SampleMore.late_upload
               (Sample.wire SampleMore.anonymous_envelope) Sample.start)).
Proof.
  split; [vm_compute; reflexivity |].
  split; [vm_compute; reflexivity |].
  apply (proj2 (relay_nonce_changes_only_on_use Sample.sample 15 SampleMore.late_upload
                  (Sample.wire SampleMore.anonymous_envelope) Sample.start
                  (fst (relay_worker Sample.sample 15 SampleMore.late_upload
                          (Sample.wire SampleMore.anonymous_envelope) Sample.start))
                  (snd (relay_worker Sample.sample 15 SampleMore.late_upload
                          (Sample.wire SampleMore.anonymous_envelope) Sample.start))
                  (surjective_pairing _))
           (encode_utf8 (Sample.dumps SampleMore.anonymous_envelope true))
           SampleMore.anonymous_envelope SampleMore.anonymous_header).
  - vm_compute; reflexivity.
  - vm_compute; reflexivity.
  - vm_compute; reflexivity.
  - vm_compute; reflexivity.
Defined.

(** X9.  In every state the receive loop can reach, the [outbound] counter
    equals the number of frames handed to the public socket, and a step of
    the loop only ever appends to what was sent. *)
Theorem relay_outbound_counts_sent_frames (L : libs) (RELAY_DUPLICATE_MAX_MINUTES : Z)
    (inp0 : inputs) (dm : option (DuplicateMessages L)) (s : loop L) :
  reachable L RELAY_DUPLICATE_MAX_MINUTES inp0 dm s ->
  length (sender (now s)) = count (stats_collector (now s)) "outbound"
  /\ (forall s', step L RELAY_DUPLICATE_MAX_MINUTES s s' ->
                 sender (now s) `prefix_of` sender (now s')).
Proof.
  intros Hreach. split.
  - now apply (reachable_sender L RELAY_DUPLICATE_MAX_MINUTES inp0 dm).
  - intros s'. apply step_sender.
Qed.

Lemma relay_outbound_counts_sent_frames_witness :
  reachable Sample.sample 15 Sample.boot (Some []) Sample.loop_handled
  /\ length (sender (now Sample.loop_handled))
     = count (stats_collector (now Sample.loop_handled)) "outbound".
Proof.
  assert (Hreach : reachable Sample.sample 15 Sample.boot (Some []) Sample.loop_handled).
  { apply (reach_step _ _ _ _ Sample.loop_received).
    - apply (reach_step _ _ _ _ Sample.loop_start).
      + apply reach_start.
      + apply step_recv.
    - apply (step_worker _ _ Sample.loop_received Sample.first_upload [] []).
      reflexivity. }
  split; [exact Hreach |].
  exact (proj1 (relay_outbound_counts_sent_frames Sample.sample 15 Sample.boot (Some [])
                  Sample.loop_handled Hreach)).
Defined.

(** X10.  In every state the receive loop can reach the nonce is set, and
    it is the text of a version-4 UUID: [scramble_uploader] never hashes
    with the [None] the constructor starts from. *)
Theorem relay_nonce_is_always_a_uuid (L : libs) (RELAY_DUPLICATE_MAX_MINUTES : Z)
    (inp0 : inputs) (dm : option (DuplicateMessages L)) (s : loop L) :
  reachable L RELAY_DUPLICATE_MAX_MINUTES inp0 dm s ->
  exists random : N, uploader_nonce (now s) = Some (uuid_str (uuid4_int random)).
Proof. apply reachable_nonce. Qed.

Lemma relay_nonce_is_always_a_uuid_witness :
  reachable Sample.sample 15 Sample.boot (Some []) Sample.loop_handled
  /\ exists random : N,
       uploader_nonce (now Sample.loop_handled) = Some (uuid_str (uuid4_int random)).
Proof.
  assert (Hreach : reachable Sample.sample 15 Sample.boot (Some []) Sample.loop_handled).
  { apply (reach_step _ _ _ _ Sample.loop_received).
    - apply (reach_step _ _ _ _ Sample.loop_start).
      + apply reach_start.
      + apply step_recv.
    - apply (step_worker _ _ Sample.loop_received Sample.first_upload [] []).
      reflexivity. }
  split; [exact Hreach |].
  exact (relay_nonce_is_always_a_uuid Sample.sample 15 Sample.boot (Some [])
           Sample.loop_handled Hreach).
Defined.

(** X11.  When the setting is true at run time but the module global
    [duplicate_messages] was never bound (the setting was false when the
    module was imported), every frame that inflates and parses makes the
    worker raise [NameError] with the state untouched: nothing is sent and
    no counter moves. *)
Theorem relay_unbound_cache_raises_name_error (L : libs) (RELAY_DUPLICATE_MAX_MINUTES : Z)
    (inp : inputs) (message text : bytes) (json : JSON) (w : world L) :
  truthy RELAY_DUPLICATE_MAX_MINUTES = true ->
  duplicate_messages w = None ->
  zlib_decompress L message = Some text ->
  simplejson_loads L text = Some json ->
  relay_worker L RELAY_DUPLICATE_MAX_MINUTES inp message w = (w, Raise NameError).
Proof.
  intros Hon Hc Hz Hj.
  rewrite RelayFacts.relay_worker_unfold, Hz, Hj, Hon.
  unfold check_duplicated. now rewrite Hc.
Qed.

Lemma relay_unbound_cache_raises_name_error_witness :
  truthy 15 = true
  /\ duplicate_messages SampleMore.start_without_cache = None
  /\ zlib_decompress Sample.sample (Sample.wire Sample.happy_envelope)
     = Some (encode_utf8 (Sample.dumps Sample.happy_envelope true))
  /\ snd (relay_worker Sample.sample 15 Sample.first_upload
            (Sample.wire Sample.happy_envelope) SampleMore.start_without_cache)
     = Raise NameError.
Proof.
  assert (Hz : zlib_decompress Sample.sample (Sample.wire Sample.happy_envelope)
               = Some (encode_utf8 (Sample.dumps Sample.happy_envelope true)))
    by (vm_compute; reflexivity).
  assert (Hj : simplejson_loads Sample.sample
                 (encode_utf8 (Sample.dumps Sample.happy_envelope true))
               = Some Sample.happy_envelope)
    by (vm_compute; reflexivity).
  split; [reflexivity |]. split; [reflexivity |]. split; [exact Hz |].
  now rewrite (relay_unbound_cache_raises_name_error Sample.sample 15 Sample.first_upload
                 (Sample.wire Sample.happy_envelope)
                 (encode_utf8 (Sample.dumps Sample.happy_envelope true))
                 Sample.happy_envelope SampleMore.start_without_cache
                 eq_refl eq_refl Hz Hj).
Defined.

End RelayMore.

(** ** More about [bytes.split] and the Monitor *)

Module MonitorMore.
Import Monitor MonitorSpec.

Section SplitMore.

Variable sep : bytes.
Hypothesis sep_nonempty : sep <> [].

Lemma bytes_join_cons (b : byte) (segment : bytes) (segments : list bytes) :
  bytes_join sep ((b :: segment) :: segments) = b :: bytes_join sep (segment :: segments).
Proof. destruct segments; reflexivity. Qed.

Lemma join_split_from (skip : nat) (l : bytes) :
  bytes_join sep (split_from sep skip l) = drop skip l.
Proof.
  revert skip. induction l as [| b l IH]; intros skip.
  - cbn. now destruct skip.
  - cbn [split_from]. destruct skip as [| k]; [| apply IH].
    destruct (bool_decide (sep `prefix_of` b :: l)) eqn:Hp.
    + apply bool_decide_eq_true_1 in Hp. destruct Hp as [post Hpost].
      destruct sep as [| b' x] eqn:Hsep; [contradiction |].
      injection Hpost as <- ->.
      specialize (IH (length (b :: x) - 1)%nat).
      destruct (split_from (b :: x) (length (b :: x) - 1) (x ++ post)) as [| s segs] eqn:Hs.
      * exfalso. revert Hs. apply split_from_nonempty.
      * replace (length (b :: x) - 1)%nat with (length x) in IH by (cbn [length]; lia).
        rewrite drop_app_length in IH.
        change (bytes_join (b :: x) ([] :: s :: segs))
          with ([] ++ (b :: x) ++ bytes_join (b :: x) (s :: segs)).
        rewrite IH. reflexivity.
    + specialize (IH 0%nat). cbn [drop] in *.
      destruct (split_from sep 0 l) as [| s segs] eqn:Hs.
      * exfalso. revert Hs. apply split_from_nonempty.
      * rewrite bytes_join_cons. now rewrite IH.
Qed.

Lemma split_from_head_prefix (l head : bytes) (segments : list bytes) :
  split_from sep 0 l = head :: segments -> head `prefix_of` l.
Proof.
  revert head segments. induction l as [| b l IH]; intros head segments.
  - cbn. intros [= <- <-]. reflexivity.
  - cbn [split_from]. destruct (bool_decide _).
    + intros [= <- _]. apply prefix_nil.
    + destruct (split_from sep 0 l) as [| s segs] eqn:Hs.
      * intros [= <- _]. now apply prefix_cons, prefix_nil.
      * intros [= <- _]. apply prefix_cons. now apply (IH s segs).
Qed.

(* No segment of a split holds the separator. *)
Lemma split_from_segments (skip : nat) (l segment : bytes) :
  segment ∈ split_from sep skip l -> ~ occurs sep segment.
Proof.
  revert skip segment. induction l as [| b l IH]; intros skip segment.
  - cbn. rewrite list_elem_of_singleton. intros -> (pre & post & Hl).
    symmetry in Hl. apply app_eq_nil in Hl. destruct Hl as [_ Hl].
    apply app_eq_nil in Hl. now destruct Hl.
  - cbn [split_from]. destruct skip as [| k]; [| apply IH].
    destruct (bool_decide (sep `prefix_of` b :: l)) eqn:Hp.
    + rewrite elem_of_cons. intros [-> | Hin]; [| now apply (IH _ _ Hin)].
      intros (pre & post & Hl). symmetry in Hl.
      apply app_eq_nil in Hl. destruct Hl as [_ Hl].
      apply app_eq_nil in Hl. now destruct Hl.
    + apply bool_decide_eq_false_1 in Hp.
      destruct (split_from sep 0 l) as [| s segs] eqn:Hs.
      * exfalso. revert Hs. apply split_from_nonempty.
      * rewrite elem_of_cons. intros [-> | Hin].
        -- intros (pre & post & Hl). destruct pre as [| a pre].
           ++ apply Hp. cbn [app] in Hl.
              apply split_from_head_prefix in Hs. destruct Hs as [rest ->].
              exists (post ++ rest).
              change (b :: s ++ rest) with ((b :: s) ++ rest).
              rewrite Hl. now rewrite <- app_assoc.
           ++ injection Hl as <- Hl.
              apply (IH 0%nat s); [rewrite Hs; apply list_elem_of_here |].
              now exists pre, post.
        -- apply (IH 0%nat segment). rewrite Hs. now apply list_elem_of_further.
Qed.

End SplitMore.

Lemma strip_topic_is_segment (message : bytes) :
  strip_topic message ∈ bytes_split SEPARATOR message.
Proof.
  unfold strip_topic.
  destruct (bytes_split SEPARATOR message) as [| s0 [| s1 segs]] eqn:Hs.
  - exfalso. revert Hs. apply split_from_nonempty.
  - cbn. apply list_elem_of_here.
  - cbn. apply list_elem_of_further, list_elem_of_here.
Qed.

(** X12.  As written, [monitor_worker] never reaches the counting block:
    every run ends in an exception with the database and the duplicate
    cache untouched.  For a frame that inflates and parses to an envelope
    with a [$schemaRef] and a string [softwareName] the exception is the
    [TypeError] of adding [bytes] and [str] in the software ID. *)
Theorem monitor_worker_never_counts (L : libs) (RELAY_DUPLICATE_MAX_MINUTES default_hits : Z)
    (message : bytes) (w : world L) :
  (exists e,
     monitor_worker L RELAY_DUPLICATE_MAX_MINUTES default_hits message w = (w, Raise e))
  /\ (forall (text : bytes) (json schema_id header : JSON) (software_name : string),
        zlib_decompress L (strip_topic message) = Some text ->
        simplejson_loads L text = Some json ->
        getitem json "$schemaRef" = Ok schema_id ->
        getitem json "header" = Ok header ->
        getitem header "softwareName" = Ok (JStr software_name) ->
        monitor_worker L RELAY_DUPLICATE_MAX_MINUTES default_hits message w
        = (w, Raise TypeError)).
Proof.
  split; [apply MonitorFacts.monitor_worker_raises |].
  intros text json schema_id header software_name Hz Hj Hs Hh Hn.
  unfold monitor_worker, bind, lift. rewrite Hz. cbn [of_option]. rewrite Hj. cbn [of_option].
  rewrite Hs. unfold software_id_of, bind_result. rewrite Hh, Hn. reflexivity.
Qed.

Lemma monitor_worker_never_counts_witness :
  zlib_decompress Sample.sample (strip_topic Sample.prefixed_frame)
  = Some (encode_utf8 (Sample.dumps Sample.happy_envelope true))
  /\ getitem (JObj Sample.happy_header) "softwareName" = Ok (JStr "EDMC")
  /\ monitor_worker Sample.sample 15 1 Sample.prefixed_frame Sample.monitor_seen
     = (Sample.monitor_seen, Raise TypeError).
Proof.
  assert (Hz : zlib_decompress Sample.sample (strip_topic Sample.prefixed_frame)
               = Some (encode_utf8 (Sample.dumps Sample.happy_envelope true)))
    by (vm_compute; reflexivity).
  assert (Hn : getitem (JObj Sample.happy_header) "softwareName" = Ok (JStr "EDMC"))
    by (vm_compute; reflexivity).
  split; [exact Hz |]. split; [exact Hn |].
  apply (proj2 (monitor_worker_never_counts Sample.sample 15 1 Sample.prefixed_frame
                  Sample.monitor_seen)
           (encode_utf8 (Sample.dumps Sample.happy_envelope true))
           Sample.happy_envelope
           (JStr "https://eddn.edcd.io/schemas/commodity/3")
           (JObj Sample.happy_header) "EDMC" Hz).
  - vm_compute; reflexivity.
  - vm_compute; reflexivity.
  - vm_compute; reflexivity.
  - exact Hn.
Defined.

(** X13.  The bytes the Monitor hands to the inflater never hold the
    separator, whatever the frame; stripping them again changes nothing. *)
Theorem monitor_stripped_bytes_have_no_separator (message : bytes) :
  ~ occurs SEPARATOR (strip_topic message)
  /\ strip_topic (strip_topic message) = strip_topic message.
Proof.
  assert (Hclean : ~ occurs SEPARATOR (strip_topic message)).
  { apply (split_from_segments SEPARATOR SEPARATOR_nonempty 0 message).
    apply strip_topic_is_segment. }
  split; [exact Hclean |].
  unfold strip_topic at 1. unfold bytes_split.
  now rewrite (split_from_absent SEPARATOR (strip_topic message) Hclean).
Qed.

(** X14.  Joining the segments of a frame with the separator gives the frame
    back.  So a frame in which the separator occurs is its first segment,
    the separator, the bytes the Monitor inflates, and then either nothing
    or further bytes that start with a separator and are dropped. *)
Theorem monitor_frame_is_topic_payload_rest (message : bytes) :
  bytes_join SEPARATOR (bytes_split SEPARATOR message) = message
  /\ (occurs SEPARATOR message ->
      exists topic rest : bytes,
        message = topic ++ SEPARATOR ++ strip_topic message ++ rest
        /\ (rest = [] \/ SEPARATOR `prefix_of` rest)).
Proof.
  assert (Hjoin : bytes_join SEPARATOR (bytes_split SEPARATOR message) = message)
    by apply (join_split_from SEPARATOR SEPARATOR_nonempty 0 message).
  split; [exact Hjoin |].
  intros Hocc.
  destruct (first_occurrence SEPARATOR SEPARATOR_nonempty message Hocc)
    as (pre & post & Hmsg & Hfirst).
  assert (Hsplit : bytes_split SEPARATOR message = pre :: split_from SEPARATOR 0 post).
  { rewrite Hmsg in Hfirst |- *.
    now apply (split_from_first SEPARATOR SEPARATOR_nonempty). }
  unfold strip_topic. rewrite Hsplit in Hjoin |- *.
  destruct (split_from SEPARATOR 0 post) as [| segment segments] eqn:Hpost.
  - exfalso. revert Hpost. apply split_from_nonempty.
  - cbn [length nth Nat.ltb Nat.leb].
    destruct segments as [| next segments].
    + exists pre, []. split; [| now left].
      rewrite app_nil_r. cbn [bytes_join] in Hjoin. now symmetry.
    + exists pre, (SEPARATOR ++ bytes_join SEPARATOR (next :: segments)).
      split; [| right; now eexists].
      symmetry. exact Hjoin.
Qed.

Lemma monitor_frame_is_topic_payload_rest_witness :
  occurs SEPARATOR MonitorSample.unlucky_frame
  /\ strip_topic MonitorSample.unlucky_frame = encode_utf8 "AB"
  /\ exists topic rest : bytes,
       MonitorSample.unlucky_frame
       = topic ++ SEPARATOR ++ strip_topic MonitorSample.unlucky_frame ++ rest
       /\ (rest = [] \/ SEPARATOR `prefix_of` rest).
Proof.
  assert (Hocc : occurs SEPARATOR MonitorSample.unlucky_frame)
    by (exists (encode_utf8 "topic"), (encode_utf8 "AB |-| CD"); reflexivity).
  split; [exact Hocc |].
  split; [vm_compute; reflexivity |].
  exact (proj2 (monitor_frame_is_topic_payload_rest MonitorSample.unlucky_frame) Hocc).
Defined.

End MonitorMore.
